(** * Calculator tool server and its two clients: a shallow embedding

    The development embeds the four Python programs of the repository:

    - [mcp_server/server.py]   the calculator worker (module [Worker]);
    - [server.py]              the graph-based sibling worker (module [GraphWorker]);
    - [mcp_simple_chatbot/main.py]  [MCPServer] and [ChatSession] (modules
      [Client] and [Chat]);
    - [langgraph_flow/main.py] the planning and dispatching nodes (module [Flow]).

    Python values are an inductive type, [str] is [string] (the bytes of its
    UTF-8 encoding), [float] is the kernel's binary64 [float], exceptions are
    values of a sum type, with the ones that [except Exception] does not
    catch kept apart where an expression is evaluated, and the effects of the
    clients (spawning the worker, talking to the session, printing) are
    threaded through an explicit state and error monad over a store that
    holds the [MCPServer] objects. *)

From Stdlib Require Import String Ascii List ZArith Lia Bool PeanoNat.
From Stdlib Require Import Floats DecimalString.
Import ListNotations.
Set Warnings "-register-all".

Local Open Scope string_scope.

(** ** Python strings *)

Module PyStr.

Definition dquote : ascii := ascii_of_nat 34.
Definition newline : ascii := ascii_of_nat 10.
Definition nl : string := String newline "".

Fixpoint map_chars (f : ascii -> ascii) (s : string) : string :=
  match s with
  | EmptyString => EmptyString
  | String c r => String (f c) (map_chars f r)
  end.

(** [dq] writes a text that contains double quotes with single quotes in
    their place, so that directive texts stay readable. *)
Definition dq (s : string) : string :=
  map_chars (fun c => if Ascii.eqb c "'" then dquote else c) s.

Definition startswith (s p : string) : bool := String.prefix p s.

(** [str.isspace] on the ASCII range: TAB..CR, FS..US and the space. *)
Definition isspace (c : ascii) : bool :=
  let n := nat_of_ascii c in
  (((9 <=? n) && (n <=? 13)) || ((28 <=? n) && (n <=? 32)))%nat.

(** The number of bytes of the white-space character that starts the text,
    [0] when none does. Beyond ASCII, [str.isspace] holds of U+0085, U+00A0,
    U+1680, U+2000 to U+200A, U+2028, U+2029, U+202F, U+205F and U+3000,
    which UTF-8 writes on two or three bytes. *)
Definition space_length (s : string) : nat :=
  match s with
  | EmptyString => 0
  | String c r =>
      if isspace c then 1
      else
        let a := nat_of_ascii c in
        match r with
        | EmptyString => 0
        | String d r' =>
            let b := nat_of_ascii d in
            if ((a =? 194) && ((b =? 133) || (b =? 160)))%nat then 2
            else
              match r' with
              | EmptyString => 0
              | String e _ =>
                  let x := nat_of_ascii e in
                  if ((a =? 225) && (b =? 154) && (x =? 128))%nat then 3
                  else if ((a =? 226) && (b =? 128)
                           && (((128 <=? x) && (x <=? 138))
                               || (x =? 168) || (x =? 169) || (x =? 175)))%nat
                       then 3
                  else if ((a =? 226) && (b =? 129) && (x =? 159))%nat then 3
                  else if ((a =? 227) && (b =? 128) && (x =? 128))%nat then 3
                  else 0
              end
        end
  end.

(** [lstrip]: [skip] counts the bytes still to drop of the white-space
    character being removed. *)
Fixpoint lstrip_from (skip : nat) (s : string) : string :=
  match s with
  | EmptyString => EmptyString
  | String c r =>
      match skip with
      | S k => lstrip_from k r
      | O =>
          match space_length s with
          | O => s
          | S k => lstrip_from k r
          end
      end
  end.

Definition lstrip (s : string) : string := lstrip_from 0 s.

(** The text is made of white-space characters only. *)
Fixpoint blank_from (skip : nat) (s : string) : bool :=
  match s with
  | EmptyString => true
  | String c r =>
      match skip with
      | S k => blank_from k r
      | O =>
          match space_length s with
          | O => false
          | S k => blank_from k r
          end
      end
  end.

Definition blank (s : string) : bool := blank_from 0 s.

Fixpoint rstrip (s : string) : string :=
  match s with
  | EmptyString => EmptyString
  | String c r => if blank s then EmptyString else String c (rstrip r)
  end.

Definition strip (s : string) : string := rstrip (lstrip s).

Definition lower_char (c : ascii) : ascii :=
  let n := nat_of_ascii c in
  if ((65 <=? n) && (n <=? 90))%nat then ascii_of_nat (n + 32) else c.

(** [str.lower] on the ASCII letters. The programs compare the result with
    [exit] and [quit], and no text with a character beyond ASCII lowers to
    either word. *)
Definition lower (s : string) : string := map_chars lower_char s.

(** [sep.join(parts)] *)
Fixpoint join (sep : string) (parts : list string) : string :=
  match parts with
  | [] => ""
  | [p] => p
  | p :: rest => p ++ sep ++ join sep rest
  end.

(** Drop the first [n] characters. *)
Fixpoint drop (n : nat) (s : string) : string :=
  match n, s with
  | O, _ => s
  | S _, EmptyString => EmptyString
  | S m, String _ r => drop m r
  end.

(** [cut pat s] splits [s] around the first occurrence of [pat]. *)
Fixpoint cut (pat s : string) : option (string * string) :=
  if String.prefix pat s then Some ("", drop (String.length pat) s)
  else match s with
       | EmptyString => None
       | String c r =>
           match cut pat r with
           | Some (b, a) => Some (String c b, a)
           | None => None
           end
       end.

Fixpoint mem_char (c : ascii) (s : string) : bool :=
  match s with
  | EmptyString => false
  | String d r => Ascii.eqb c d || mem_char c r
  end.

Definition is_digit (c : ascii) : bool :=
  let n := nat_of_ascii c in ((48 <=? n) && (n <=? 57))%nat.

Fixpoint take_digits (s : string) : string * string :=
  match s with
  | EmptyString => ("", s)
  | String c r =>
      if is_digit c
      then let (ds, rest) := take_digits r in (String c ds, rest)
      else ("", s)
  end.

Fixpoint Z_of_digits (acc : Z) (s : string) : Z :=
  match s with
  | EmptyString => acc
  | String c r => Z_of_digits (10 * acc + Z.of_nat (nat_of_ascii c - 48)) r
  end.

Definition in_strings (s : string) (l : list string) : bool :=
  existsb (String.eqb s) l.

Definition string_of_Z (z : Z) : string := NilZero.string_of_int (Z.to_int z).
Definition string_of_nat (n : nat) : string := string_of_Z (Z.of_nat n).

Definition hex_digit (n : nat) : ascii :=
  nth n (list_ascii_of_string "0123456789abcdef") "0"%char.

(** A byte that continues a UTF-8 sequence, and the bytes that continue the
    sequence of the character before the text. *)
Definition continuation (c : ascii) : bool :=
  let n := nat_of_ascii c in ((128 <=? n) && (n <? 192))%nat.

Fixpoint take_continuation (s : string) : string :=
  match s with
  | EmptyString => EmptyString
  | String c r => if continuation c then String c (take_continuation r) else EmptyString
  end.

Fixpoint code_point_from (acc : N) (more : string) : N :=
  match more with
  | EmptyString => acc
  | String c r => code_point_from (acc * 64 + (N_of_ascii c - 128))%N r
  end.

(** The code point that a lead byte and its continuation bytes write. *)
Definition code_point (lead : ascii) (more : string) : N :=
  let n := N_of_ascii lead in
  code_point_from
    (if n <? 128 then n else if n <? 224 then n - 192
     else if n <? 240 then n - 224 else n - 240)%N more.

(** [n] on [width] hexadecimal digits. *)
Fixpoint hex_of (width : nat) (n : N) : string :=
  match width with
  | O => EmptyString
  | S w => hex_of w (n / 16)%N ++ String (hex_digit (N.to_nat (n mod 16)%N)) ""
  end.

(** How [repr(str)] writes a character that is not printable, beyond the
    ASCII range. *)
Definition repr_escape (cp : N) : string :=
  (if cp <? 256 then "\x" ++ hex_of 2 cp
   else if cp <? 65536 then "\u" ++ hex_of 4 cp
   else "\U" ++ hex_of 8 cp)%N.

(** One ASCII character of [repr(str)] inside the quote [q]. *)
Definition repr_char (q c : ascii) : string :=
  let n := nat_of_ascii c in
  if Ascii.eqb c "\" then "\\"
  else if Ascii.eqb c q then String "\" (String q "")
  else if (n =? 9)%nat then "\t"
  else if (n =? 10)%nat then "\n"
  else if (n =? 13)%nat then "\r"
  else if ((n <? 32) || (n =? 127))%nat
       then "\x" ++ String (hex_digit (n / 16)) (String (hex_digit (n mod 16)) "")
  else String c "".

End PyStr.

(** ** Python floats and their text

    [float(str)] and [repr(float)] over the kernel's binary64 numbers: reading
    rounds the decimal to the nearest float, ties to even, and [repr] is the
    shortest decimal that reads back as the same float. *)

Module PyFloat.
Import PyStr.

(** The binary64 nearest to [n / d], for positive [n] and [d]. The quotient
    is cut to at least 64 bits with a sticky bit below them, so the one
    rounding that follows is the rounding of the exact value. *)
Definition of_fraction (n d : Z) : float :=
  let s := (64 + Z.log2_up d)%Z in
  let x := (n * 2 ^ s)%Z in
  let q := (x / d)%Z in
  let sticky := if (x mod d =? 0)%Z then 0%Z else 1%Z in
  SF2Prim (binary_normalize prec emax (2 * q + sticky) (- (s + 1)) false).

(** The binary64 nearest to [m * 10 ^ e], for [m >= 0]. *)
Definition of_decimal (m e : Z) : float :=
  if (m =? 0)%Z then 0%float
  else if (0 <=? e)%Z
       then SF2Prim (binary_normalize prec emax (m * 10 ^ e) 0 false)
       else of_fraction m (10 ^ (- e)).

(** The text is made of ASCII white space only. *)
Fixpoint all_space (s : string) : bool :=
  match s with
  | EmptyString => true
  | String c r => isspace c && all_space r
  end.

(** The exponent part: the letter, an optional sign, digits. *)
Definition exponent (s : string) : option (Z * string) :=
  match s with
  | String c r =>
      if Ascii.eqb (lower_char c) "e" then
        let (neg, r1) := match r with
                         | String "-" r1 => (true, r1)
                         | String "+" r1 => (false, r1)
                         | _ => (false, r)
                         end in
        match take_digits r1 with
        | (EmptyString, _) => None
        | (ds, rest) =>
            let x := Z_of_digits 0 ds in Some (if neg then (- x)%Z else x, rest)
        end
      else Some (0%Z, s)
  | EmptyString => Some (0%Z, s)
  end.

(** [float(text)] for a [str]: surrounding whitespace, a sign, then [inf],
    [infinity], [nan] or a decimal number with at least one digit. [None]
    is the [ValueError]. Underscores between digits and the decimal digits
    beyond ASCII, which [float] accepts too, are not read. *)
Definition of_string (text : string) : option float :=
  let s := lstrip text in
  let (neg, s) := match s with
                  | String "-" r => (true, r)
                  | String "+" r => (false, r)
                  | _ => (false, s)
                  end in
  let signed (f : float) := if neg then (- f)%float else f in
  let (ip, r1) := take_digits s in
  let (fp, r2) := match r1 with
                  | String "." r => take_digits r
                  | _ => ("", r1)
                  end in
  if String.eqb ip "" && String.eqb fp "" then
    let word := lower s in
    let tail n := blank (substring n (String.length word) word) in
    if String.prefix "infinity" word && tail 8 then Some (signed infinity)
    else if String.prefix "inf" word && tail 3 then Some (signed infinity)
    else if String.prefix "nan" word && tail 3 then Some nan
    else None
  else
    match exponent r2 with
    | None => None
    | Some (e, r3) =>
        if blank r3
        then Some (signed (of_decimal (Z_of_digits 0 (ip ++ fp))
                             (e - Z.of_nat (String.length fp))))
        else None
    end.

(** The largest [k] with [10 ^ k <= n / d], searched downwards. *)
Fixpoint floor_log10_from (fuel : nat) (k n d : Z) : Z :=
  match fuel with
  | O => k
  | S fuel' =>
      let fits := if (0 <=? k)%Z then (d * 10 ^ k <=? n)%Z
                  else (d <=? n * 10 ^ (- k))%Z in
      if fits then k else floor_log10_from fuel' (k - 1) n d
  end.

(** The search starts from a bound read off the binary logarithms. *)
Definition floor_log10 (n d : Z) : Z :=
  let bits := (Z.log2 n - Z.log2 d + 1)%Z in
  floor_log10_from 700 (bits * 30103 / 100000 + 1) n d.

(** The decimals with a given number of figures around [n / d], as integers
    scaled by [10 ^ p], the closer one first. *)
Definition candidates (n d p : Z) : list Z :=
  let (num, den) := if (0 <=? p)%Z then (n, d * 10 ^ p)%Z
                    else (n * 10 ^ (- p), d)%Z in
  let lo := (num / den)%Z in
  let r := (num mod den)%Z in
  if (r =? 0)%Z then [lo]
  else if (2 * r <? den)%Z then [lo; (lo + 1)%Z]
  else if (den <? 2 * r)%Z then [(lo + 1)%Z; lo]
  else if Z.even lo then [lo; (lo + 1)%Z] else [(lo + 1)%Z; lo].

Fixpoint first_round_trip (f : float) (p : Z) (cs : list Z) : option Z :=
  match cs with
  | [] => None
  | c :: rest => if PrimFloat.eqb (of_decimal c p) f then Some c
                 else first_round_trip f p rest
  end.

(** The shortest decimal that reads back as [f]: its digits as an integer
    and the power of ten that scales them. Seventeen figures always do. *)
Fixpoint shortest (fuel : nat) (digits : Z) (f : float) (n d k : Z) : Z * Z :=
  let p := (k - digits + 1)%Z in
  match fuel with
  | O => (0%Z, 0%Z)
  | S fuel' =>
      match first_round_trip f p (candidates n d p) with
      | Some c => (c, p)
      | None => shortest fuel' (digits + 1) f n d k
      end
  end.

Fixpoint strip_zeros (fuel : nat) (c p : Z) : Z * Z :=
  match fuel with
  | O => (c, p)
  | S fuel' =>
      if (c mod 10 =? 0)%Z then strip_zeros fuel' (c / 10) (p + 1) else (c, p)
  end.

Fixpoint zeros (n : nat) : string :=
  match n with
  | O => ""
  | S m => String "0" (zeros m)
  end.

(** The digits [ds], with the decimal point [decpt] places after their
    start, in the layout of [repr]: an exponent below [1e-04] and from
    [1e+16] on. *)
Definition layout (ds : string) (decpt : Z) : string :=
  let len := Z.of_nat (String.length ds) in
  if ((decpt <? -3) || (16 <? decpt))%Z then
    let e := (decpt - 1)%Z in
    let mant := match ds with
                | String c EmptyString => String c ""
                | String c r => String c ("." ++ r)
                | EmptyString => ""
                end in
    let es := string_of_Z (Z.abs e) in
    mant ++ "e" ++ (if (e <? 0)%Z then "-" else "+")
         ++ (if (Z.abs e <? 10)%Z then "0" ++ es else es)
  else if (decpt <=? 0)%Z then "0." ++ zeros (Z.to_nat (- decpt)) ++ ds
  else if (len <=? decpt)%Z then ds ++ zeros (Z.to_nat (decpt - len)) ++ ".0"
  else substring 0 (Z.to_nat decpt) ds ++ "."
         ++ substring (Z.to_nat decpt) (String.length ds) ds.

(** [repr(f)] *)
Definition repr (f : float) : string :=
  match Prim2SF f with
  | S754_nan => "nan"
  | S754_infinity neg => if neg then "-inf" else "inf"
  | S754_zero neg => if neg then "-0.0" else "0.0"
  | S754_finite neg m e =>
      let (n, d) := if (0 <=? e)%Z then (Z.pos m * 2 ^ e, 1)%Z
                    else (Z.pos m, 2 ^ (- e))%Z in
      let k := floor_log10 n d in
      let (c, p) := shortest 17 1 (abs f) n d k in
      let (c, p) := strip_zeros 20 c p in
      let ds := string_of_Z c in
      (if neg then "-" else "") ++ layout ds (p + Z.of_nat (String.length ds))
  end.

End PyFloat.

(** ** Python values and exceptions *)

Module Py.
Import PyStr.

(** The values that travel through the programs: what [json.loads] builds,
    what a tool receives as [arguments], what [eval] returns. [VObject] is
    any other object, by the qualified name of its class and what tells it
    from the other objects of that class: a class is an object of class
    [type]. *)
Inductive PyVal : Type :=
| VNone
| VBool (b : bool)
| VInt (z : Z)
| VFloat (f : float)
| VStr (s : string)
| VList (items : list PyVal)
| VDict (entries : list (string * PyVal))
| VBuiltin (name : string)
| VTuple (items : list PyVal)
| VObject (cls : string) (state : list PyVal).

(** A [dict] keeps its keys in insertion order; writing an existing key
    replaces the value in place. *)
Definition PyDict : Type := list (string * PyVal).

Fixpoint dict_get (k : string) (d : PyDict) : option PyVal :=
  match d with
  | [] => None
  | (k', v) :: r => if String.eqb k k' then Some v else dict_get k r
  end.

Fixpoint dict_set (k : string) (v : PyVal) (d : PyDict) : PyDict :=
  match d with
  | [] => [(k, v)]
  | (k', v') :: r =>
      if String.eqb k k' then (k', v) :: r else (k', v') :: dict_set k v r
  end.

Definition dict_keys (d : PyDict) : list string := map fst d.

(** An exception: the class name and [str(e)]. *)
Record PyExc : Type := mkExc { exc_class : string; exc_str : string }.

(** The outcome of a Python computation that returns or raises an
    exception deriving from [Exception]. *)
Inductive Outcome (A : Type) : Type :=
| Returns (a : A)
| Raises (e : PyExc).
Arguments Returns {A} a.
Arguments Raises {A} e.

(** How a computation that runs the code of any object goes: as an
    [Outcome], or it raises an exception that does not derive from
    [Exception] ([SystemExit], [KeyboardInterrupt], [GeneratorExit]), or it
    never comes to an end. *)
Inductive Completion (A : Type) : Type :=
| Completes (a : A)
| Excepts (e : PyExc)
| Exits (e : PyExc)
| Diverges.
Arguments Completes {A} a.
Arguments Excepts {A} e.
Arguments Exits {A} e.
Arguments Diverges {A}.

Definition of_outcome {A} (o : Outcome A) : Completion A :=
  match o with
  | Returns a => Completes a
  | Raises e => Excepts e
  end.

Definition cbind {A B} (c : Completion A) (k : A -> Completion B) : Completion B :=
  match c with
  | Completes a => k a
  | Excepts e => Excepts e
  | Exits e => Exits e
  | Diverges => Diverges
  end.

(** A computation that does not come back with a value. *)
Definition stops {A} (c : Completion A) : Prop := forall a, c <> Completes a.

(** What a [try] block with an [except Exception] clause that returns comes
    to: an answer, or the exception that the clause does not catch, or no
    answer ever. *)
Inductive Handled (A : Type) : Type :=
| Answers (a : A)
| Passes (e : PyExc)
| NoAnswer.
Arguments Answers {A} a.
Arguments Passes {A} e.
Arguments NoAnswer {A}.

(** [try: c  except Exception as e: h e] *)
Definition except_Exception {A} (c : Completion A) (h : PyExc -> A) : Handled A :=
  match c with
  | Completes a => Answers a
  | Excepts e => Answers (h e)
  | Exits e => Passes e
  | Diverges => NoAnswer
  end.

Definition hmap {A B} (f : A -> B) (h : Handled A) : Handled B :=
  match h with
  | Answers a => Answers (f a)
  | Passes e => Passes e
  | NoAnswer => NoAnswer
  end.

(** A call of a function that handles [Exception]: what the function passes
    on goes on through the caller. *)
Definition called {A} (h : Handled A) : Completion A :=
  match h with
  | Answers a => Completes a
  | Passes e => Exits e
  | NoAnswer => Diverges
  end.

Definition obind {A B} (o : Outcome A) (k : A -> Outcome B) : Outcome B :=
  match o with
  | Returns a => k a
  | Raises e => Raises e
  end.

(** [try: o  except Exception as e: h e], for a block that ends as an
    [Outcome]. *)
Definition otry {A} (o : Outcome A) (h : PyExc -> A) : A :=
  match o with
  | Returns a => a
  | Raises e => h e
  end.

(** Expressions, as [eval] sees them once compiled. *)
Inductive unop := UNeg | UPos | UNot.
Inductive binop := BAdd | BSub | BMul | BDiv | BFloorDiv | BMod | BPow.
Inductive boolop := BoolAnd | BoolOr.
Inductive cmpop := CEq | CNe | CLt | CLe | CGt | CGe.

(** Expressions. The forms that are embedded by their structure: constants,
    names, the unary and binary operators, [and] and [or], the conditional
    expression, calls with positional arguments, attribute access,
    subscripts, a comparison of two operands by [==], [!=], [<], [<=], [>]
    or [>=], tuple displays, and the list comprehension with one [for]
    clause over a name and any number of [if] clauses. Any other form
    ([lambda], the other displays and comprehensions, a chain of
    comparisons, an assignment expression, ...) is [EOther] with its code,
    which the runtime evaluates as a whole. *)
Inductive expr : Type :=
| EConst (v : PyVal)
| EName (id : string)
| EUnary (op : unop) (e : expr)
| EBin (op : binop) (l r : expr)
| EBool (op : boolop) (l r : expr)
| EIfExp (test body orelse : expr)
| ECall (func : expr) (args : list expr)
| EAttr (e : expr) (attr : string)
| ESubscript (e index : expr)
| ECompare (op : cmpop) (l r : expr)
| ETuple (items : list expr)
| EListComp (elt : expr) (var : string) (iter : expr) (conds : list expr)
| EOther (code : string).

(** What the interpreter and its libraries provide and the repository only
    uses: the conversions between [float] and text, the messages of
    pydantic's validation errors, the expression compiler behind [eval], the
    operations of the object model (which run the code of the objects they
    are applied to), the evaluation of the expression forms that are not
    embedded by their structure, the text of an object (from its class and the texts of
    what tells it apart) and its truth value, whether the
    body of a comprehension sees the locals passed to [eval] (it does since
    the comprehensions are inlined, and not before), the nesting that the
    recursion limit leaves to the JSON decoder beyond a hundred levels, the
    table of the printable characters by code point ([str.isprintable]), and
    the contents of the [math] module. The programs are embedded over any such runtime;
    [Reference.runtime] is one to compute with. *)
Class Runtime : Type := {
  float_repr : float -> string;
  float_of_string : string -> option float;
  validation_message : string -> PyVal -> string;
  compile_eval : string -> Outcome expr;
  apply_unop : unop -> PyVal -> Completion PyVal;
  apply_binop : binop -> PyVal -> PyVal -> Completion PyVal;
  apply_compare : cmpop -> PyVal -> PyVal -> Completion PyVal;
  apply_call : PyVal -> list PyVal -> Completion PyVal;
  getattr : PyVal -> string -> Completion PyVal;
  subscript : PyVal -> PyVal -> Completion PyVal;
  iterate : PyVal -> Completion (list PyVal);
  eval_other : string -> PyDict -> PyDict -> Completion PyVal;
  object_repr : string -> list string -> string;
  object_truth : string -> list PyVal -> bool;
  comprehension_sees_locals : bool;
  json_nesting_spare : nat;
  isprintable : N -> bool;
  math_dict : PyDict
}.

(** How many arrays and objects the JSON decoder can be inside of at once.
    Every one of them is a level of the interpreter's recursion, and the
    decoder raises [RecursionError] where the limit is reached. The programs
    leave the limit at its default of a thousand levels and call the decoder
    from a few dozen frames: a hundred levels are there, and how many more
    is the interpreter's. *)
Definition json_nesting_limit {RT : Runtime} : nat := 100 + json_nesting_spare.

Section Repr.
Context {RT : Runtime}.

(** The characters of [repr(str)] inside the quote [q]: a character beyond
    the ASCII range is kept when it is printable and written as an escape of
    its code point when it is not. *)
Fixpoint repr_chars (q : ascii) (s : string) : string :=
  match s with
  | EmptyString => EmptyString
  | String c r =>
      if (nat_of_ascii c <? 128)%nat then repr_char q c ++ repr_chars q r
      else if continuation c then repr_chars q r
      else
        let more := take_continuation r in
        (if isprintable (code_point c more) then String c more
         else repr_escape (code_point c more)) ++ repr_chars q r
  end.

(** [repr(s)] for a [str]: single quotes unless the text has a single quote
    and no double quote. *)
Definition repr_str (s : string) : string :=
  let q := if mem_char "'" s && negb (mem_char dquote s) then dquote else "'"%char in
  String q (repr_chars q s ++ String q "").

(** [repr(v)] *)
Fixpoint py_repr (v : PyVal) : string :=
  match v with
  | VNone => "None"
  | VBool true => "True"
  | VBool false => "False"
  | VInt z => string_of_Z z
  | VFloat f => float_repr f
  | VStr s => repr_str s
  | VList items => "[" ++ join ", " (map py_repr items) ++ "]"
  | VDict entries =>
      "{" ++ join ", "
              (map (fun kv => match kv with
                              | (k, x) => repr_str k ++ ": " ++ py_repr x
                              end) entries) ++ "}"
  | VBuiltin name => "<built-in function " ++ name ++ ">"
  | VTuple items =>
      match items with
      | [x] => "(" ++ py_repr x ++ ",)"
      | _ => "(" ++ join ", " (map py_repr items) ++ ")"
      end
  | VObject cls state =>
      object_repr cls (map (fun x => match x with
                                     | VStr t => t
                                     | _ => py_repr x
                                     end) state)
  end.

(** [str(v)], which is what an f-string field shows. *)
Definition py_str (v : PyVal) : string :=
  match v with
  | VStr s => s
  | _ => py_repr v
  end.

(** [repr] of a list of floats and of a list of strings. *)
Definition repr_floats (l : list float) : string :=
  py_repr (VList (map VFloat l)).
Definition repr_strings (l : list string) : string :=
  py_repr (VList (map VStr l)).

(** Truth value of an object. *)
Definition truthy (v : PyVal) : bool :=
  match v with
  | VNone => false
  | VBool b => b
  | VInt z => negb (Z.eqb z 0)
  | VFloat f => negb (PrimFloat.eqb f 0%float)
  | VStr s => negb (String.eqb s "")
  | VList l => match l with [] => false | _ => true end
  | VDict d => match d with [] => false | _ => true end
  | VBuiltin _ => true
  | VTuple l => match l with [] => false | _ => true end
  | VObject cls state => object_truth cls state
  end.
End Repr.

(** The name of a class without its module. *)
Fixpoint unqualified (q : string) : string :=
  match q with
  | EmptyString => EmptyString
  | String c r =>
      if mem_char "." r then unqualified r
      else if Ascii.eqb c "." then r
      else q
  end.

(** [type(v).__name__] *)
Definition type_name (v : PyVal) : string :=
  match v with
  | VNone => "NoneType"
  | VBool _ => "bool"
  | VInt _ => "int"
  | VFloat _ => "float"
  | VStr _ => "str"
  | VList _ => "list"
  | VDict _ => "dict"
  | VBuiltin _ => "builtin_function_or_method"
  | VTuple _ => "tuple"
  | VObject cls _ => unqualified cls
  end.

(** [v[key]] for a [str] key. *)
Definition getitem {RT : Runtime} (v : PyVal) (key : string) : Outcome PyVal :=
  match v with
  | VDict d =>
      match dict_get key d with
      | Some x => Returns x
      | None => Raises (mkExc "KeyError" (repr_str key))
      end
  | VStr _ => Raises (mkExc "TypeError" "string indices must be integers, not 'str'")
  | VList _ =>
      Raises (mkExc "TypeError" "list indices must be integers or slices, not str")
  | VTuple _ =>
      Raises (mkExc "TypeError" "tuple indices must be integers or slices, not str")
  | _ => Raises (mkExc "TypeError" ("'" ++ type_name v ++ "' object is not subscriptable"))
  end.

(** [float(i)] for an [int]: nearest binary64, [OverflowError] beyond it. *)
Definition float_of_Z (z : Z) : Outcome float :=
  let f := SF2Prim (binary_normalize prec emax z 0 false) in
  if PrimFloat.is_infinity f
  then Raises (mkExc "OverflowError" "int too large to convert to float")
  else Returns f.

End Py.

(** ** [json.loads]

    The decoder of the standard library, followed rule by rule: the scanner's
    order of alternatives, the whitespace it skips, its strict strings, and a
    [dict] built by successive writes (a repeated key keeps its first position
    and its last value). *)

Module Json.
Import PyStr Py.

Inductive JErr : Type :=
| Decode (msg : string) (pos : nat)
| Other (e : PyExc).

Inductive Parse (A : Type) : Type :=
| Parsed (a : A) (rest : string) (pos : nat)
| Failed (e : JErr).
Arguments Parsed {A} a rest pos.
Arguments Failed {A} e.

Definition is_json_ws (c : ascii) : bool :=
  let n := nat_of_ascii c in
  ((n =? 32) || (n =? 9) || (n =? 10) || (n =? 13))%nat.

Fixpoint skip_ws (s : string) (pos : nat) : string * nat :=
  match s with
  | EmptyString => (s, pos)
  | String c r => if is_json_ws c then skip_ws r (S pos) else (s, pos)
  end.

Definition Z_of_lexeme (s : string) : Z :=
  match s with
  | String "-" r => (- Z_of_digits 0 r)%Z
  | _ => Z_of_digits 0 s
  end.

(** The three groups of the number pattern: an optional minus sign with
    either a lone zero or a digit run that does not start with zero; a dot
    with at least one digit; an exponent letter, an optional sign and at
    least one digit. The last two groups are optional. *)
Definition match_integer (s : string) : option (string * string) :=
  let (sign, r) := match s with
                   | String "-" r => ("-", r)
                   | _ => ("", s)
                   end in
  match r with
  | EmptyString => None
  | String c r' =>
      if Ascii.eqb c "0" then Some (sign ++ "0", r')
      else if is_digit c
           then let (ds, rest) := take_digits r in Some (sign ++ ds, rest)
           else None
  end.

Definition match_frac (s : string) : string * string :=
  match s with
  | String "." r =>
      match take_digits r with
      | (EmptyString, _) => ("", s)
      | (ds, rest) => (String "." ds, rest)
      end
  | _ => ("", s)
  end.

Definition match_exp (s : string) : string * string :=
  match s with
  | String c r =>
      if Ascii.eqb c "e" || Ascii.eqb c "E"
      then let (sg, r2) := match r with
                           | String "+" r2 => ("+", r2)
                           | String "-" r2 => ("-", r2)
                           | _ => ("", r)
                           end in
           match take_digits r2 with
           | (EmptyString, _) => ("", s)
           | (ds, rest) => (String c (sg ++ ds), rest)
           end
      else ("", s)
  | EmptyString => ("", s)
  end.

Definition hex_val (c : ascii) : option N :=
  let n := N_of_ascii c in
  if ((48 <=? n) && (n <=? 57))%N then Some (n - 48)%N
  else if ((97 <=? n) && (n <=? 102))%N then Some (n - 87)%N
  else if ((65 <=? n) && (n <=? 70))%N then Some (n - 55)%N
  else None.

Definition parse_hex4 (s : string) : option (N * string) :=
  match s with
  | String a (String b (String c (String d rest))) =>
      match hex_val a, hex_val b, hex_val c, hex_val d with
      | Some x, Some y, Some z, Some w =>
          Some ((((x * 16 + y) * 16 + z) * 16 + w)%N, rest)
      | _, _, _, _ => None
      end
  | _ => None
  end.

(** The UTF-8 bytes of a code point. *)
Definition utf8_encode (cp : N) : string :=
  let b n := ascii_of_N n in
  (if cp <? 128 then String (b cp) ""
   else if cp <? 2048
        then String (b (192 + cp / 64)) (String (b (128 + cp mod 64)) "")
   else if cp <? 65536
        then String (b (224 + cp / 4096))
               (String (b (128 + (cp / 64) mod 64)) (String (b (128 + cp mod 64)) ""))
   else String (b (240 + cp / 262144))
          (String (b (128 + (cp / 4096) mod 64))
             (String (b (128 + (cp / 64) mod 64)) (String (b (128 + cp mod 64)) ""))))%N.

Definition backslash : ascii := "\"%char.

(** The character an escape letter stands for. *)
Definition unescape (c : ascii) : option string :=
  if Ascii.eqb c dquote then Some (String dquote "")
  else if Ascii.eqb c backslash then Some "\"
  else if Ascii.eqb c "/" then Some "/"
  else if Ascii.eqb c "b" then Some (String (ascii_of_nat 8) "")
  else if Ascii.eqb c "f" then Some (String (ascii_of_nat 12) "")
  else if Ascii.eqb c "n" then Some nl
  else if Ascii.eqb c "r" then Some (String (ascii_of_nat 13) "")
  else if Ascii.eqb c "t" then Some (String (ascii_of_nat 9) "")
  else None.

(** The four hexadecimal digits of a [\u] escape, which the scanner takes
    only when a character follows them. *)
Definition escape_hex4 (s : string) : option (N * string) :=
  match parse_hex4 s with
  | Some (n, String c r) => Some (n, String c r)
  | _ => None
  end.

(** [scanstring], as the accelerated scanner has it: the text up to the
    closing quote, [begin] being the index of the opening one and [pos] the
    index of the character at the front, counted in characters: a byte that
    continues a UTF-8 sequence does not count. A high surrogate joins the low
    surrogate of an escape that follows it. Every step consumes a byte, so the
    length of the text is fuel enough. *)
Fixpoint scanstring (fuel : nat) (begin : nat) (acc s : string) (pos : nat)
  : Parse string :=
  match fuel with
  | O => Failed (Decode "Unterminated string starting at" begin)
  | S fuel' =>
      match s with
      | EmptyString => Failed (Decode "Unterminated string starting at" begin)
      | String c r =>
          if Ascii.eqb c dquote then Parsed acc r (S pos)
          else if Ascii.eqb c backslash then
            match r with
            | EmptyString => Failed (Decode "Unterminated string starting at" begin)
            | String e r' =>
                if Ascii.eqb e "u" then
                  match escape_hex4 r' with
                  | None => Failed (Decode "Invalid \uXXXX escape" (S pos))
                  | Some (hi, r2) =>
                      let single := scanstring fuel' begin (acc ++ utf8_encode hi) r2 (pos + 6) in
                      if ((55296 <=? hi) && (hi <=? 56319))%N then
                        match r2 with
                        | String b1 (String b2 r3) =>
                            if Ascii.eqb b1 backslash && Ascii.eqb b2 "u" then
                              match escape_hex4 r3 with
                              | Some (lo, r4) =>
                                  if ((56320 <=? lo) && (lo <=? 57343))%N
                                  then scanstring fuel' begin
                                         (acc ++ utf8_encode
                                            (65536 + (hi - 55296) * 1024 + (lo - 56320))%N)
                                         r4 (pos + 12)
                                  else single
                              | None => single
                              end
                            else single
                        | _ => single
                        end
                      else single
                  end
                else
                  match unescape e with
                  | Some t => scanstring fuel' begin (acc ++ t) r' (pos + 2)
                  | None => Failed (Decode "Invalid \escape" pos)
                  end
            end
          else if (nat_of_ascii c <? 32)%nat
               then Failed (Decode "Invalid control character at" pos)
          else scanstring fuel' begin (acc ++ String c "") r
                 (if continuation c then pos else S pos)
      end
  end.

(** What entering an array or an object beyond the nesting limit raises. *)
Definition recursion_error (what : string) : JErr :=
  Other (mkExc "RecursionError"
           ("maximum recursion depth exceeded while decoding a JSON " ++ what
              ++ " from a unicode string")).

Definition int_digits_limit : nat := 4300.

Section Scanner.
Context {RT : Runtime}.

(** A number: an [int] when it has neither fraction nor exponent, else
    [float] of the lexeme. *)
Definition scan_number (s : string) (pos : nat) : option (Parse PyVal) :=
  match match_integer s with
  | None => None
  | Some (int_lex, r1) =>
      let (frac, r2) := match_frac r1 in
      let (exp, r3) := match_exp r2 in
      let lexeme := int_lex ++ frac ++ exp in
      let pos' := pos + String.length lexeme in
      Some
        (if String.eqb frac "" && String.eqb exp "" then
           if (int_digits_limit <? String.length int_lex)%nat
           then Failed (Other (mkExc "ValueError"
                                 "Exceeds the limit (4300 digits) for integer string conversion"))
           else Parsed (VInt (Z_of_lexeme int_lex)) r3 pos'
         else
           match float_of_string lexeme with
           | Some f => Parsed (VFloat f) r3 pos'
           | None => Failed (Other (mkExc "ValueError"
                                      ("could not convert string to float: "
                                         ++ repr_str lexeme)))
           end)
  end.

Definition scan_literal (s : string) (pos : nat) : Parse PyVal :=
  if startswith s "null" then Parsed VNone (drop 4 s) (pos + 4)
  else if startswith s "true" then Parsed (VBool true) (drop 4 s) (pos + 4)
  else if startswith s "false" then Parsed (VBool false) (drop 5 s) (pos + 5)
  else match scan_number s pos with
       | Some p => p
       | None =>
           if startswith s "NaN" then Parsed (VFloat nan) (drop 3 s) (pos + 3)
           else if startswith s "Infinity"
                then Parsed (VFloat infinity) (drop 8 s) (pos + 8)
           else if startswith s "-Infinity"
                then Parsed (VFloat neg_infinity) (drop 9 s) (pos + 9)
           else Failed (Decode "Expecting value" pos)
       end.

(** [scan_once] with the loops of [JSONObject] and [JSONArray].
    [object_items] starts right after the opening quote of a key,
    [array_items] at the first character of an element. [depth] is the
    nesting that is left: an object or an array is entered when some is, and
    its values are scanned with one level less. [fuel] bounds the chain of
    calls for the definition to be structural, and [json_loads] gives more
    than a text can use. *)
Fixpoint scan_once (fuel depth : nat) (s : string) (pos : nat) : Parse PyVal :=
  match fuel with
  | O => Failed (recursion_error "document")
  | S fuel' =>
      match s with
      | EmptyString => Failed (Decode "Expecting value" pos)
      | String c r =>
          if Ascii.eqb c dquote then
            match scanstring (String.length r) pos "" r (S pos) with
            | Parsed t r' p' => Parsed (VStr t) r' p'
            | Failed e => Failed e
            end
          else if Ascii.eqb c "{" then
            match depth with
            | O => Failed (recursion_error "object")
            | S depth' =>
                let (r1, p1) := skip_ws r (S pos) in
                match r1 with
                | String c1 r2 =>
                    if Ascii.eqb c1 "}" then Parsed (VDict []) r2 (S p1)
                    else if Ascii.eqb c1 dquote then object_items fuel' depth' [] r2 (S p1)
                    else Failed (Decode "Expecting property name enclosed in double quotes" p1)
                | EmptyString =>
                    Failed (Decode "Expecting property name enclosed in double quotes" p1)
                end
            end
          else if Ascii.eqb c "[" then
            match depth with
            | O => Failed (recursion_error "array")
            | S depth' =>
                let (r1, p1) := skip_ws r (S pos) in
                match r1 with
                | String "]" r2 => Parsed (VList []) r2 (S p1)
                | _ => array_items fuel' depth' [] r1 p1
                end
            end
          else scan_literal s pos
      end
  end
with object_items (fuel depth : nat) (acc : PyDict) (s : string) (pos : nat)
  : Parse PyVal :=
  match fuel with
  | O => Failed (recursion_error "document")
  | S fuel' =>
      match scanstring (String.length s) (pos - 1) "" s pos with
      | Failed e => Failed e
      | Parsed key s1 p1 =>
          let (s2, p2) := skip_ws s1 p1 in
          match s2 with
          | String ":" s3 =>
              let (s4, p4) := skip_ws s3 (S p2) in
              match scan_once fuel' depth s4 p4 with
              | Failed e => Failed e
              | Parsed v s5 p5 =>
                  let acc' := dict_set key v acc in
                  let (s6, p6) := skip_ws s5 p5 in
                  match s6 with
                  | String c s7 =>
                      if Ascii.eqb c "}" then Parsed (VDict acc') s7 (S p6)
                      else if Ascii.eqb c "," then
                        let (s8, p8) := skip_ws s7 (S p6) in
                        match s8 with
                        | String c8 s9 =>
                            if Ascii.eqb c8 dquote
                            then object_items fuel' depth acc' s9 (S p8)
                            else Failed (Decode "Expecting property name enclosed in double quotes" p8)
                        | EmptyString =>
                            Failed (Decode "Expecting property name enclosed in double quotes" p8)
                        end
                      else Failed (Decode "Expecting ',' delimiter" p6)
                  | EmptyString => Failed (Decode "Expecting ',' delimiter" p6)
                  end
              end
          | _ => Failed (Decode "Expecting ':' delimiter" p2)
          end
      end
  end
with array_items (fuel depth : nat) (acc : list PyVal) (s : string) (pos : nat)
  : Parse PyVal :=
  match fuel with
  | O => Failed (recursion_error "document")
  | S fuel' =>
      match scan_once fuel' depth s pos with
      | Failed e => Failed e
      | Parsed v s1 p1 =>
          let acc' := (acc ++ [v])%list in
          let (s2, p2) := skip_ws s1 p1 in
          match s2 with
          | String c s3 =>
              if Ascii.eqb c "]" then Parsed (VList acc') s3 (S p2)
              else if Ascii.eqb c "," then
                let (s4, p4) := skip_ws s3 (S p2) in
                array_items fuel' depth acc' s4 p4
              else Failed (Decode "Expecting ',' delimiter" p2)
          | EmptyString => Failed (Decode "Expecting ',' delimiter" p2)
          end
      end
  end.

(** Line and column of the character of index [n], as [JSONDecodeError]
    reports them. *)
Fixpoint linecol (s : string) (n line col : nat) : nat * nat :=
  match s with
  | EmptyString => (line, col)
  | String c r =>
      if continuation c then linecol r n line col
      else match n with
           | O => (line, col)
           | S m =>
               if Ascii.eqb c newline then linecol r m (S line) 1
               else linecol r m line (S col)
           end
  end.

Definition decode_error (doc msg : string) (pos : nat) : PyExc :=
  let (line, col) := linecol doc pos 1 1 in
  mkExc "JSONDecodeError"
    (msg ++ ": line " ++ string_of_nat line ++ " column " ++ string_of_nat col
         ++ " (char " ++ string_of_nat pos ++ ")").

Definition to_exc (doc : string) (e : JErr) : PyExc :=
  match e with
  | Decode msg pos => decode_error doc msg pos
  | Other x => x
  end.

Definition utf8_bom : string :=
  String (ascii_of_nat 239) (String (ascii_of_nat 187) (String (ascii_of_nat 191) "")).

(** [json.loads(doc)] for a [str]. Two units of fuel per byte cover every
    chain of calls, since a call consumes a byte before it descends twice. *)
Definition json_loads (doc : string) : Outcome PyVal :=
  if startswith doc utf8_bom
  then Raises (decode_error doc "Unexpected UTF-8 BOM (decode using utf-8-sig)" 0)
  else
    let (s, p) := skip_ws doc 0 in
    match scan_once (2 * String.length doc + 2) json_nesting_limit s p with
    | Failed e => Raises (to_exc doc e)
    | Parsed v r p' =>
        let (r', p'') := skip_ws r p' in
        match r' with
        | EmptyString => Returns v
        | _ => Raises (decode_error doc "Extra data" p'')
        end
    end.
End Scanner.

End Json.

(** ** [eval] under given globals and locals *)

Module PyEval.
Import PyStr Py.

Section Eval.
Context {RT : Runtime}.

Definition not_subscriptable : PyExc :=
  mkExc "TypeError" "'NoneType' object is not subscriptable".

Definition name_error (id : string) : PyExc :=
  mkExc "NameError" ("name '" ++ id ++ "' is not defined").

(** Loading a name: the locals, then the globals, then whatever the
    globals hold under [__builtins__]. Subscripting [None] there is a
    [TypeError]. *)
Definition load_name (globals locals : PyDict) (id : string) : Outcome PyVal :=
  match dict_get id locals with
  | Some v => Returns v
  | None =>
      match dict_get id globals with
      | Some v => Returns v
      | None =>
          match dict_get "__builtins__" globals with
          | Some (VDict builtins) =>
              match dict_get id builtins with
              | Some v => Returns v
              | None => Raises (name_error id)
              end
          | Some _ => Raises not_subscriptable
          | None => Raises (name_error id)
          end
      end
  end.

(** The names that the element and the conditions of a comprehension see
    for one item: the loop variable, and the locals of [eval] when the
    comprehension is compiled in line. Compiled as a function of its own, it
    looks every other name up in the globals. *)
Definition comprehension_scope (locals : PyDict) (var : string) (v : PyVal)
  : PyDict :=
  if comprehension_sees_locals then dict_set var v locals else [(var, v)].

(** Evaluation, left to right; [and], [or] and the conditional
    expression evaluate only the operands they need; the iterable of a
    comprehension is evaluated where the comprehension stands, its
    conditions and its element once per item, the element only for the
    items that pass every condition. Objects are values here: an operation
    gives a result and leaves its operands and the name spaces as they
    are, and the items of an iterable are all there before the first is
    used. *)
Fixpoint eval_expr (globals locals : PyDict) (e : expr) : Completion PyVal :=
  match e with
  | EConst v => Completes v
  | EName id => of_outcome (load_name globals locals id)
  | EUnary op a => cbind (eval_expr globals locals a) (apply_unop op)
  | EBin op l r =>
      cbind (eval_expr globals locals l) (fun x =>
      cbind (eval_expr globals locals r) (fun y => apply_binop op x y))
  | EBool BoolOr l r =>
      cbind (eval_expr globals locals l) (fun x =>
      if truthy x then Completes x else eval_expr globals locals r)
  | EBool BoolAnd l r =>
      cbind (eval_expr globals locals l) (fun x =>
      if truthy x then eval_expr globals locals r else Completes x)
  | EIfExp t b o =>
      cbind (eval_expr globals locals t) (fun c =>
      if truthy c then eval_expr globals locals b else eval_expr globals locals o)
  | ECall f args =>
      cbind (eval_expr globals locals f) (fun fv =>
      cbind ((fix eval_args (l : list expr) : Completion (list PyVal) :=
                match l with
                | [] => Completes []
                | a :: rest =>
                    cbind (eval_expr globals locals a) (fun v =>
                    cbind (eval_args rest) (fun vs => Completes (v :: vs)))
                end) args)
            (fun vs => apply_call fv vs))
  | EAttr a attr => cbind (eval_expr globals locals a) (fun v => getattr v attr)
  | ESubscript a i =>
      cbind (eval_expr globals locals a) (fun v =>
      cbind (eval_expr globals locals i) (fun k => subscript v k))
  | ECompare op l r =>
      cbind (eval_expr globals locals l) (fun x =>
      cbind (eval_expr globals locals r) (fun y => apply_compare op x y))
  | ETuple items =>
      cbind ((fix eval_items (l : list expr) : Completion (list PyVal) :=
                match l with
                | [] => Completes []
                | a :: rest =>
                    cbind (eval_expr globals locals a) (fun v =>
                    cbind (eval_items rest) (fun vs => Completes (v :: vs)))
                end) items)
            (fun vs => Completes (VTuple vs))
  | EListComp elt var iter conds =>
      cbind (eval_expr globals locals iter) (fun it =>
      cbind (iterate it) (fun vs =>
      cbind ((fix each (l : list PyVal) : Completion (list PyVal) :=
                match l with
                | [] => Completes []
                | v :: rest =>
                    let scope := comprehension_scope locals var v in
                    cbind ((fix passes (cs : list expr) : Completion bool :=
                              match cs with
                              | [] => Completes true
                              | c :: cs' =>
                                  cbind (eval_expr globals scope c) (fun b =>
                                  if truthy b then passes cs' else Completes false)
                              end) conds)
                          (fun keep =>
                           if keep
                           then cbind (eval_expr globals scope elt) (fun x =>
                                cbind (each rest) (fun xs => Completes (x :: xs)))
                           else each rest)
                end) vs)
            (fun xs => Completes (VList xs))))
  | EOther code => eval_other code globals locals
  end.

(** The names an expression mentions anywhere in its embedded forms. *)
Fixpoint mentions (id : string) (e : expr) : bool :=
  match e with
  | EConst _ => false
  | EName x => String.eqb x id
  | EUnary _ a => mentions id a
  | EBin _ l r => mentions id l || mentions id r
  | EBool _ l r => mentions id l || mentions id r
  | EIfExp t b o => mentions id t || mentions id b || mentions id o
  | ECall f args => mentions id f || existsb (mentions id) args
  | EAttr a _ => mentions id a
  | ESubscript a i => mentions id a || mentions id i
  | ECompare _ l r => mentions id l || mentions id r
  | ETuple items => existsb (mentions id) items
  | EListComp elt var iter conds =>
      mentions id elt || String.eqb var id || mentions id iter
      || existsb (mentions id) conds
  | EOther _ => false
  end.

(** The names in the operands that every evaluation reaches: all of them
    except the right operand of [and] and [or], the two branches of a
    conditional expression, the element and the conditions of a
    comprehension, which an iterable without items leaves alone, and what
    is inside a form that is not embedded. *)
Fixpoint needs (id : string) (e : expr) : bool :=
  match e with
  | EConst _ => false
  | EName x => String.eqb x id
  | EUnary _ a => needs id a
  | EBin _ l r => needs id l || needs id r
  | EBool _ l _ => needs id l
  | EIfExp t _ _ => needs id t
  | ECall f args => needs id f || existsb (needs id) args
  | EAttr a _ => needs id a
  | ESubscript a i => needs id a || needs id i
  | ECompare _ l r => needs id l || needs id r
  | ETuple items => existsb (needs id) items
  | EListComp _ _ iter _ => needs id iter
  | EOther _ => false
  end.

(** The expressions of literals, names, unary and binary operators, [and],
    [or], the conditional expression and calls. Evaluated on numbers, texts
    and the functions of [math], they reach no other object. *)
Fixpoint plain (e : expr) : bool :=
  match e with
  | EConst _ | EName _ => true
  | EUnary _ a => plain a
  | EBin _ l r | EBool _ l r => plain l && plain r
  | EIfExp t b o => plain t && plain b && plain o
  | ECall f args => plain f && forallb plain args
  | _ => false
  end.

(** [eval(source, globals, locals)] *)
Definition py_eval (source : string) (globals locals : PyDict) : Completion PyVal :=
  cbind (of_outcome (compile_eval source)) (eval_expr globals locals).
End Eval.

End PyEval.

(** ** The message shapes of [mcp.types] *)

Module Mcp.
Import Py.

Record Tool : Type := mkTool {
  name : string;
  description : option string;
  inputSchema : PyDict
}.

Record TextContent : Type := mkTextContent { type : string; text : string }.

Record CallToolResult : Type := mkCallToolResult { content : list TextContent }.

Definition text_block (t : string) : list TextContent := [mkTextContent "text" t].

End Mcp.

(** ** [mcp_server/server.py]: the calculator worker *)

Module Worker.
Import PyStr Py PyEval Mcp.

(** The float operations a call performs, in order. *)
Inductive ArithOp : Type :=
| Add (x y : float)
| Sub (x y : float)
| Mul (x y : float)
| Div (x y : float).

(** [CalcInput.model_json_schema()] and [ExpressionInput.model_json_schema()]. *)
Definition CalcInput_schema : PyDict :=
  [ ("properties",
      VDict [ ("numbers",
                VDict [ ("items", VDict [("type", VStr "number")]);
                        ("title", VStr "Numbers");
                        ("type", VStr "array") ]) ]);
    ("required", VList [VStr "numbers"]);
    ("title", VStr "CalcInput");
    ("type", VStr "object") ].

Definition ExpressionInput_schema : PyDict :=
  [ ("properties",
      VDict [ ("expression",
                VDict [ ("title", VStr "Expression"); ("type", VStr "string") ]) ]);
    ("required", VList [VStr "expression"]);
    ("title", VStr "ExpressionInput");
    ("type", VStr "object") ].

Definition list_tools : list Tool :=
  [ mkTool "add" (Some "Add numbers") CalcInput_schema;
    mkTool "subtract" (Some "Subtract numbers") CalcInput_schema;
    mkTool "multiply" (Some "Multiply numbers") CalcInput_schema;
    mkTool "divide" (Some "Divide numbers") CalcInput_schema;
    mkTool "evaluate_expression" (Some "Evaluate a math expression") ExpressionInput_schema ].

Section Handlers.
Context {RT : Runtime}.

Definition validation_error (model : string) (arguments : PyDict) : PyExc :=
  mkExc "ValidationError" (validation_message model (VDict arguments)).

(** A [float] field in pydantic's default (lax) mode. *)
Definition validate_float (v : PyVal) : option float :=
  match v with
  | VFloat f => Some f
  | VInt z => match float_of_Z z with
              | Returns f => Some f
              | Raises _ => None
              end
  | VBool b => Some (if b then 1%float else 0%float)
  | VStr s => float_of_string s
  | _ => None
  end.

Fixpoint validate_floats (items : list PyVal) : option (list float) :=
  match items with
  | [] => Some []
  | v :: rest =>
      match validate_float v, validate_floats rest with
      | Some f, Some fs => Some (f :: fs)
      | _, _ => None
      end
  end.

(** The [numbers] of [CalcInput] built from the keyword arguments, a
    [list[float]]. *)
Definition CalcInput (arguments : PyDict) : Outcome (list float) :=
  match dict_get "numbers" arguments with
  | Some (VList items) =>
      match validate_floats items with
      | Some nums => Returns nums
      | None => Raises (validation_error "CalcInput" arguments)
      end
  | _ => Raises (validation_error "CalcInput" arguments)
  end.

(** The [expression] of [ExpressionInput] built from the keyword
    arguments, a [str]. *)
Definition ExpressionInput (arguments : PyDict) : Outcome string :=
  match dict_get "expression" arguments with
  | Some (VStr s) => Returns s
  | _ => Raises (validation_error "ExpressionInput" arguments)
  end.

(** [sum(nums)]: the running total starts from the integer zero. *)
Fixpoint sum_from (result : float) (nums : list float) : float * list ArithOp :=
  match nums with
  | [] => (result, [])
  | n :: rest =>
      let (r, ops) := sum_from (result + n)%float rest in (r, Add result n :: ops)
  end.

(** [for n in nums[1:]: result -= n] *)
Fixpoint subtract_loop (result : float) (rest : list float) : float * list ArithOp :=
  match rest with
  | [] => (result, [])
  | n :: rest' =>
      let (r, ops) := subtract_loop (result - n)%float rest' in
      (r, Sub result n :: ops)
  end.

(** [for n in nums: result *= n] *)
Fixpoint multiply_loop (result : float) (nums : list float) : float * list ArithOp :=
  match nums with
  | [] => (result, [])
  | n :: rest =>
      let (r, ops) := multiply_loop (result * n)%float rest in
      (r, Mul result n :: ops)
  end.

(** The loop of [divide]; [None] is the early return on a zero divisor. *)
Fixpoint divide_loop (result : float) (rest : list float)
  : option float * list ArithOp :=
  match rest with
  | [] => (Some result, [])
  | n :: rest' =>
      if PrimFloat.eqb n 0%float then (None, [])
      else let (r, ops) := divide_loop (result / n)%float rest' in
           (r, Div result n :: ops)
  end.

Definition success (name : string) (nums : list float) (result : float)
  : list TextContent :=
  text_block ("✅ " ++ name ++ ": " ++ repr_floats nums ++ " -> "
                   ++ py_str (VFloat result)).

(** [nums[0]] *)
Definition first_item (nums : list float) : Outcome float :=
  match nums with
  | first :: _ => Returns first
  | [] => Raises (mkExc "IndexError" "list index out of range")
  end.

(** The arithmetic branch from [result = nums[0]] on; [nums[1:]] is the
    tail of the list. *)
Definition calculate (name : string) (nums : list float) (result : float)
  : list TextContent * list ArithOp :=
  if String.eqb name "add" then
    let (r, ops) := sum_from 0%float nums in (success name nums r, ops)
  else if String.eqb name "subtract" then
    let (r, ops) := subtract_loop result (tl nums) in (success name nums r, ops)
  else if String.eqb name "multiply" then
    let (r, ops) := multiply_loop 1%float nums in (success name nums r, ops)
  else if String.eqb name "divide" then
    match divide_loop result (tl nums) with
    | (None, ops) => (text_block "❌ Division by zero", ops)
    | (Some r, ops) => (success name nums r, ops)
    end
  else (success name nums result, []).

(** The locals of the evaluation: the entries of [math.__dict__] whose key
    does not start with two underscores. *)
Definition allowed_names : PyDict :=
  filter (fun kv => negb (startswith (fst kv) "__")) math_dict.

Definition eval_globals : PyDict := [("__builtins__", VNone)].

(** The arithmetic branch of the [try] block. *)
Definition arithmetic (name : string) (arguments : PyDict)
  : Outcome (list TextContent * list ArithOp) :=
  obind (CalcInput arguments) (fun nums =>
  if (List.length nums <? 2)%nat
  then Returns (text_block "❌ Provide at least two numbers.", [])
  else obind (first_item nums) (fun result =>
       Returns (calculate name nums result))).

(** The body of the [try] block. Only the evaluation of the expression runs
    code that the worker does not define. *)
Definition call_tool_body (name : string) (arguments : PyDict)
  : Completion (list TextContent * list ArithOp) :=
  if in_strings name ["add"; "subtract"; "multiply"; "divide"] then
    of_outcome (arithmetic name arguments)
  else if String.eqb name "evaluate_expression" then
    cbind (of_outcome (ExpressionInput arguments)) (fun expr =>
    cbind (py_eval expr eval_globals allowed_names) (fun result =>
    Completes (text_block ("✅ Expression: " ++ expr ++ " -> " ++ py_str result), [])))
  else Completes (text_block ("❌ Unknown tool: " ++ name), []).

(** The handler with its [except Exception] clause. The second component
    is the arithmetic the call went through. *)
Definition call_tool_traced (name : string) (arguments : PyDict)
  : Handled (list TextContent * list ArithOp) :=
  except_Exception (call_tool_body name arguments)
    (fun e => (text_block ("❌ Error: " ++ exc_str e), [])).

Definition call_tool (name : string) (arguments : PyDict)
  : Handled (list TextContent) :=
  hmap fst (call_tool_traced name arguments).
End Handlers.

End Worker.

(** ** [server.py]: the worker that runs each tool as a one-node graph *)

Module GraphWorker.
Import PyStr Py PyEval Mcp.

Record FlowState : Type := mkFlowState { input : PyVal; output : string }.

Definition input_schema : PyDict :=
  [ ("type", VStr "object");
    ("properties", VDict [("input", VDict [("type", VStr "string")])]);
    ("required", VList [VStr "input"]) ].

Definition list_tools : list Tool :=
  [ mkTool "add" (Some "Add space-separated numbers like '3 5 2'") input_schema;
    mkTool "subtract" (Some "Subtract space-separated numbers like '10 4 1'") input_schema;
    mkTool "multiply" (Some "Multiply space-separated numbers like '2 3 4'") input_schema;
    mkTool "divide" (Some "Divide numbers like '100 5 2'") input_schema;
    mkTool "evaluate_expression" (Some "Evaluate full math expression like '5*2+3'")
      input_schema ].

(** [s.split()]: the maximal runs of characters that are not white space;
    [skip] counts the bytes still to drop of a white-space character. *)
Fixpoint split_from (skip : nat) (word s : string) : list string :=
  match s with
  | EmptyString => if String.eqb word "" then [] else [word]
  | String c r =>
      match skip with
      | S k => split_from k word r
      | O =>
          match space_length s with
          | O => split_from 0 (word ++ String c "") r
          | S k =>
              if String.eqb word "" then split_from k "" r
              else word :: split_from k "" r
          end
      end
  end.

Definition split (s : string) : list string := split_from 0 "" s.

Section Nodes.
Context {RT : Runtime}.

(** [state["input"].split()], an [AttributeError] unless the input is a
    [str]: the arguments of a call are decoded from JSON, and of what JSON
    has only a text has the attribute. *)
Definition input_split (v : PyVal) : Outcome (list string) :=
  match v with
  | VStr s => Returns (split s)
  | _ => Raises (mkExc "AttributeError"
                   ("'" ++ type_name v ++ "' object has no attribute 'split'"))
  end.

(** [float(s)] for a [str]. *)
Definition float_of_str (s : string) : Outcome float :=
  match float_of_string s with
  | Some f => Returns f
  | None => Raises (mkExc "ValueError"
                      ("could not convert string to float: " ++ repr_str s))
  end.

Fixpoint map_float (parts : list string) : Outcome (list float) :=
  match parts with
  | [] => Returns []
  | p :: rest =>
      obind (float_of_str p) (fun f =>
      obind (map_float rest) (fun fs => Returns (f :: fs)))
  end.

(** [list(map(float, state["input"].split()))] *)
Definition nums_of (state : FlowState) : Outcome (list float) :=
  obind (input_split (input state)) map_float.

(** [sum(nums)]: the integer zero for an empty list. *)
Definition py_sum (nums : list float) : PyVal :=
  match nums with
  | [] => VInt 0
  | _ => VFloat (fold_left PrimFloat.add nums 0%float)
  end.

Definition add_node (state : FlowState) : string :=
  otry (obind (nums_of state) (fun nums =>
        Returns ("add: " ++ repr_floats nums ++ " -> " ++ py_str (py_sum nums))))
       (fun e => "Error in add: " ++ exc_str e).

Definition nums_0 (nums : list float) : Outcome float :=
  match nums with
  | first :: _ => Returns first
  | [] => Raises (mkExc "IndexError" "list index out of range")
  end.

Definition subtract_node (state : FlowState) : string :=
  otry (obind (nums_of state) (fun nums =>
        obind (nums_0 nums) (fun result =>
        Returns ("subtract: " ++ repr_floats nums ++ " -> "
                   ++ py_str (VFloat (fold_left PrimFloat.sub (tl nums) result))))))
       (fun e => "Error in subtract: " ++ exc_str e).

(** [result = 1], then [result *= n] for each number. *)
Definition product (nums : list float) : PyVal :=
  match nums with
  | [] => VInt 1
  | _ => VFloat (fold_left PrimFloat.mul nums 1%float)
  end.

Definition multiply_node (state : FlowState) : string :=
  otry (obind (nums_of state) (fun nums =>
        Returns ("multiply: " ++ repr_floats nums ++ " -> " ++ py_str (product nums))))
       (fun e => "Error in multiply: " ++ exc_str e).

(** The loop of [divide_node]; [None] is the early return. *)
Fixpoint divide_loop (result : float) (rest : list float) : option float :=
  match rest with
  | [] => Some result
  | n :: rest' =>
      if PrimFloat.eqb n 0%float then None
      else divide_loop (result / n)%float rest'
  end.

Definition divide_node (state : FlowState) : string :=
  otry (obind (nums_of state) (fun nums =>
        obind (nums_0 nums) (fun result =>
        match divide_loop result (tl nums) with
        | None => Returns ("Division by zero in " ++ repr_floats nums)
        | Some r =>
            Returns ("divide: " ++ repr_floats nums ++ " -> " ++ py_str (VFloat r))
        end)))
       (fun e => "Error in divide: " ++ exc_str e).

(** The node that evaluates: what its [except Exception] clause does not
    catch leaves it. *)
Definition evaluate_expression_node (state : FlowState) : Handled string :=
  except_Exception
    (match input state with
     | VStr expr =>
         cbind (py_eval expr [("__builtins__", VNone)] []) (fun result =>
         Completes ("result: " ++ expr ++ " = " ++ py_str result))
     | _ => Excepts (mkExc "TypeError"
                       "eval() arg 1 must be a string, bytes or code object")
     end)
    (fun e => "Error in expression: " ++ exc_str e).

(** The nodes by operation. The four arithmetic nodes always return. *)
Definition node_map : list (string * (FlowState -> Handled string)) :=
  [ ("add", fun state => Answers (add_node state));
    ("subtract", fun state => Answers (subtract_node state));
    ("multiply", fun state => Answers (multiply_node state));
    ("divide", fun state => Answers (divide_node state));
    ("evaluate_expression", evaluate_expression_node) ].

Fixpoint node_of (operation : string)
    (m : list (string * (FlowState -> Handled string)))
  : option (FlowState -> Handled string) :=
  match m with
  | [] => None
  | (k, f) :: rest => if String.eqb operation k then Some f else node_of operation rest
  end.

(** The compiled graph has the node of [operation] as entry and finish
    point: invoking it merges what the node returns into the state. *)
Definition create_math_flow (operation : string)
  : Outcome (FlowState -> Handled FlowState) :=
  match node_of operation node_map with
  | Some node =>
      Returns (fun state => hmap (mkFlowState (input state)) (node state))
  | None => Raises (mkExc "ValueError" ("Unsupported operation: " ++ operation))
  end.

(** [arguments["input"]] *)
Definition arguments_input (arguments : PyDict) : Outcome PyVal :=
  match dict_get "input" arguments with
  | Some v => Returns v
  | None => Raises (mkExc "KeyError" "'input'")
  end.

Definition call_tool (name : string) (arguments : PyDict)
  : Handled (list TextContent) :=
  except_Exception
    (if in_strings name
          ["add"; "subtract"; "multiply"; "divide"; "evaluate_expression"]
     then cbind (of_outcome (create_math_flow name)) (fun flow =>
          cbind (of_outcome (arguments_input arguments)) (fun i =>
          cbind (called (flow (mkFlowState i ""))) (fun result =>
          Completes (text_block (output result)))))
     else Completes (text_block ("Unknown tool: " ++ name)))
    (fun e => text_block ("Error: " ++ exc_str e)).
End Nodes.

End GraphWorker.

(** ** [mcp_simple_chatbot/main.py]: [MCPServer]

    The worker processes, the [MCPServer] objects and the console live in a
    store; a method takes the reference of its object and runs in a state and
    error monad over that store. What the operating system and the worker do
    (whether the executable starts, whether the handshake is answered, what the
    handlers return) is an environment the methods are run against. *)

Module Client.
Import PyStr Py Mcp.

Record StdioServerParameters : Type := mkParams {
  command : string;
  args : list string
}.

Inductive Request : Type :=
| ReqInitialize
| ReqListTools
| ReqCallTool (tool : string) (arguments : PyDict).

(** A spawned worker: how it was started, whether it still runs, and the
    requests it has received, oldest first. *)
Record Process : Type := mkProcess {
  params : StdioServerParameters;
  running : bool;
  received : list Request
}.

(** The context managers an exit stack has entered. *)
Inductive Context : Type :=
| StdioClient (pid : nat)
| Session (pid : nat).

Record MCPServer : Type := mkMCPServer {
  server_name : string;
  config : PyDict;
  session : option nat;
  exit_stack : option (list Context)
}.

Record Store : Type := mkStore {
  procs : list Process;
  servers : list MCPServer;
  stdout : list string;
  log : list string
}.

Record Env : Type := mkEnv {
  spawns : StdioServerParameters -> bool;
  handshakes : StdioServerParameters -> bool;
  tools_of : StdioServerParameters -> list Tool;
  handler_of : StdioServerParameters -> string -> PyDict -> list TextContent
}.

(** *** The monad *)

Definition M (A : Type) : Type := Store -> Outcome A * Store.

Definition ret {A} (a : A) : M A := fun st => (Returns a, st).

Definition bind {A B} (m : M A) (k : A -> M B) : M B :=
  fun st => match m st with
            | (Returns a, st') => k a st'
            | (Raises e, st') => (Raises e, st')
            end.

Definition raise {A} (e : PyExc) : M A := fun st => (Raises e, st).

(** [try: m  except Exception as e: h e] *)
Definition try_except {A} (m : M A) (h : PyExc -> M A) : M A :=
  fun st => match m st with
            | (Returns a, st') => (Returns a, st')
            | (Raises e, st') => h e st'
            end.

Definition lift {A} (o : Outcome A) : M A := fun st => (o, st).

Definition get : M Store := fun st => (Returns st, st).
Definition modify (f : Store -> Store) : M unit := fun st => (Returns tt, f st).

Declare Scope py_scope.
Delimit Scope py_scope with py.
Notation "x <- m ;; k" := (bind m (fun x => k))
  (at level 61, m at next level, right associativity) : py_scope.
Notation "m ;; k" := (bind m (fun _ => k))
  (at level 61, right associativity) : py_scope.
Local Open Scope py_scope.

Fixpoint update_nth {A} (n : nat) (f : A -> A) (l : list A) : list A :=
  match l, n with
  | [], _ => []
  | x :: r, O => f x :: r
  | x :: r, S m => x :: update_nth m f r
  end.

Definition print (line : string) : M unit :=
  modify (fun st => mkStore (procs st) (servers st) (stdout st ++ [line])%list (log st)).

Definition logging_info (msg : string) : M unit :=
  modify (fun st => mkStore (procs st) (servers st) (stdout st)
                      (app (log st) ["INFO - " ++ msg])).

Definition logging_error (msg : string) : M unit :=
  modify (fun st => mkStore (procs st) (servers st) (stdout st)
                      (app (log st) ["ERROR - " ++ msg])).

Definition get_self (self : nat) : M MCPServer :=
  st <- get ;;
  match nth_error (servers st) self with
  | Some s => ret s
  | None => raise (mkExc "ReferenceError" "no such object")
  end.

Definition set_self (self : nat) (f : MCPServer -> MCPServer) : M unit :=
  modify (fun st => mkStore (procs st) (update_nth self f (servers st))
                      (stdout st) (log st)).

Definition get_process (pid : nat) : M Process :=
  st <- get ;;
  match nth_error (procs st) pid with
  | Some p => ret p
  | None => raise (mkExc "ProcessLookupError" "no such process")
  end.

Definition set_process (pid : nat) (f : Process -> Process) : M unit :=
  modify (fun st => mkStore (update_nth pid f (procs st)) (servers st)
                      (stdout st) (log st)).

(** *** The transport and the session of the [mcp] library *)

Section Session.
Context {RT : Runtime}.
Variable env : Env.

(** Entering [stdio_client(server_params)] starts the worker. *)
Definition spawn (server_params : StdioServerParameters) : M nat :=
  if spawns env server_params then
    st <- get ;;
    modify (fun st => mkStore (procs st ++ [mkProcess server_params true []])%list
                        (servers st) (stdout st) (log st)) ;;
    ret (List.length (procs st))
  else raise (mkExc "FileNotFoundError"
                ("[Errno 2] No such file or directory: "
                   ++ repr_str (command server_params))).

(** Leaving it terminates the worker. *)
Definition terminate (pid : nat) : M unit :=
  set_process pid (fun p => mkProcess (params p) false (received p)).

Definition connection_closed : PyExc := mkExc "McpError" "Connection closed".

(** The worker has one more request. *)
Definition deliver (req : Request) (p : Process) : Process :=
  mkProcess (params p) (running p) (app (received p) [req]).

(** A request reaches a worker that runs. *)
Definition send (pid : nat) (req : Request) : M Process :=
  p <- get_process pid ;;
  if running p then
    set_process pid (deliver req) ;;
    ret p
  else raise connection_closed.

(** [session.initialize()], the handshake. *)
Definition session_initialize (pid : nat) : M unit :=
  p <- send pid ReqInitialize ;;
  if handshakes env (params p) then ret tt else raise connection_closed.

(** What iterating a [ListToolsResult] yields: its fields by name. *)
Inductive ToolItem : Type :=
| ItemTool (t : Tool)
| ItemDict (d : PyDict).

Inductive FieldValue : Type :=
| FieldNone
| FieldItems (items : list ToolItem).

Definition ListToolsResult : Type := list (string * FieldValue).

Definition session_list_tools (pid : nat) : M ListToolsResult :=
  p <- send pid ReqListTools ;;
  ret [ ("meta", FieldNone);
        ("nextCursor", FieldNone);
        ("tools", FieldItems (map ItemTool (tools_of env (params p)))) ].
End Session.

Section Methods.
Context {RT : Runtime}.
Variable env : Env.

Definition validation_error (model : string) (v : PyVal) : PyExc :=
  mkExc "ValidationError" (validation_message model v).

(** [session.call_tool(name, arguments)]: the arguments are a [dict] or
    [None], and the worker's handler answers with its content blocks. *)
Definition session_call_tool (pid : nat) (tool : string) (arguments : PyVal)
  : M CallToolResult :=
  match arguments with
  | VDict d =>
      p <- send pid (ReqCallTool tool d) ;;
      ret (mkCallToolResult (handler_of env (params p) tool d))
  | VNone =>
      p <- send pid (ReqCallTool tool []) ;;
      ret (mkCallToolResult (handler_of env (params p) tool []))
  | _ => raise (validation_error "CallToolRequestParams" arguments)
  end.

(** [self.config["command"]] *)
Definition config_command (cfg : PyDict) : Outcome PyVal :=
  match dict_get "command" cfg with
  | Some v => Returns v
  | None => Raises (mkExc "KeyError" "'command'")
  end.

(** [self.config.get("args", [])] *)
Definition config_args (cfg : PyDict) : PyVal :=
  match dict_get "args" cfg with
  | Some v => v
  | None => VList []
  end.

Fixpoint strings_of (items : list PyVal) : option (list string) :=
  match items with
  | [] => Some []
  | VStr s :: rest =>
      match strings_of rest with
      | Some l => Some (s :: l)
      | None => None
      end
  | _ :: _ => None
  end.

(** [StdioServerParameters(command=command, args=args)] *)
Definition make_params (command args : PyVal) : Outcome StdioServerParameters :=
  match command, args with
  | VStr c, VList items =>
      match strings_of items with
      | Some l => Returns (mkParams c l)
      | None => Raises (validation_error "StdioServerParameters" args)
      end
  | VStr _, _ => Raises (validation_error "StdioServerParameters" args)
  | _, _ => Raises (validation_error "StdioServerParameters" command)
  end.

(** [self.exit_stack.enter_async_context(cm)]: the context is entered and,
    when that succeeds, pushed on the stack. *)
Definition push_context (self : nat) (c : Context) : M unit :=
  set_self self (fun s =>
    mkMCPServer (server_name s) (config s) (session s)
      (match exit_stack s with
       | Some stack => Some (c :: stack)
       | None => None
       end)).

Definition enter_stdio_client (self : nat) (server_params : StdioServerParameters)
  : M nat :=
  pid <- spawn env server_params ;;
  push_context self (StdioClient pid) ;;
  ret pid.

Definition enter_client_session (self : nat) (pid : nat) : M nat :=
  push_context self (Session pid) ;;
  ret pid.

(** [initialize()]. Its first statement gives the object a new exit stack.
    A stack that the object held before is dropped with the contexts that
    were entered on it: whether and when the interpreter finalises them,
    which would end the worker of an earlier call, is outside this model,
    where a worker is stopped by [cleanup] only. *)
Definition initialize (self : nat) : M unit :=
  set_self self (fun s => mkMCPServer (server_name s) (config s) (session s) (Some [])) ;;
  s <- get_self self ;;
  command <- lift (config_command (config s)) ;;
  server_params <- lift (make_params command (config_args (config s))) ;;
  try_except
    (pid <- enter_stdio_client self server_params ;;
     session <- enter_client_session self pid ;;
     session_initialize env session ;;
     set_self self (fun s =>
       mkMCPServer (server_name s) (config s) (Some session) (exit_stack s)) ;;
     logging_info ("Initialized server: " ++ server_name s))
    (fun e =>
       logging_error ("Failed to initialize server '" ++ server_name s ++ "': "
                        ++ exc_str e) ;;
       raise e).

Definition assert_session (s : MCPServer) : M nat :=
  match session s with
  | Some pid => ret pid
  | None => raise (mkExc "AssertionError" "MCP server session not initialized")
  end.

(** [Tool] built from the entries of a [dict] as keyword arguments. *)
Definition Tool_of_dict (d : PyDict) : Outcome Tool :=
  match dict_get "name" d, dict_get "inputSchema" d with
  | Some (VStr n), Some (VDict schema) =>
      match dict_get "description" d with
      | Some (VStr t) => Returns (mkTool n (Some t) schema)
      | Some VNone | None => Returns (mkTool n None schema)
      | Some _ => Raises (validation_error "Tool" (VDict d))
      end
  | _, _ => Raises (validation_error "Tool" (VDict d))
  end.

Fixpoint tools_of_items (items : list ToolItem) : Outcome (list Tool) :=
  match items with
  | [] => Returns []
  | ItemTool t :: rest =>
      obind (tools_of_items rest) (fun ts => Returns (t :: ts))
  | ItemDict d :: rest =>
      obind (Tool_of_dict d) (fun t =>
      obind (tools_of_items rest) (fun ts => Returns (t :: ts)))
  end.

(** The loop over the response: only the field named [tools] counts. *)
Fixpoint collect_tools (tools : list Tool) (response : ListToolsResult)
  : Outcome (list Tool) :=
  match response with
  | [] => Returns tools
  | (field, value) :: rest =>
      if String.eqb field "tools" then
        match value with
        | FieldItems items =>
            obind (tools_of_items items) (fun ts =>
            collect_tools (tools ++ ts)%list rest)
        | FieldNone =>
            Raises (mkExc "TypeError" "'NoneType' object is not iterable")
        end
      else collect_tools tools rest
  end.

Definition list_tools (self : nat) : M (list Tool) :=
  s <- get_self self ;;
  pid <- assert_session s ;;
  tools_response <- session_list_tools env pid ;;
  lift (collect_tools [] tools_response).

Definition execute_tool (self : nat) (tool_name : string) (arguments : PyVal)
  : M CallToolResult :=
  s <- get_self self ;;
  pid <- assert_session s ;;
  session_call_tool pid tool_name arguments.

(** [exit_stack.aclose()]: the contexts are left, last entered first. *)
Fixpoint aclose (stack : list Context) : M unit :=
  match stack with
  | [] => ret tt
  | StdioClient pid :: rest => terminate pid ;; aclose rest
  | Session _ :: rest => aclose rest
  end.

Definition cleanup (self : nat) : M unit :=
  s <- get_self self ;;
  match exit_stack s with
  | Some stack =>
      aclose stack ;;
      set_self self (fun s =>
        mkMCPServer (server_name s) (config s) (session s) (Some []))
  | None => ret tt
  end.
End Methods.

End Client.

(** ** [mcp_simple_chatbot/main.py]: [ChatSession] *)

Module Chat.
Import PyStr Py Mcp Json Client.
Local Open Scope py_scope.

Section ChatSession.
Context {RT : Runtime}.
Variable env : Env.
(** [self.servers], by reference, and [self.llm.get_response]. *)
Variable servers : list nat.
Variable llm : list (string * string) -> string.

(** [parsed.get("arguments", {})] *)
Definition get_arguments (parsed : PyVal) : Outcome PyVal :=
  match parsed with
  | VDict d => match dict_get "arguments" d with
               | Some v => Returns v
               | None => Returns (VDict [])
               end
  | _ => Raises (mkExc "AttributeError"
                   ("'" ++ type_name parsed ++ "' object has no attribute 'get'"))
  end.

(** [any(tool.name == tool_name for tool in tools)], with the name when
    it holds: only a [str] equals a tool's name. *)
Definition matching_tool (tools : list Tool) (tool_name : PyVal) : option string :=
  match tool_name with
  | VStr s => if existsb (fun tool => String.eqb (name tool) s) tools
              then Some s else None
  | _ => None
  end.

Fixpoint print_contents (contents : list TextContent) : M unit :=
  match contents with
  | [] => ret tt
  | c :: rest =>
      (if String.eqb (type c) "text" then print (text c) else ret tt) ;;
      print_contents rest
  end.

(** The [for server in self.servers] loop with its [else] clause. *)
Fixpoint dispatch (remaining : list nat) (tool_name arguments : PyVal) : M unit :=
  match remaining with
  | [] => print "Tool not found"
  | server :: rest =>
      tools <- list_tools env server ;;
      match matching_tool tools tool_name with
      | Some tool =>
          print (nl ++ "Executing " ++ py_str tool_name ++ " with args: "
                    ++ py_str arguments) ;;
          result <- execute_tool env server tool arguments ;;
          print "Tool Output:" ;;
          print_contents (content result)
      | None => dispatch rest tool_name arguments
      end
  end.

(** One round of the loop once the model has answered. *)
Definition handle_response (llm_response : string) : M unit :=
  print (nl ++ "LLM Response:" ++ nl ++ " " ++ llm_response) ;;
  if startswith llm_response "{" then
    try_except
      (parsed <- lift (json_loads llm_response) ;;
       tool_name <- lift (getitem parsed "tool") ;;
       arguments <- lift (get_arguments parsed) ;;
       dispatch servers tool_name arguments)
      (fun e => print ("Error parsing LLM response: " ++ exc_str e))
  else print ("OpenAI: " ++ llm_response).

(** The [while True] loop over the lines the user types; running out of
    lines is the end of the input stream. *)
Fixpoint loop (inputs : list string) (messages : list (string * string)) : M unit :=
  match inputs with
  | [] => raise (mkExc "EOFError" "EOF when reading a line")
  | line :: rest =>
      let user_input := strip line in
      if in_strings (lower user_input) ["exit"; "quit"] then ret tt
      else
        let messages := app messages [("user", user_input)] in
        handle_response (llm messages) ;;
        loop rest messages
  end.

Fixpoint initialize_all (l : list nat) : M unit :=
  match l with
  | [] => ret tt
  | server :: rest => initialize env server ;; initialize_all rest
  end.

Fixpoint list_all (l : list nat) (all_tools : list Tool) : M (list Tool) :=
  match l with
  | [] => ret all_tools
  | server :: rest =>
      tools <- list_tools env server ;;
      list_all rest (app all_tools tools)
  end.

(** [tool.inputSchema.get('properties', {}).keys()] *)
Definition schema_properties (schema : PyDict) : Outcome (list string) :=
  match dict_get "properties" schema with
  | Some (VDict d) => Returns (dict_keys d)
  | None => Returns []
  | Some v => Raises (mkExc "AttributeError"
                        ("'" ++ type_name v ++ "' object has no attribute 'keys'"))
  end.

Definition description_str (tool : Tool) : string :=
  match description tool with
  | Some d => d
  | None => "None"
  end.

Fixpoint describe (tools : list Tool) : Outcome (list string) :=
  match tools with
  | [] => Returns []
  | tool :: rest =>
      obind (schema_properties (inputSchema tool)) (fun keys =>
      obind (describe rest) (fun lines =>
      Returns (("- " ++ name tool ++ ": " ++ description_str tool ++ nl
                     ++ "  Required args: " ++ join ", " keys) :: lines)))
  end.

Definition system_prompt (tool_descriptions : string) : string :=
  "You are a helpful assistant." ++ nl
  ++ "When a tool is needed, respond ONLY with JSON in this format:" ++ nl
  ++ dq "{'tool': 'tool_name', 'arguments': {'arg_name': 'value'}}" ++ nl
  ++ "Use only the correct argument names shown below. Do not add any explanation or extra text."
  ++ nl ++ nl ++ "Available tools:" ++ nl ++ tool_descriptions.

Fixpoint print_tools (tools : list Tool) : M unit :=
  match tools with
  | [] => ret tt
  | tool :: rest =>
      print ("- " ++ name tool ++ ": " ++ description_str tool) ;;
      print_tools rest
  end.

Definition start (inputs : list string) : M unit :=
  initialize_all servers ;;
  all_tools <- list_all servers [] ;;
  lines <- lift (describe all_tools) ;;
  let messages := [("system", system_prompt (join nl lines))] in
  print (nl ++ "Available tools:") ;;
  print_tools all_tools ;;
  loop inputs messages.
End ChatSession.

End Chat.

(** ** [langgraph_flow/main.py] *)

Module Flow.
Import PyStr Py Mcp Json Client.
Local Open Scope py_scope.

Record FlowState : Type := mkFlowState {
  input : string;
  tool_name : PyVal;
  arguments : PyVal;
  output : string
}.

(** The content of a chat message: a text or a list of parts. *)
Inductive Content : Type :=
| ContentStr (s : string)
| ContentParts (parts : list PyVal).

(** The interface of [executor]: the four methods that the nodes and [main]
    call. Its class, [MCPToolExecutor], is imported from
    [langgraph_flow/tool_executor.py], which is not among the sources: the
    nodes are embedded over any executor, [registry_executor] is the
    executor as the specification describes it, and [mcp_executor] packs
    the methods that [MCPServer] has under the same names. *)
Record Executor : Type := mkExecutor {
  ex_initialize : M unit;
  ex_list_tools : M (list Tool);
  ex_execute_tool : string -> PyVal -> M CallToolResult;
  ex_cleanup : M unit
}.

Definition fence : string := "```".

(** The head of the pattern: three backquotes, an optional [json], a line
    feed. The result is the text after it. *)
Definition open_fence (s : string) : option string :=
  if startswith s ("```json" ++ nl) then Some (drop 8 s)
  else if startswith s ("```" ++ nl) then Some (drop 4 s)
  else None.

(** [re.sub] of the fenced-block pattern by its group: every match, from
    the left, is replaced by the shortest text between the opening line and
    the next three backquotes. A step consumes a character, so the length
    of the text is fuel enough. *)
Fixpoint sub_fences (fuel : nat) (s : string) : string :=
  match fuel with
  | O => s
  | S fuel' =>
      match s with
      | EmptyString => EmptyString
      | String c r =>
          match open_fence s with
          | Some body =>
              match cut fence body with
              | Some (inner, after) => inner ++ sub_fences fuel' after
              | None => String c (sub_fences fuel' r)
              end
          | None => String c (sub_fences fuel' r)
          end
      end
  end.

Definition remove_code_fences (content : string) : string :=
  sub_fences (String.length content) content.

Definition with_output (state : FlowState) (out : string) : FlowState :=
  mkFlowState (input state) (tool_name state) (arguments state) out.

Section Nodes.
Context {RT : Runtime}.
Variable executor : Executor.
(** [prompt.format] and [llm.ainvoke], up to the content of the answer. *)
Variable prompt_format : string -> string.
Variable llm_ainvoke : string -> Outcome Content.
(** [build_flow()]: the graph library builds the graph of the three nodes or
    raises, as it may for a node that is named like a key of the state, which
    [input] is. What the compiled graph does is [flow_ainvoke]. *)
Variable build_flow : Outcome unit.

Definition input_node (state : FlowState) : FlowState := state.

(** [str(part)] joined over the parts of a list content. *)
Definition joined (c : Content) : string :=
  match c with
  | ContentStr s => s
  | ContentParts parts => join "" (map py_str parts)
  end.

(** The content as an f-string field shows it. *)
Definition shown (c : Content) : string :=
  match c with
  | ContentStr s => s
  | ContentParts parts => py_repr (VList parts)
  end.

(** The [try] block of [plan_tool_call]. *)
Definition decode_tool_call (response_content : Content) (state : FlowState)
  : Outcome FlowState :=
  let content := joined response_content in
  let content := strip (remove_code_fences content) in
  obind (json_loads content) (fun parsed =>
  obind (getitem parsed "tool_name") (fun name =>
  obind (getitem parsed "arguments") (fun args =>
  Returns (mkFlowState (input state) name args (output state))))).

(** A directive text is well formed when, fences and surrounding blanks
    removed, it decodes into an object that has both fields. *)
Definition well_formed (text : string) : bool :=
  match json_loads (strip (remove_code_fences text)) with
  | Returns (VDict d) =>
      match dict_get "tool_name" d, dict_get "arguments" d with
      | Some _, Some _ => true
      | _, _ => false
      end
  | _ => false
  end.

(** The block with its [except Exception] handler. *)
Definition parse_tool_call (response_content : Content) (state : FlowState)
  : FlowState :=
  otry (decode_tool_call response_content state)
       (fun e =>
          with_output state
            ("❌ Failed to parse tool call: " ++ exc_str e ++ nl
               ++ "Raw response: " ++ shown response_content)).

Definition plan_tool_call (state : FlowState) : M FlowState :=
  let formatted_prompt := prompt_format (input state) in
  response <- lift (llm_ainvoke formatted_prompt) ;;
  print ("🧠 LLM Raw Response: " ++ shown response) ;;
  ret (parse_tool_call response state).

(** [tool_name not in available_tools], with the name when it is in. *)
Definition available (tool_name : PyVal) (available_tools : list string)
  : option string :=
  match tool_name with
  | VStr s => if in_strings s available_tools then Some s else None
  | _ => None
  end.

Fixpoint texts (contents : list TextContent) : list string :=
  match contents with
  | [] => []
  | c :: rest => if String.eqb (type c) "text" then text c :: texts rest
                 else texts rest
  end.

Definition call_mcp_tool (state : FlowState) : M FlowState :=
  print ("🔍 Calling tool: " ++ py_str (tool_name state)) ;;
  print ("📦 Arguments: " ++ py_str (arguments state)) ;;
  tools <- ex_list_tools executor ;;
  let available_tools := map name tools in
  match available (tool_name state) available_tools with
  | None =>
      ret (with_output state
             ("❌ Unknown tool selected: '" ++ py_str (tool_name state)
                ++ "'. Available tools: " ++ repr_strings available_tools))
  | Some tool =>
      try_except
        (result <- ex_execute_tool executor tool (arguments state) ;;
         ret (with_output state (join nl (texts (content result)))))
        (fun e => ret (with_output state ("❌ MCP call failed: " ++ exc_str e)))
  end.

(** The compiled graph: [input], then [plan], then [call]. *)
Definition flow_ainvoke (state : FlowState) : M FlowState :=
  let state := input_node state in
  state <- plan_tool_call state ;;
  call_mcp_tool state.

Fixpoint loop (inputs : list string) : M unit :=
  match inputs with
  | [] => raise (mkExc "EOFError" "EOF when reading a line")
  | user_input :: rest =>
      if in_strings (lower (strip user_input)) ["exit"; "quit"] then ret tt
      else
        result <- flow_ainvoke (mkFlowState user_input (VStr "") (VDict []) "") ;;
        print ("🧾 Result: " ++ output result) ;;
        loop rest
  end.

Definition main (inputs : list string) : M unit :=
  ex_initialize executor ;;
  tools <- ex_list_tools executor ;;
  print ("🔧 Available tools: " ++ repr_strings (map name tools)) ;;
  lift build_flow ;;
  loop inputs ;;
  ex_cleanup executor.
End Nodes.

(** An executor made of the four methods of an [MCPServer] object, the one
    implementation of these methods among the sources: every listing is a
    round trip to the worker. It is not the class [MCPToolExecutor]. *)
Definition mcp_executor {RT : Runtime} (env : Env) (self : nat) : Executor :=
  mkExecutor (initialize env self) (list_tools env self)
    (execute_tool env self) (cleanup self).

(** Modelled from the spec: the class [MCPToolExecutor] of
    [langgraph_flow/tool_executor.py], which is not among the sources, while
    its registry holds the descriptors [snapshot]. By section 4.3 the
    registry caches the descriptors of the session and no read refreshes
    them: [list_tools] returns the snapshot and sends nothing. By section 4.2
    [execute_tool] is the call of the session. By section 4.6 [initialize]
    spawns the worker and shakes hands, and terminates what it has spawned
    before it lets a failure through, and [cleanup] is the teardown. *)
Definition registry_executor {RT : Runtime} (env : Env) (self : nat)
    (snapshot : list Tool) : Executor :=
  mkExecutor
    (try_except (initialize env self) (fun e => cleanup self ;; raise e))
    (ret snapshot)
    (execute_tool env self)
    (cleanup self).

End Flow.

(** ** A runtime to run the programs on

    An instance of [Runtime] with which the embedded programs compute: the
    float conversions of [PyFloat], a compiler for a part of the expression
    syntax (numbers, texts without escapes, names, the constants, the four
    operations with signs, [not], [and], [or], one comparison, the conditional
    expression, parentheses, tuples, calls, attributes, subscripts and the
    list comprehension; another text is a syntax error here), the operators
    on numbers, strings, lists and tuples, the part of the [math] module that
    binary64 arithmetic provides, and the few objects and attributes that are
    named below. *)

Module Reference.
Import PyStr Py.

Inductive token : Type :=
| TNum (v : PyVal)
| TStr (s : string)
| TName (id : string)
| TCmp (op : cmpop)
| TOp (c : ascii).

Definition is_name_start (c : ascii) : bool :=
  let n := nat_of_ascii c in
  (((65 <=? n) && (n <=? 90)) || ((97 <=? n) && (n <=? 122)) || (n =? 95))%nat.

Fixpoint take_name (s : string) : string * string :=
  match s with
  | EmptyString => ("", s)
  | String c r =>
      if is_name_start c || is_digit c
      then let (w, rest) := take_name r in (String c w, rest)
      else ("", s)
  end.

(** A number literal: digits, an optional fraction, an optional exponent. *)
Definition lex_number (s : string) : option (PyVal * string) :=
  let (ip, r1) := take_digits s in
  let (fp, r2) := match r1 with
                  | String "." r => let (ds, rest) := take_digits r in
                                    ("." ++ ds, rest)
                  | _ => ("", r1)
                  end in
  let (ep, r3) := Json.match_exp r2 in
  if String.eqb fp "" && String.eqb ep "" then
    if (1 <? String.length ip)%nat && String.prefix "0" ip then None
    else Some (VInt (Z_of_digits 0 ip), r3)
  else match PyFloat.of_string (ip ++ fp ++ ep) with
       | Some f => Some (VFloat f, r3)
       | None => None
       end.

(** A string literal without escapes, after its opening quote [q]: the text
    up to the next [q] on the same line. *)
Fixpoint lex_string (q : ascii) (s : string) : option (string * string) :=
  match s with
  | EmptyString => None
  | String c r =>
      if Ascii.eqb c q then Some ("", r)
      else if Ascii.eqb c "\" || Ascii.eqb c newline then None
      else match lex_string q r with
           | Some (t, rest) => Some (String c t, rest)
           | None => None
           end
  end.

(** A comparison operator at the front of the text. *)
Definition lex_compare (s : string) : option (cmpop * string) :=
  match s with
  | String "=" (String "=" r) => Some (CEq, r)
  | String "!" (String "=" r) => Some (CNe, r)
  | String "<" (String "=" r) => Some (CLe, r)
  | String ">" (String "=" r) => Some (CGe, r)
  | String "<" r => Some (CLt, r)
  | String ">" r => Some (CGt, r)
  | _ => None
  end.

Fixpoint tokenize (fuel : nat) (s : string) : option (list token) :=
  match fuel with
  | O => match s with EmptyString => Some [] | _ => None end
  | S fuel' =>
      match s with
      | EmptyString => Some []
      | String c r =>
          if isspace c then tokenize fuel' r
          else if is_digit c then
            match lex_number s with
            | Some (v, rest) =>
                match tokenize fuel' rest with
                | Some ts => Some (TNum v :: ts)
                | None => None
                end
            | None => None
            end
          else if is_name_start c then
            let (w, rest) := take_name s in
            match tokenize fuel' rest with
            | Some ts => Some (TName w :: ts)
            | None => None
            end
          else if Ascii.eqb c "'" || Ascii.eqb c dquote then
            match lex_string c r with
            | Some (t, rest) =>
                match tokenize fuel' rest with
                | Some ts => Some (TStr t :: ts)
                | None => None
                end
            | None => None
            end
          else if mem_char c "+-*/(),.[]"
          then match tokenize fuel' r with
               | Some ts => Some (TOp c :: ts)
               | None => None
               end
          else match lex_compare s with
               | Some (op, rest) =>
                   match tokenize fuel' rest with
                   | Some ts => Some (TCmp op :: ts)
                   | None => None
                   end
               | None => None
               end
      end
  end.

Definition is_keyword (w : string) : bool :=
  in_strings w ["if"; "else"; "or"; "and"; "not"; "in"; "is"; "lambda"; "for";
                "await"; "yield"].

(** The grammar, one level per precedence: 0 the conditional expression,
    1 [or], 2 [and], 3 [not], 4 a comparison, 5 sums, 6 products, 7 signs,
    8 calls, attributes and subscripts, 9 atoms, among them the tuple display
    and the list comprehension. [parse_more] continues a left-associative
    chain or a chain of calls, attributes and subscripts; [parse_args] reads
    the expressions up to a closing parenthesis, [parse_conds] the [if]
    clauses of a comprehension. *)
Fixpoint parse (fuel : nat) (level : nat) (ts : list token)
  : option (expr * list token) :=
  match fuel with
  | O => None
  | S fuel' =>
      match level with
      | 0 =>
          match parse fuel' 1 ts with
          | Some (body, TName "if" :: r1) =>
              match parse fuel' 1 r1 with
              | Some (test, TName "else" :: r2) =>
                  match parse fuel' 0 r2 with
                  | Some (orelse, r3) => Some (EIfExp test body orelse, r3)
                  | None => None
                  end
              | _ => None
              end
          | other => other
          end
      | 3 =>
          match ts with
          | TName "not" :: r =>
              match parse fuel' 3 r with
              | Some (e, r') => Some (EUnary UNot e, r')
              | None => None
              end
          | _ => parse fuel' 4 ts
          end
      | 7 =>
          match ts with
          | TOp "-" :: r =>
              match parse fuel' 7 r with
              | Some (e, r') => Some (EUnary UNeg e, r')
              | None => None
              end
          | TOp "+" :: r =>
              match parse fuel' 7 r with
              | Some (e, r') => Some (EUnary UPos e, r')
              | None => None
              end
          | _ => parse fuel' 8 ts
          end
      | 9 =>
          match ts with
          | TNum v :: r => Some (EConst v, r)
          | TStr s :: r => Some (EConst (VStr s), r)
          | TName w :: r =>
              if String.eqb w "True" then Some (EConst (VBool true), r)
              else if String.eqb w "False" then Some (EConst (VBool false), r)
              else if String.eqb w "None" then Some (EConst VNone, r)
              else if is_keyword w then None
              else Some (EName w, r)
          | TOp "(" :: TOp ")" :: r => Some (ETuple [], r)
          | TOp "(" :: r =>
              match parse fuel' 0 r with
              | Some (e, TOp ")" :: r') => Some (e, r')
              | Some (e, TOp "," :: TOp ")" :: r') => Some (ETuple [e], r')
              | Some (e, TOp "," :: r1) =>
                  match parse_args fuel' r1 with
                  | Some (rest, r') => Some (ETuple (e :: rest), r')
                  | None => None
                  end
              | _ => None
              end
          | TOp "[" :: r =>
              match parse fuel' 0 r with
              | Some (elt, TName "for" :: TName var :: TName "in" :: r1) =>
                  if is_keyword var then None
                  else
                    match parse fuel' 1 r1 with
                    | Some (iter, r2) =>
                        match parse_conds fuel' r2 with
                        | Some (conds, TOp "]" :: r3) =>
                            Some (EListComp elt var iter conds, r3)
                        | _ => None
                        end
                    | None => None
                    end
              | _ => None
              end
          | _ => None
          end
      | _ =>
          match parse fuel' (S level) ts with
          | Some (lhs, r) => parse_more fuel' level lhs r
          | None => None
          end
      end
  end
with parse_more (fuel : nat) (level : nat) (lhs : expr) (ts : list token)
  : option (expr * list token) :=
  match fuel with
  | O => None
  | S fuel' =>
      let chain (f : expr -> expr) (r : list token) :=
        match parse fuel' (S level) r with
        | Some (rhs, r') => parse_more fuel' level (f rhs) r'
        | None => None
        end in
      match level, ts with
      | 1, TName "or" :: r => chain (EBool BoolOr lhs) r
      | 2, TName "and" :: r => chain (EBool BoolAnd lhs) r
      | 4, TCmp op :: r =>
          match parse fuel' 5 r with
          | Some (rhs, TCmp _ :: _) => None
          | Some (rhs, r') => Some (ECompare op lhs rhs, r')
          | None => None
          end
      | 5, TOp "+" :: r => chain (EBin BAdd lhs) r
      | 5, TOp "-" :: r => chain (EBin BSub lhs) r
      | 6, TOp "*" :: r => chain (EBin BMul lhs) r
      | 6, TOp "/" :: r => chain (EBin BDiv lhs) r
      | 8, TOp "(" :: TOp ")" :: r => parse_more fuel' level (ECall lhs []) r
      | 8, TOp "(" :: r =>
          match parse_args fuel' r with
          | Some (args, r') => parse_more fuel' level (ECall lhs args) r'
          | None => None
          end
      | 8, TOp "." :: TName attr :: r =>
          if is_keyword attr then None
          else parse_more fuel' level (EAttr lhs attr) r
      | 8, TOp "[" :: r =>
          match parse fuel' 0 r with
          | Some (index, TOp "]" :: r') =>
              parse_more fuel' level (ESubscript lhs index) r'
          | _ => None
          end
      | _, _ => Some (lhs, ts)
      end
  end
with parse_args (fuel : nat) (ts : list token) : option (list expr * list token) :=
  match fuel with
  | O => None
  | S fuel' =>
      match parse fuel' 0 ts with
      | Some (a, TOp ")" :: r) => Some ([a], r)
      | Some (a, TOp "," :: TOp ")" :: r) => Some ([a], r)
      | Some (a, TOp "," :: r) =>
          match parse_args fuel' r with
          | Some (rest, r') => Some (a :: rest, r')
          | None => None
          end
      | _ => None
      end
  end
with parse_conds (fuel : nat) (ts : list token) : option (list expr * list token) :=
  match fuel with
  | O => None
  | S fuel' =>
      match ts with
      | TName "if" :: r =>
          match parse fuel' 1 r with
          | Some (c, r') =>
              match parse_conds fuel' r' with
              | Some (rest, r2) => Some (c :: rest, r2)
              | None => None
              end
          | None => None
          end
      | _ => Some ([], ts)
      end
  end.

(** The error of a text that this compiler does not read, with the general
    message of the interpreter, which has more specific ones for some
    errors; the line is [0] for a text without a token. *)
Definition syntax_error (line : nat) : PyExc :=
  mkExc "SyntaxError" ("invalid syntax (<string>, line " ++ string_of_nat line ++ ")").

(** [compile(source, "<string>", "eval")] on the part of the syntax that is
    read here. *)
Definition compile_eval (source : string) : Outcome expr :=
  match tokenize (String.length source) source with
  | None => Raises (syntax_error 1)
  | Some [] => Raises (syntax_error 0)
  | Some ts =>
      match parse (30 * (List.length ts + 1)) 0 ts with
      | Some (e, []) => Returns e
      | _ => Raises (syntax_error 1)
      end
  end.

(** *** Operators *)

Inductive number : Type :=
| NInt (z : Z)
| NFloat (f : float).

Definition number_of (v : PyVal) : option number :=
  match v with
  | VBool b => Some (NInt (if b then 1 else 0)%Z)
  | VInt z => Some (NInt z)
  | VFloat f => Some (NFloat f)
  | _ => None
  end.

Definition to_float (n : number) : Outcome float :=
  match n with
  | NInt z => float_of_Z z
  | NFloat f => Returns f
  end.

Definition binop_symbol (op : binop) : string :=
  match op with
  | BAdd => "+" | BSub => "-" | BMul => "*" | BDiv => "/"
  | BFloorDiv => "//" | BMod => "%" | BPow => "** or pow()"
  end.

Definition unsupported (op : binop) (x y : PyVal) : PyExc :=
  mkExc "TypeError"
    ("unsupported operand type(s) for " ++ binop_symbol op ++ ": '"
       ++ type_name x ++ "' and '" ++ type_name y ++ "'").

Definition float_op (op : binop) (a b : float) : Outcome float :=
  match op with
  | BAdd => Returns (a + b)%float
  | BSub => Returns (a - b)%float
  | BMul => Returns (a * b)%float
  | _ =>
      if PrimFloat.eqb b 0%float
      then Raises (mkExc "ZeroDivisionError" "float division by zero")
      else Returns (a / b)%float
  end.

(** The quotient of two integers, rounded once. *)
Definition int_true_div (a b : Z) : Outcome float :=
  if (b =? 0)%Z then Raises (mkExc "ZeroDivisionError" "division by zero")
  else if (a =? 0)%Z then Returns (if (b <? 0)%Z then (-0)%float else 0%float)
  else
    let q := PyFloat.of_fraction (Z.abs a) (Z.abs b) in
    if PrimFloat.is_infinity q
    then Raises (mkExc "OverflowError" "integer division result too large for a float")
    else Returns (if Bool.eqb (a <? 0)%Z (b <? 0)%Z then q else (- q)%float).

Definition binop_outcome (op : binop) (x y : PyVal) : Outcome PyVal :=
  match op with
  | BFloorDiv | BMod | BPow => Raises (unsupported op x y)
  | _ =>
      match number_of x, number_of y with
      | Some (NInt a), Some (NInt b) =>
          match op with
          | BAdd => Returns (VInt (a + b))
          | BSub => Returns (VInt (a - b))
          | BMul => Returns (VInt (a * b))
          | _ => obind (int_true_div a b) (fun f => Returns (VFloat f))
          end
      | Some a, Some b =>
          obind (to_float a) (fun fa =>
          obind (to_float b) (fun fb =>
          obind (float_op op fa fb) (fun f => Returns (VFloat f))))
      | _, _ =>
          match op, x, y with
          | BAdd, VStr a, VStr b => Returns (VStr (a ++ b))
          | BAdd, VList a, VList b => Returns (VList (app a b))
          | BAdd, VTuple a, VTuple b => Returns (VTuple (app a b))
          | BAdd, VStr _, _ | BAdd, VList _, _ | BAdd, VTuple _, _ =>
              Raises (mkExc "TypeError"
                        ("can only concatenate " ++ type_name x ++ " (not "
                           ++ String dquote (type_name y ++ String dquote "")
                           ++ ") to " ++ type_name x))
          | _, _, _ => Raises (unsupported op x y)
          end
      end
  end.

Definition apply_binop (op : binop) (x y : PyVal) : Completion PyVal :=
  of_outcome (binop_outcome op x y).

(** [not] asks for the truth value of its operand, which for an object of
    this runtime is always true. *)
Definition object_truth (cls : string) (state : list PyVal) : bool := true.

Definition truth (x : PyVal) : bool :=
  match x with
  | VNone => false
  | VBool b => b
  | VInt z => negb (Z.eqb z 0)
  | VFloat f => negb (PrimFloat.eqb f 0%float)
  | VStr s => negb (String.eqb s "")
  | VList l | VTuple l => match l with [] => false | _ => true end
  | VDict d => match d with [] => false | _ => true end
  | VBuiltin _ => true
  | VObject cls state => object_truth cls state
  end.

Definition unop_outcome (op : unop) (x : PyVal) : Outcome PyVal :=
  match op with
  | UNot => Returns (VBool (negb (truth x)))
  | UNeg =>
      match number_of x with
      | Some (NInt a) => Returns (VInt (- a))
      | Some (NFloat f) => Returns (VFloat (- f))
      | None => Raises (mkExc "TypeError"
                          ("bad operand type for unary -: '" ++ type_name x ++ "'"))
      end
  | UPos =>
      match number_of x with
      | Some (NInt a) => Returns (VInt a)
      | Some (NFloat f) => Returns (VFloat f)
      | None => Raises (mkExc "TypeError"
                          ("bad operand type for unary +: '" ++ type_name x ++ "'"))
      end
  end.

Definition apply_unop (op : unop) (x : PyVal) : Completion PyVal :=
  of_outcome (unop_outcome op x).

Definition math_argument (v : PyVal) : Outcome float :=
  match number_of v with
  | Some n => to_float n
  | None => Raises (mkExc "TypeError" ("must be real number, not " ++ type_name v))
  end.

Definition math_call (fn : string) (args : list PyVal) : Outcome PyVal :=
  match args with
  | [x] =>
      obind (math_argument x) (fun a =>
      if String.eqb fn "sqrt" then
        if PrimFloat.ltb a 0%float
        then Raises (mkExc "ValueError" "math domain error")
        else Returns (VFloat (PrimFloat.sqrt a))
      else if String.eqb fn "fabs" then Returns (VFloat (abs a))
      else Raises (mkExc "TypeError" ("math." ++ fn ++ "() is not available")))
  | _ =>
      Raises (mkExc "TypeError"
                ("math." ++ fn ++ "() takes exactly one argument ("
                   ++ string_of_nat (List.length args) ++ " given)"))
  end.

(** *** Objects

    The part of the object model that this runtime provides. A class is the
    object of class [type] with the qualified name of the class; a method
    bound to an object is the object of class [builtin_function_or_method]
    with the name of the method and the object; [Quitter] is the class that
    the [site] module defines for [exit] and [quit], with a name and the
    text of a key: calling an instance of it raises [SystemExit]. *)

Definition class_object (q : string) : PyVal := VObject "type" [VStr q].

Definition quitter : string := "_sitebuiltins.Quitter".

(** The qualified name of the class of a value; the classes of the
    [builtins] module go by their bare names. *)
Definition class_of (v : PyVal) : string :=
  match v with
  | VObject cls _ => cls
  | _ => type_name v
  end.

(** The classes that [object.__subclasses__()] gives: of the hundreds that
    an interpreter has loaded, the built-in ones of this runtime and
    [Quitter]. *)
Definition object_subclasses : list PyVal :=
  map class_object
    ["type"; "int"; "float"; "str"; "tuple"; "list"; "dict"; "NoneType";
     "builtin_function_or_method"; quitter].

Definition attribute_error (v : PyVal) (attr : string) : PyExc :=
  mkExc "AttributeError"
    (match v with
     | VObject "type" [VStr q] =>
         "type object '" ++ unqualified q ++ "' has no attribute '" ++ attr ++ "'"
     | _ => "'" ++ type_name v ++ "' object has no attribute '" ++ attr ++ "'"
     end).

(** [v.attr] for [__class__] on any value, [__name__] on a class and on a
    built-in function, [__base__] and [__subclasses__] on a class. *)
Definition getattr (v : PyVal) (attr : string) : Completion PyVal :=
  if String.eqb attr "__class__" then Completes (class_object (class_of v))
  else
    match v with
    | VObject "type" [VStr q] =>
        if String.eqb attr "__name__" then Completes (VStr (unqualified q))
        else if String.eqb attr "__base__" then
          Completes (if String.eqb q "object" then VNone
                     else if String.eqb q "bool" then class_object "int"
                     else class_object "object")
        else if String.eqb attr "__subclasses__" then
          Completes (VObject "builtin_function_or_method" [VStr attr; v])
        else Excepts (attribute_error v attr)
    | VBuiltin fn =>
        if String.eqb attr "__name__" then Completes (VStr fn)
        else Excepts (attribute_error v attr)
    | _ => Excepts (attribute_error v attr)
    end.

Definition not_callable (f : PyVal) : PyExc :=
  mkExc "TypeError" ("'" ++ type_name f ++ "' object is not callable").

Definition not_available (what : string) : PyExc :=
  mkExc "TypeError" (what ++ " is not available").

(** A call: a function of [math]; [__subclasses__] of a class; the
    classes [tuple] and [object] without arguments and [Quitter] with its
    two; an instance of [Quitter], which raises [SystemExit] with the code
    it is given, [None] when it is given none. *)
Definition apply_call (f : PyVal) (args : list PyVal) : Completion PyVal :=
  match f with
  | VBuiltin fn => of_outcome (math_call fn args)
  | VObject "builtin_function_or_method" [VStr "__subclasses__"; VObject "type" [VStr q]] =>
      match args with
      | [] =>
          Completes (VList (if String.eqb q "object" then object_subclasses
                            else if String.eqb q "int" then [class_object "bool"]
                            else []))
      | _ =>
          Excepts (mkExc "TypeError"
                     (unqualified q ++ ".__subclasses__() takes no arguments ("
                        ++ string_of_nat (List.length args) ++ " given)"))
      end
  | VObject "type" [VStr q] =>
      if String.eqb q quitter then
        match args with
        | [name; eof] => Completes (VObject quitter [name; eof])
        | _ => Excepts (not_available "Quitter() with other than two arguments")
        end
      else
        match args with
        | [] =>
            if String.eqb q "tuple" then Completes (VTuple [])
            else if String.eqb q "list" then Completes (VList [])
            else if String.eqb q "dict" then Completes (VDict [])
            else if String.eqb q "object" then Completes (VObject "object" [])
            else Excepts (not_available (unqualified q ++ "()"))
        | _ => Excepts (not_available (unqualified q ++ "() with arguments"))
        end
  | VObject cls _ =>
      if String.eqb cls quitter then
        match args with
        | [] | [VNone] => Exits (mkExc "SystemExit" "None")
        | [VInt code] => Exits (mkExc "SystemExit" (string_of_Z code))
        | [VStr code] => Exits (mkExc "SystemExit" code)
        | _ => Excepts (not_available "Quitter.__call__() with this code")
        end
      else Excepts (not_callable f)
  | _ => Excepts (not_callable f)
  end.

(** The item of index [i], counted from the end when [i] is negative. *)
Definition item_at (kind : string) (items : list PyVal) (i : Z) : Outcome PyVal :=
  let n := Z.of_nat (List.length items) in
  let j := if (i <? 0)%Z then (i + n)%Z else i in
  if ((j <? 0) || (n <=? j))%Z
  then Raises (mkExc "IndexError" (kind ++ " index out of range"))
  else match nth_error items (Z.to_nat j) with
       | Some v => Returns v
       | None => Raises (mkExc "IndexError" (kind ++ " index out of range"))
       end.

Definition index_of (v : PyVal) : option Z :=
  match v with
  | VBool b => Some (if b then 1 else 0)%Z
  | VInt z => Some z
  | _ => None
  end.

(** [v[k]] for a list or a tuple and an integer, and for a [dict] and a
    [str]. *)
Definition subscript (v k : PyVal) : Completion PyVal :=
  match v with
  | VList items | VTuple items =>
      match index_of k with
      | Some i => of_outcome (item_at (type_name v) items i)
      | None =>
          Excepts (mkExc "TypeError"
                     (type_name v ++ " indices must be integers or slices, not "
                        ++ type_name k))
      end
  | VDict d =>
      match k with
      | VStr key =>
          match dict_get key d with
          | Some x => Completes x
          | None => Excepts (not_available "the text of this KeyError")
          end
      | _ => Excepts (not_available "a dict key that is not a str")
      end
  | VStr _ => Excepts (not_available "the index of a str")
  | _ => Excepts (mkExc "TypeError"
                    ("'" ++ type_name v ++ "' object is not subscriptable"))
  end.

(** The characters of a text, each with the bytes of its UTF-8 sequence. *)
Fixpoint characters (s : string) : list string :=
  match s with
  | EmptyString => []
  | String c r =>
      if continuation c then characters r
      else String c (take_continuation r) :: characters r
  end.

(** The compiler of this runtime gives no expression of another form. *)
Definition eval_other (code : string) (globals locals : PyDict)
  : Completion PyVal :=
  Excepts (not_available ("the evaluation of " ++ code)).

(** The items of a list, a tuple, a [str] and a [dict]. *)
Definition iterate (v : PyVal) : Completion (list PyVal) :=
  match v with
  | VList items | VTuple items => Completes items
  | VStr s => Completes (map VStr (characters s))
  | VDict d => Completes (map (fun kv => VStr (fst kv)) d)
  | _ => Excepts (mkExc "TypeError" ("'" ++ type_name v ++ "' object is not iterable"))
  end.

Definition compare_numbers (a b : number) : option comparison :=
  match a, b with
  | NInt x, NInt y => Some (Z.compare x y)
  | _, _ =>
      match to_float a, to_float b with
      | Returns x, Returns y =>
          if PrimFloat.eqb x y then Some Eq
          else if PrimFloat.ltb x y then Some Lt
          else if PrimFloat.ltb y x then Some Gt
          else None
      | _, _ => None
      end
  end.

(** [x == y] for numbers, texts, [None], classes, and lists and tuples of
    those; any other two values are equal when they are the same object,
    which two values of this runtime never are. *)
Fixpoint equal (x y : PyVal) : bool :=
  let fix all2 (l m : list PyVal) : bool :=
    match l, m with
    | [], [] => true
    | a :: l', b :: m' => equal a b && all2 l' m'
    | _, _ => false
    end in
  match x, y with
  | VNone, VNone => true
  | VStr a, VStr b => String.eqb a b
  | VList a, VList b => all2 a b
  | VTuple a, VTuple b => all2 a b
  | VObject "type" [VStr p], VObject "type" [VStr q] => String.eqb p q
  | _, _ =>
      match number_of x, number_of y with
      | Some a, Some b =>
          match compare_numbers a b with
          | Some Eq => true
          | _ => false
          end
      | _, _ => false
      end
  end.

Definition compare_symbol (op : cmpop) : string :=
  match op with
  | CEq => "==" | CNe => "!=" | CLt => "<" | CLe => "<=" | CGt => ">" | CGe => ">="
  end.

(** The order of two numbers and of two texts. *)
Definition order (x y : PyVal) : option (option comparison) :=
  match x, y with
  | VStr a, VStr b => Some (Some (String.compare a b))
  | _, _ =>
      match number_of x, number_of y with
      | Some a, Some b => Some (compare_numbers a b)
      | _, _ => None
      end
  end.

Definition apply_compare (op : cmpop) (x y : PyVal) : Completion PyVal :=
  match op with
  | CEq => Completes (VBool (equal x y))
  | CNe => Completes (VBool (negb (equal x y)))
  | _ =>
      match order x y with
      | Some c =>
          Completes (VBool (match op, c with
                            | CLt, Some Lt => true
                            | CLe, Some Lt | CLe, Some Eq => true
                            | CGt, Some Gt => true
                            | CGe, Some Gt | CGe, Some Eq => true
                            | _, _ => false
                            end))
      | None =>
          Excepts (mkExc "TypeError"
                     ("'" ++ compare_symbol op ++ "' not supported between instances of '"
                        ++ type_name x ++ "' and '" ++ type_name y ++ "'"))
      end
  end.

(** The text of an object, from its class and the texts of what tells it
    from the other objects of the class; the addresses that the interpreter
    shows are left out. *)
Definition object_repr (cls : string) (texts : list string) : string :=
  match texts with
  | [q] =>
      if String.eqb cls "type" then "<class '" ++ q ++ "'>"
      else "<" ++ cls ++ " object>"
  | [a; b] =>
      if String.eqb cls quitter then "Use " ++ a ++ "() or " ++ b ++ " to exit"
      else if String.eqb cls "builtin_function_or_method"
           then "<built-in method " ++ a ++ " of type object>"
      else "<" ++ cls ++ " object>"
  | _ => "<" ++ cls ++ " object>"
  end.

(** [str.isprintable] beyond the ASCII range, by the ranges of the code
    points that Unicode 14 assigns to control and format characters,
    separators, surrogates and private use: those are not printable. The
    code points that it leaves unassigned are not printable either; this
    runtime takes them as printable. *)
Definition unprintable : list (N * N) :=
  [ (128, 160); (173, 173); (1536, 1541); (1564, 1564); (1757, 1757);
    (1807, 1807); (2192, 2193); (2274, 2274); (5760, 5760); (6158, 6158);
    (8192, 8207); (8232, 8239); (8287, 8292); (8294, 8303); (12288, 12288);
    (55296, 63743); (65279, 65279); (65529, 65531); (69821, 69821);
    (69837, 69837); (78896, 78904); (113824, 113827); (119155, 119162);
    (917505, 917505); (917536, 917631); (983040, 1048573);
    (1048576, 1114109) ]%N.

Definition isprintable (cp : N) : bool :=
  negb (existsb (fun range => (fst range <=? cp) && (cp <=? snd range))%N
          unprintable).

(** The entries of [math.__dict__] that this runtime provides: the module
    attributes first, as in the module, then functions and constants. *)
Definition math_dict : PyDict :=
  [ ("__name__", VStr "math");
    ("__doc__", VStr "This module provides access to the mathematical functions");
    ("__package__", VStr "");
    ("__loader__", VNone);
    ("__spec__", VNone);
    ("sqrt", VBuiltin "sqrt");
    ("fabs", VBuiltin "fabs");
    ("pi", VFloat 0x1.921fb54442d18p+1%float);
    ("e", VFloat 0x1.5bf0a8b145769p+1%float);
    ("tau", VFloat 0x1.921fb54442d18p+2%float);
    ("inf", VFloat infinity);
    ("nan", VFloat nan) ].

(** The first line of pydantic's message. *)
Definition validation_message (model : string) (input : PyVal) : string :=
  "1 validation error for " ++ model.

(** The comprehensions are functions of their own, and the recursion limit
    leaves 995 levels to the JSON decoder. *)
#[export] Instance runtime : Runtime := {|
  Py.float_repr := PyFloat.repr;
  Py.float_of_string := PyFloat.of_string;
  Py.validation_message := validation_message;
  Py.compile_eval := compile_eval;
  Py.apply_unop := apply_unop;
  Py.apply_binop := apply_binop;
  Py.apply_compare := apply_compare;
  Py.apply_call := apply_call;
  Py.getattr := getattr;
  Py.subscript := subscript;
  Py.iterate := iterate;
  Py.eval_other := eval_other;
  Py.object_repr := object_repr;
  Py.object_truth := object_truth;
  Py.comprehension_sees_locals := false;
  Py.json_nesting_spare := 895;
  Py.isprintable := isprintable;
  Py.math_dict := math_dict
|}.

End Reference.

(** ** The deployment of the repository

    One [MCPServer] named [calculator], started as
    [python mcp_server/server.py], as [langgraph_flow/main.py] constructs its
    executor; the worker behind it is the calculator of [Worker]. *)

Module Deployment.
Import PyStr Py Mcp Client.

Definition calculator_config : PyDict :=
  [ ("command", VStr "python"); ("args", VList [VStr "mcp_server/server.py"]) ].

Definition calculator : MCPServer :=
  mkMCPServer "calculator" calculator_config None None.

(** Before anything runs: no process, one object, a blank console. *)
Definition boot : Store := mkStore [] [calculator] [] [].

Section Worlds.
Context {RT : Runtime}.

(** What a call brings back from the worker: the blocks its handler
    answers with. An environment answers every call, so the calls of these
    worlds are the ones the handler answers: a call that it does not answer
    stands here with no block. *)
Definition answered (name : string) (arguments : PyDict) : list TextContent :=
  match Worker.call_tool name arguments with
  | Answers blocks => blocks
  | _ => []
  end.

(** The executable starts, the handshake is answered, and the handlers
    are those of [mcp_server/server.py]. *)
Definition conforming : Env :=
  mkEnv (fun _ => true) (fun _ => true)
    (fun _ => Worker.list_tools) (fun _ => answered).

(** The same worker, except that it does not answer the handshake. *)
Definition silent : Env :=
  mkEnv (fun _ => true) (fun _ => false)
    (fun _ => Worker.list_tools) (fun _ => answered).

(** The executable cannot be started. *)
Definition missing : Env :=
  mkEnv (fun _ => false) (fun _ => false)
    (fun _ => Worker.list_tools) (fun _ => answered).
End Worlds.

(** The spawned workers that still run. *)
Definition orphans (st : Store) : list Process := filter running (procs st).

(** What each worker has received so far. *)
Definition traffic (st : Store) : list (list Request) := map received (procs st).

(** The store once the worker [pid] has received [req]. *)
Definition requested (pid : nat) (req : Request) (st : Store) : Store :=
  mkStore (update_nth pid (deliver req) (procs st)) (servers st) (stdout st) (log st).

(** The store once [line] has been printed. *)
Definition printed (line : string) (st : Store) : Store :=
  mkStore (procs st) (servers st) (app (stdout st) [line]) (log st).

End Deployment.

(** ** [mcp_simple_chatbot/main.py]: [Configuration], [LLMClient] and [main]

    What the operating system and the network give the program is a world:
    the value of the environment variable, the text of a file, and the
    decoded body of a completion request. *)

Module Chatbot.
Import PyStr Py Mcp Json Client.
Local Open Scope py_scope.

Record World : Type := mkWorld {
  (** [os.getenv("OPENAI_API_KEY")] once [load_dotenv()] has run. *)
  getenv_api_key : option string;
  (** [open(file_path, "r")] and the text read from the file. *)
  read_text : string -> Outcome string;
  (** [client.post], [raise_for_status()] and [response.json()] for a key
      and the messages of the payload, as pairs of role and content. *)
  post_json : string -> list (string * string) -> Outcome PyVal
}.

Record Configuration : Type := mkConfiguration { api_key : option string }.

(** [json.load(f)] is [json.loads(f.read())]. *)
Definition load_config {RT : Runtime} (world : World) (file_path : string)
  : Outcome PyVal :=
  obind (read_text world file_path) json_loads.

(** The property [openai_api_key]: an empty key is as good as none. *)
Definition openai_api_key (self : Configuration) : Outcome string :=
  match api_key self with
  | Some key =>
      if String.eqb key ""
      then Raises (mkExc "ValueError" "OPENAI_API_KEY not found in .env file")
      else Returns key
  | None => Raises (mkExc "ValueError" "OPENAI_API_KEY not found in .env file")
  end.

Record LLMClient : Type := mkLLMClient { client_api_key : string }.

(** The bytes that continue a character of a UTF-8 text. *)
Fixpoint continuation (s : string) : string :=
  match s with
  | EmptyString => EmptyString
  | String c r =>
      if ((128 <=? nat_of_ascii c) && (nat_of_ascii c <? 192))%nat
      then String c (continuation r) else EmptyString
  end.

(** [v[0]] *)
Definition item_0 (v : PyVal) : Outcome PyVal :=
  match v with
  | VList (x :: _) => Returns x
  | VList [] => Raises (mkExc "IndexError" "list index out of range")
  | VStr (String c r) => Returns (VStr (String c (continuation r)))
  | VStr EmptyString => Raises (mkExc "IndexError" "string index out of range")
  | VDict _ => Raises (mkExc "KeyError" "0")
  | _ => Raises (mkExc "TypeError" ("'" ++ type_name v ++ "' object is not subscriptable"))
  end.

(** [data["choices"][0]["message"]["content"]] *)
Definition completion_content {RT : Runtime} (data : PyVal) : Outcome PyVal :=
  obind (getitem data "choices") (fun choices =>
  obind (item_0 choices) (fun choice =>
  obind (getitem choice "message") (fun message =>
  getitem message "content"))).

Definition failure_text : string := "Error: Failed to get response from OpenAI.".

Definition get_response {RT : Runtime} (world : World) (self : LLMClient)
           (messages : list (string * string)) : M PyVal :=
  try_except
    (data <- lift (post_json world (client_api_key self) messages) ;;
     lift (completion_content data))
    (fun e =>
       logging_error ("Error from OpenAI: " ++ exc_str e) ;;
       ret (VStr failure_text)).

(** [servers_config["mcpServers"].items()] *)
Definition server_entries {RT : Runtime} (servers_config : PyVal)
  : Outcome (list (string * PyVal)) :=
  obind (getitem servers_config "mcpServers") (fun v =>
  match v with
  | VDict d => Returns d
  | _ => Raises (mkExc "AttributeError"
                   ("'" ++ type_name v ++ "' object has no attribute 'items'"))
  end).

(** [MCPServer(name, conf)]. The constructor stores its arguments. With a
    [dict] the object is put in the store; another value is kept as it is
    until the object is first used, which is in [initialize]. *)
Definition construct (name : string) (conf : PyVal) : M (nat + string * PyVal) :=
  match conf with
  | VDict d =>
      st <- get ;;
      modify (fun st => mkStore (procs st)
                          (app (servers st) [mkMCPServer name d None None])
                          (stdout st) (log st)) ;;
      ret (inl (List.length (servers st)))
  | _ => ret (inr (name, conf))
  end.

Fixpoint construct_all (entries : list (string * PyVal))
  : M (list (nat + string * PyVal)) :=
  match entries with
  | [] => ret []
  | (name, conf) :: rest =>
      server <- construct name conf ;;
      servers <- construct_all rest ;;
      ret (server :: servers)
  end.

Section Session.
Context {RT : Runtime}.
Variable env : Env.
Variable world : World.

(** [server.initialize()] for each server in turn. On an object whose
    config is no [dict], [self.config["command"]] raises. *)
Fixpoint initialize_all (l : list (nat + string * PyVal)) : M (list nat) :=
  match l with
  | [] => ret []
  | inl server :: rest =>
      initialize env server ;;
      servers <- initialize_all rest ;;
      ret (server :: servers)
  | inr (_, conf) :: rest =>
      lift (getitem conf "command") ;;
      initialize_all rest
  end.

(** What the loop does with the answer of [get_response]: only a [str] has
    [startswith]. *)
Definition answer (servers : list nat) (llm_response : PyVal) : M unit :=
  match llm_response with
  | VStr s => Chat.handle_response env servers s
  | _ =>
      print (nl ++ "LLM Response:" ++ nl ++ " " ++ py_str llm_response) ;;
      raise (mkExc "AttributeError"
               ("'" ++ type_name llm_response
                    ++ "' object has no attribute 'startswith'"))
  end.

Fixpoint loop (servers : list nat) (llm : LLMClient) (inputs : list string)
         (messages : list (string * string)) : M unit :=
  match inputs with
  | [] => raise (mkExc "EOFError" "EOF when reading a line")
  | line :: rest =>
      let user_input := strip line in
      if in_strings (lower user_input) ["exit"; "quit"] then ret tt
      else
        let messages := app messages [("user", user_input)] in
        llm_response <- get_response world llm messages ;;
        answer servers llm_response ;;
        loop servers llm rest messages
  end.

(** [ChatSession.start] with the servers as [main] constructs them and the
    [LLMClient] of the file. *)
Definition start (servers : list (nat + string * PyVal)) (llm : LLMClient)
           (inputs : list string) : M unit :=
  servers <- initialize_all servers ;;
  all_tools <- Chat.list_all env servers [] ;;
  lines <- lift (Chat.describe all_tools) ;;
  let messages := [("system", Chat.system_prompt (join nl lines))] in
  print (nl ++ "Available tools:") ;;
  Chat.print_tools all_tools ;;
  loop servers llm inputs messages.

Definition main (inputs : list string) : M unit :=
  let config := mkConfiguration (getenv_api_key world) in
  servers_config <-
    lift (load_config world "mcp_simple_chatbot/servers_config.json") ;;
  entries <- lift (server_entries servers_config) ;;
  servers <- construct_all entries ;;
  key <- lift (openai_api_key config) ;;
  let llm := mkLLMClient key in
  start servers llm inputs.
End Session.

End Chatbot.

(** ** What a program does to the workers

    Relations between the store before and the store after a computation,
    and the computations that keep one whatever the outcome. *)

Module Lifecycle.
Import PyStr Py Mcp Client.
Local Open Scope py_scope.

(** How each worker was started and whether it runs. *)
Definition lifecycle (st : Store) : list (StdioServerParameters * bool) :=
  map (fun p => (params p, running p)) (procs st).

(** No worker started or stopped, no object changed. *)
Definition settled (st st' : Store) : Prop :=
  lifecycle st' = lifecycle st /\ servers st' = servers st.

(** Every worker runs. *)
Definition all_running (st : Store) : bool := forallb running (procs st).

(** No worker stopped. *)
Definition unstopped (st st' : Store) : Prop :=
  all_running st = true -> all_running st' = true.

Definition keeps (R : Store -> Store -> Prop) {A} (m : M A) : Prop :=
  forall st, R st (snd (m st)).

End Lifecycle.

(** * Properties *)

(** ** The calculator worker *)

Module WorkerFacts.
Import PyStr Py PyEval Mcp.

Lemma cbind_stops_l {A B} (c : Completion A) (k : A -> Completion B) :
  stops c -> stops (cbind c k).
Proof.
  intros Hc b. destruct c as [a|e|e|]; simpl; try discriminate.
  exfalso. exact (Hc a eq_refl).
Qed.

Lemma cbind_stops_r {A B} (c : Completion A) (k : A -> Completion B) :
  (forall a, stops (k a)) -> stops (cbind c k).
Proof.
  intros Hk b. destruct c as [a|e|e|]; simpl; try discriminate. apply Hk.
Qed.

Section Generic.
Context {RT : Runtime}.

Lemma otry_returns {A} (o : Outcome A) (h : PyExc -> A) (a : A) :
  o = Returns a -> otry o h = a.
Proof. intros ->. reflexivity. Qed.

Lemma otry_raises {A} (o : Outcome A) (h : PyExc -> A) (e : PyExc) :
  o = Raises e -> otry o h = h e.
Proof. intros ->. reflexivity. Qed.



(** One of the four arithmetic names takes the arithmetic branch. *)
Lemma arithmetic_name (name : string) :
  In name ["add"; "subtract"; "multiply"; "divide"] ->
  in_strings name ["add"; "subtract"; "multiply"; "divide"] = true.
Proof.
  unfold in_strings. simpl.
  intros [<-|[<-|[<-|[<-|[]]]]]; reflexivity.
Qed.

(** A call of an arithmetic tool is what the arithmetic branch comes to. *)
Lemma arithmetic_call (name : string) (arguments : PyDict) :
  In name ["add"; "subtract"; "multiply"; "divide"] ->
  Worker.call_tool_traced name arguments
  = Answers (otry (Worker.arithmetic name arguments)
               (fun e => ([mkTextContent "text" ("❌ Error: " ++ exc_str e)], []))).
Proof.
  intros Hname. unfold Worker.call_tool_traced, Worker.call_tool_body.
  rewrite (arithmetic_name name Hname).
  destruct (Worker.arithmetic name arguments); reflexivity.
Qed.


(** The call of [evaluate_expression] once the expression is validated. *)
Lemma evaluate_call (arguments : PyDict) (expr : string) :
  Worker.ExpressionInput arguments = Returns expr ->
  Worker.call_tool "evaluate_expression" arguments
  = match py_eval expr Worker.eval_globals Worker.allowed_names with
    | Completes v =>
        Answers [mkTextContent "text"
                   ("✅ Expression: " ++ expr ++ " -> " ++ py_str v)]
    | Excepts e => Answers [mkTextContent "text" ("❌ Error: " ++ exc_str e)]
    | Exits x => Passes x
    | Diverges => NoAnswer
    end.
Proof.
  intros Hvalid.
  unfold Worker.call_tool, Worker.call_tool_traced, Worker.call_tool_body.
  simpl. rewrite Hvalid. simpl.
  destruct (py_eval expr Worker.eval_globals Worker.allowed_names); reflexivity.
Qed.



(** The call of [evaluate_expression] on the graph worker for a text. *)
Lemma graph_evaluate_call (arguments : PyDict) (expr : string) :
  dict_get "input" arguments = Some (VStr expr) ->
  GraphWorker.call_tool "evaluate_expression" arguments
  = match py_eval expr [("__builtins__", VNone)] [] with
    | Completes v =>
        Answers [mkTextContent "text" ("result: " ++ expr ++ " = " ++ py_str v)]
    | Excepts e =>
        Answers [mkTextContent "text" ("Error in expression: " ++ exc_str e)]
    | Exits x => Passes x
    | Diverges => NoAnswer
    end.
Proof.
  intros Hinput. unfold GraphWorker.call_tool. simpl.
  unfold GraphWorker.arguments_input. rewrite Hinput. simpl.
  unfold GraphWorker.evaluate_expression_node. simpl.
  destruct (py_eval expr [("__builtins__", VNone)] []); reflexivity.
Qed.
End Generic.

End WorkerFacts.

Module WorkerClaims.
Import PyStr Py PyEval Mcp WorkerFacts.



(** C10, as the code has it: an invocation of [add], [subtract], [multiply]
    or [divide] whose [numbers] list has fewer than two elements, each of
    which validates as a float, is answered with the single block
    [❌ Provide at least two numbers.], and the call performs no float
    operation; when an element does not validate, the answer is the single
    block of the validation error, again without a float operation. *)
Theorem short_list_is_refused :
  forall (RT : Runtime) (name : string) (arguments : PyDict) (items : list PyVal),
    In name ["add"; "subtract"; "multiply"; "divide"] ->
    dict_get "numbers" arguments = Some (VList items) ->
    List.length items < 2 ->
    ((forall v, In v items -> Worker.validate_float v <> None) ->
     Worker.call_tool_traced name arguments
     = Answers ([mkTextContent "text" "❌ Provide at least two numbers."], []))
    /\ (forall v, In v items -> Worker.validate_float v = None ->
        Worker.call_tool_traced name arguments
        = Answers ([mkTextContent "text"
                      ("❌ Error: " ++ validation_message "CalcInput" (VDict arguments))],
                   [])).
Proof.
  intros RT name arguments items Hname Hnumbers Hshort.
  rewrite (arithmetic_call name arguments Hname).
  unfold Worker.arithmetic, Worker.CalcInput. rewrite Hnumbers.
  destruct items as [|v [|w more]]; simpl in Hshort; try lia; split.
  - intros _. reflexivity.
  - intros v [].
  - intros Hvalid. simpl.
    destruct (Worker.validate_float v) as [f|] eqn:Hv.
    + reflexivity.
    + exfalso. apply (Hvalid v); [left; reflexivity|exact Hv].
  - intros v' [<-|[]] Hv. simpl. rewrite Hv. reflexivity.
Qed.

(** The theorem at [add] with the one number [2] and with the one text
    [abc]. *)
Lemma short_list_is_refused_witness :
  Worker.call_tool_traced (RT := Reference.runtime) "add" [("numbers", VList [VInt 2])]
  = Answers ([mkTextContent "text" "❌ Provide at least two numbers."], []).
Proof.
  apply (short_list_is_refused Reference.runtime "add" _ [VInt 2]).
  - simpl. left. reflexivity.
  - reflexivity.
  - simpl. lia.
  - intros v [<-|[]]. vm_compute. discriminate.
Defined.

(** C10 as stated fails at [add] with the numbers [["abc"]]: the list has
    fewer than two elements, and the answer is the block of the validation
    error, not the request for two numbers. *)
Lemma unparsable_short_list_is_an_error :
  let arguments := [("numbers", VList [VStr "abc"])] in
  List.length [VStr "abc"] < 2
  /\ Worker.call_tool_traced (RT := Reference.runtime) "add" arguments
     = Answers ([mkTextContent "text"
                   ("❌ Error: "
                      ++ validation_message (Runtime := Reference.runtime)
                           "CalcInput" (VDict arguments))],
                [])
  /\ Worker.call_tool_traced (RT := Reference.runtime) "add" arguments
     <> Answers ([mkTextContent "text" "❌ Provide at least two numbers."], []).
Proof.
  cbv zeta. split; [simpl; lia|]. split.
  - vm_compute. reflexivity.
  - vm_compute. discriminate.
Qed.

End WorkerClaims.

(** ** The namespace of [evaluate_expression] *)

Module EvalClaims.
Import PyStr Py PyEval Mcp WorkerFacts.

Section Namespace.
Context {RT : Runtime}.

(** The locals hold public entries of [math] only. *)
Lemma allowed_names_public (id : string) (v : PyVal) :
  In (id, v) Worker.allowed_names ->
  In (id, v) math_dict /\ startswith id "__" = false.
Proof.
  unfold Worker.allowed_names. intros H. apply filter_In in H.
  destruct H as [Hin Hpub]. split; [exact Hin|].
  simpl in Hpub. apply negb_true_iff in Hpub. exact Hpub.
Qed.

Lemma dict_get_in (id : string) (d : PyDict) (v : PyVal) :
  dict_get id d = Some v -> In (id, v) d.
Proof.
  induction d as [|[k x] d IH]; simpl; [discriminate|].
  destruct (String.eqb id k) eqn:E.
  - intros [= ->]. apply String.eqb_eq in E. subst. left. reflexivity.
  - intros H. right. apply IH, H.
Qed.

(** No name with two leading underscores is among the locals. *)
Lemma dunder_not_allowed (id : string) :
  startswith id "__" = true -> dict_get id Worker.allowed_names = None.
Proof.
  intros Hd. destruct (dict_get id Worker.allowed_names) as [v|] eqn:E; [|reflexivity].
  apply dict_get_in, allowed_names_public in E. destruct E as [_ E]. congruence.
Qed.

(** A name that is neither among the locals nor [__builtins__] cannot be
    loaded: the lookup ends by subscripting [None]. *)
Lemma load_name_unresolved (id : string) :
  dict_get id Worker.allowed_names = None ->
  id <> "__builtins__" ->
  load_name Worker.eval_globals Worker.allowed_names id = Raises not_subscriptable.
Proof.
  intros Hloc Hne. unfold load_name. rewrite Hloc.
  unfold Worker.eval_globals. simpl.
  destruct (String.eqb id "__builtins__") eqn:E.
  - apply String.eqb_eq in E. contradiction.
  - reflexivity.
Qed.

(** The name [__builtins__] is found in the globals. *)
Lemma load_builtins_name :
  load_name Worker.eval_globals Worker.allowed_names "__builtins__" = Returns VNone.
Proof.
  unfold load_name. rewrite dunder_not_allowed by reflexivity. reflexivity.
Qed.

(** Evaluation does not come back with a value once a name it needs cannot
    be loaded. *)
Lemma needs_stops (globals locals : PyDict) (id : string) (x : PyExc) :
  load_name globals locals id = Raises x ->
  forall e, needs id e = true -> stops (eval_expr globals locals e).
Proof.
  intros Hload. fix IH 1. intros e.
  assert (Hlist : forall l : list expr,
             existsb (needs id) l = true ->
             stops ((fix eval_args (l : list expr) : Completion (list PyVal) :=
                       match l with
                       | [] => Completes []
                       | a :: rest =>
                           cbind (eval_expr globals locals a) (fun v =>
                           cbind (eval_args rest) (fun vs => Completes (v :: vs)))
                       end) l)).
  { fix IHl 1. intros l. destruct l as [|a rest]; simpl.
    - discriminate.
    - intros H. apply orb_true_iff in H. destruct H as [H|H].
      + apply cbind_stops_l, IH, H.
      + apply cbind_stops_r. intros v. apply cbind_stops_l, IHl, H. }
  destruct e; simpl; intros H.
  - discriminate.
  - apply String.eqb_eq in H. subst. rewrite Hload. intros a. discriminate.
  - apply cbind_stops_l, IH, H.
  - apply orb_true_iff in H. destruct H as [H|H].
    + apply cbind_stops_l, IH, H.
    + apply cbind_stops_r. intros v. apply cbind_stops_l, IH, H.
  - destruct op; apply cbind_stops_l, IH, H.
  - apply cbind_stops_l, IH, H.
  - apply orb_true_iff in H. destruct H as [H|H].
    + apply cbind_stops_l, IH, H.
    + apply cbind_stops_r. intros v. apply cbind_stops_l, Hlist, H.
  - apply cbind_stops_l, IH, H.
  - apply orb_true_iff in H. destruct H as [H|H].
    + apply cbind_stops_l, IH, H.
    + apply cbind_stops_r. intros v. apply cbind_stops_l, IH, H.
  - apply orb_true_iff in H. destruct H as [H|H].
    + apply cbind_stops_l, IH, H.
    + apply cbind_stops_r. intros v. apply cbind_stops_l, IH, H.
  - apply cbind_stops_l, Hlist, H.
  - apply cbind_stops_l, IH, H.
  - discriminate.
Qed.
End Namespace.

(** C9, as the code has it: [evaluate_expression] evaluates with the globals
    [{"__builtins__": None}] and the public names of [math] as locals. An
    expression of literals, names, operators, [and], [or], conditional
    expressions and calls, whose evaluation needs a name that is neither
    among those locals nor [__builtins__] itself, is not evaluated to a
    result: the call is answered with an error block, unless the evaluation
    of an operand before the name does not return to the handler. *)
Theorem unresolved_name_is_an_error :
  forall (RT : Runtime) (source : string) (e : expr) (id : string),
    compile_eval source = Returns e ->
    plain e = true ->
    needs id e = true ->
    dict_get id Worker.allowed_names = None ->
    id <> "__builtins__" ->
    let call := Worker.call_tool "evaluate_expression" [("expression", VStr source)] in
    (exists msg, call = Answers [mkTextContent "text" ("❌ Error: " ++ msg)])
    \/ (exists x, call = Passes x)
    \/ call = NoAnswer.
Proof.
  intros RT source e id Hcompile _ Hneeds Hloc Hne call.
  pose proof (needs_stops _ _ id _ (load_name_unresolved id Hloc Hne) e Hneeds)
    as Hstops.
  unfold call.
  rewrite (evaluate_call [("expression", VStr source)] source eq_refl).
  unfold py_eval. rewrite Hcompile. simpl.
  destruct (eval_expr Worker.eval_globals Worker.allowed_names e) as [v|x|x|].
  - exfalso. exact (Hstops v eq_refl).
  - left. exists (exc_str x). reflexivity.
  - right. left. exists x. reflexivity.
  - right. right. reflexivity.
Qed.

(** The theorem at the expression [sqrt(open)], where the answer is the
    error block of the failed lookup. *)
Lemma unresolved_name_is_an_error_witness :
  let call := Worker.call_tool (RT := Reference.runtime) "evaluate_expression"
                [("expression", VStr "sqrt(open)")] in
  ((exists msg, call = Answers [mkTextContent "text" ("❌ Error: " ++ msg)])
   \/ (exists x, call = Passes x)
   \/ call = NoAnswer)
  /\ call = Answers [mkTextContent "text"
                       "❌ Error: 'NoneType' object is not subscriptable"].
Proof.
  split.
  - apply (unresolved_name_is_an_error Reference.runtime "sqrt(open)"
             (ECall (EName "sqrt") [EName "open"]) "open").
    + vm_compute. reflexivity.
    + reflexivity.
    + reflexivity.
    + vm_compute. reflexivity.
    + discriminate.
  - vm_compute. reflexivity.
Defined.

(** C9 as stated fails at the expression [__builtins__]: the name is outside
    the locals, the expression mentions it, and the answer is a success block
    showing [None]. *)
Lemma builtins_name_is_evaluated :
  compile_eval (Runtime := Reference.runtime) "__builtins__"
  = Returns (EName "__builtins__")
  /\ mentions "__builtins__" (EName "__builtins__") = true
  /\ dict_get "__builtins__" (Worker.allowed_names (RT := Reference.runtime)) = None
  /\ Worker.call_tool (RT := Reference.runtime) "evaluate_expression"
       [("expression", VStr "__builtins__")]
     = Answers [mkTextContent "text" "✅ Expression: __builtins__ -> None"].
Proof. repeat split; vm_compute; reflexivity. Qed.

(** A name in an operand that is not evaluated is not looked up either:
    [open] is no local, and [1 or open] is answered with [1]. *)
Lemma skipped_operand_is_not_loaded :
  compile_eval (Runtime := Reference.runtime) "1 or open"
  = Returns (EBool BoolOr (EConst (VInt 1)) (EName "open"))
  /\ mentions "open" (EBool BoolOr (EConst (VInt 1)) (EName "open")) = true
  /\ dict_get "open" (Worker.allowed_names (RT := Reference.runtime)) = None
  /\ Worker.call_tool (RT := Reference.runtime) "evaluate_expression"
       [("expression", VStr "1 or open")]
     = Answers [mkTextContent "text" "✅ Expression: 1 or open -> 1"].
Proof. repeat split; vm_compute; reflexivity. Qed.

End EvalClaims.

(** ** The client: [MCPServer] *)

Module ClientFacts.
Import PyStr Py Mcp Client Deployment.
Local Open Scope py_scope.

Lemma nth_error_update_nth {A} (f : A -> A) (l : list A) (n : nat) :
  nth_error (update_nth n f l) n = option_map f (nth_error l n).
Proof.
  revert n. induction l as [|x l IH]; intros [|n]; simpl; auto.
Qed.

Lemma update_nth_twice {A} (f g : A -> A) (l : list A) (n : nat) :
  update_nth n f (update_nth n g l) = update_nth n (fun x => f (g x)) l.
Proof.
  revert n. induction l as [|x l IH]; intros [|n]; simpl; auto.
  f_equal. apply IH.
Qed.

Lemma update_nth_at {A} (f : A -> A) (l : list A) (n : nat) (x : A) :
  nth_error l n = Some x -> update_nth n f l = update_nth n (fun _ => f x) l.
Proof.
  revert n. induction l as [|y l IH]; intros [|n]; simpl; auto.
  - intros [= ->]. reflexivity.
  - intros H. f_equal. apply IH, H.
Qed.

Lemma update_nth_last {A} (f : A -> A) (l : list A) (x : A) :
  update_nth (List.length l) f (app l [x]) = app l [f x].
Proof. induction l as [|y l IH]; simpl; auto. f_equal. apply IH. Qed.

Lemma nth_error_last {A} (l : list A) (x : A) :
  nth_error (app l [x]) (List.length l) = Some x.
Proof. induction l; simpl; auto. Qed.

Lemma bind_returns {A B} (m : M A) (k : A -> M B) (st st' : Store) (a : A) :
  m st = (Returns a, st') -> bind m k st = k a st'.
Proof. intros H. unfold bind. rewrite H. reflexivity. Qed.

Lemma bind_raises {A B} (m : M A) (k : A -> M B) (st st' : Store) (e : PyExc) :
  m st = (Raises e, st') -> bind m k st = (Raises e, st').
Proof. intros H. unfold bind. rewrite H. reflexivity. Qed.

Section Methods.
Context {RT : Runtime}.
Variable env : Env.

Lemma get_self_found (self : nat) (st : Store) (s : MCPServer) :
  nth_error (servers st) self = Some s -> get_self self st = (Returns s, st).
Proof. intros H. unfold get_self, bind, get. rewrite H. reflexivity. Qed.

Lemma tools_of_items_tools (l : list Tool) :
  tools_of_items (map ItemTool l) = Returns l.
Proof.
  induction l as [|t l IH]; simpl; [reflexivity|]. rewrite IH. reflexivity.
Qed.

(** With a session to a running worker, [list_tools] sends one request and
    returns the worker's tools. *)
Lemma list_tools_spec (self : nat) (st : Store) (s : MCPServer) (pid : nat) (p : Process) :
  nth_error (servers st) self = Some s ->
  session s = Some pid ->
  nth_error (procs st) pid = Some p ->
  running p = true ->
  list_tools env self st
  = (Returns (tools_of env (params p)), requested pid ReqListTools st).
Proof.
  intros Hs Hsess Hp Hrun.
  unfold list_tools, bind. rewrite (get_self_found _ _ _ Hs).
  unfold assert_session. rewrite Hsess. unfold ret at 1.
  unfold session_list_tools, bind, send, bind, get_process, bind, get. simpl.
  rewrite Hp. unfold ret at 1. rewrite Hrun.
  unfold set_process, modify, ret, lift. simpl.
  rewrite tools_of_items_tools. reflexivity.
Qed.

(** It returns in no other situation. *)
Lemma list_tools_inv (self : nat) (st st' : Store) (tools : list Tool) :
  list_tools env self st = (Returns tools, st') ->
  exists s pid p,
    nth_error (servers st) self = Some s /\ session s = Some pid /\
    nth_error (procs st) pid = Some p /\ running p = true.
Proof.
  unfold list_tools, bind, get_self, bind, get.
  destruct (nth_error (servers st) self) as [s|] eqn:Hs; [|discriminate].
  unfold ret at 1. unfold assert_session.
  destruct (session s) as [pid|] eqn:Hsess; [|discriminate].
  unfold ret at 1.
  unfold session_list_tools, bind, send, bind, get_process, bind, get.
  destruct (nth_error (procs st) pid) as [p|] eqn:Hp; [|discriminate].
  unfold ret at 1.
  destruct (running p) eqn:Hrun; [|discriminate].
  intros _. exists s, pid, p. auto.
Qed.

(** [initialize] on an object whose configuration is valid and whose
    executable starts: the worker is spawned and receives the handshake; the
    method returns when the handshake is answered and raises otherwise, the
    entered contexts staying on the exit stack in both cases. *)
Lemma initialize_spec (self : nat) (st : Store) (s : MCPServer)
      (command : PyVal) (server_params : StdioServerParameters) :
  nth_error (servers st) self = Some s ->
  config_command (config s) = Returns command ->
  make_params command (config_args (config s)) = Returns server_params ->
  spawns env server_params = true ->
  let pid := List.length (procs st) in
  initialize env self st =
  if handshakes env server_params then
    (Returns tt,
     mkStore (app (procs st) [mkProcess server_params true [ReqInitialize]])
       (update_nth self
          (fun _ => mkMCPServer (server_name s) (config s) (Some pid)
                      (Some [Session pid; StdioClient pid])) (servers st))
       (stdout st)
       (app (log st) ["INFO - Initialized server: " ++ server_name s]))
  else
    (Raises connection_closed,
     mkStore (app (procs st) [mkProcess server_params true [ReqInitialize]])
       (update_nth self
          (fun _ => mkMCPServer (server_name s) (config s) (session s)
                      (Some [Session pid; StdioClient pid])) (servers st))
       (stdout st)
       (app (log st) ["ERROR - Failed to initialize server '" ++ server_name s
                        ++ "': Connection closed"])).
Proof.
  intros Hs Hcmd Hparams Hspawn pid.
  unfold initialize, bind, set_self, modify, get_self, bind, get, ret, lift, try_except.
  simpl. rewrite nth_error_update_nth, Hs. simpl. rewrite Hcmd, Hparams.
  unfold enter_stdio_client, bind, spawn. rewrite Hspawn.
  unfold bind, get, modify, ret, push_context, set_self, modify. simpl.
  unfold enter_client_session, bind, push_context, set_self, modify, ret. simpl.
  unfold session_initialize, bind, send, bind, get_process, bind, get, ret. simpl.
  rewrite nth_error_last. simpl.
  unfold set_process, modify. simpl.
  rewrite update_nth_last. rewrite !update_nth_twice. simpl.
  fold pid.
  destruct (handshakes env server_params).
  - unfold ret, bind, set_self, modify, logging_info, modify. simpl.
    rewrite !update_nth_twice. simpl.
    rewrite (update_nth_at _ _ _ _ Hs). reflexivity.
  - unfold raise, bind, logging_error, modify, raise. simpl.
    rewrite (update_nth_at _ _ _ _ Hs). reflexivity.
Qed.
End Methods.

End ClientFacts.

Module ClientClaims.
Import PyStr Py Mcp Client Deployment ClientFacts.
Local Open Scope py_scope.

(** X3: [cleanup()] after [initialize()], whether the handshake was answered or
    not, leaves the spawned worker terminated. *)
Theorem cleanup_terminates_the_worker :
  forall (RT : Runtime) (env : Env) (self : nat) (st : Store) (s : MCPServer)
         (command : PyVal) (server_params : StdioServerParameters),
    nth_error (servers st) self = Some s ->
    config_command (config s) = Returns command ->
    make_params command (config_args (config s)) = Returns server_params ->
    spawns env server_params = true ->
    let started := snd (initialize env self st) in
    nth_error (procs started) (List.length (procs st))
    = Some (mkProcess server_params true [ReqInitialize])
    /\ fst (cleanup self started) = Returns tt
    /\ nth_error (procs (snd (cleanup self started))) (List.length (procs st))
       = Some (mkProcess server_params false [ReqInitialize]).
Proof.
  intros RT env self st s command server_params Hs Hcmd Hparams Hspawn started.
  pose proof (initialize_spec env self st s command server_params
                Hs Hcmd Hparams Hspawn) as Hinit.
  cbv zeta in Hinit. subst started. rewrite Hinit.
  destruct (handshakes env server_params); simpl snd;
    (split; [simpl; apply nth_error_last|]);
    unfold cleanup, bind, get_self, bind, get; simpl;
    rewrite nth_error_update_nth, Hs; simpl;
    unfold terminate, set_process, modify, bind, ret, set_self, modify; simpl;
    rewrite update_nth_last; simpl;
    (split; [reflexivity | apply nth_error_last]).
Qed.

(** C6: for a configuration that validates, an executable that starts and a
    worker that answers the handshake, [initialize()] followed by
    [list_tools()] returns, and what it returns is the list of tools the worker
    declares, in the worker's order; for the calculator worker these are [add],
    [subtract], [multiply], [divide] and [evaluate_expression]. *)
Theorem initialize_then_list_tools :
  forall (RT : Runtime) (env : Env) (self : nat) (st : Store) (s : MCPServer)
         (command : PyVal) (server_params : StdioServerParameters),
    nth_error (servers st) self = Some s ->
    config_command (config s) = Returns command ->
    make_params command (config_args (config s)) = Returns server_params ->
    spawns env server_params = true ->
    handshakes env server_params = true ->
    (exists st', (initialize env self ;; list_tools env self) st
                 = (Returns (tools_of env server_params), st'))
    /\ map name (tools_of conforming server_params)
       = ["add"; "subtract"; "multiply"; "divide"; "evaluate_expression"].
Proof.
  intros RT env self st s command server_params Hs Hcmd Hparams Hspawn Hshake.
  split; [|reflexivity].
  pose proof (initialize_spec env self st s command server_params
                Hs Hcmd Hparams Hspawn) as Hinit.
  cbv zeta in Hinit. rewrite Hshake in Hinit.
  eexists. rewrite (bind_returns _ _ _ _ _ Hinit).
  apply (list_tools_spec env self _
           (mkMCPServer (server_name s) (config s) (Some (List.length (procs st)))
              (Some [Session (List.length (procs st));
                     StdioClient (List.length (procs st))]))
           (List.length (procs st))
           (mkProcess server_params true [ReqInitialize])).
  - simpl. rewrite nth_error_update_nth, Hs. reflexivity.
  - reflexivity.
  - simpl. apply nth_error_last.
  - reflexivity.
Qed.

(** C5, as the code has it: two calls of [list_tools()] in a row return the
    same tools, and each of them, the second included, sends one [tools/list]
    request to the worker: nothing is cached. *)
Theorem list_tools_twice :
  forall (RT : Runtime) (env : Env) (self : nat) (st st1 : Store) (tools : list Tool),
    list_tools env self st = (Returns tools, st1) ->
    exists pid p,
      nth_error (procs st) pid = Some p
      /\ st1 = requested pid ReqListTools st
      /\ nth_error (procs st1) pid = Some (deliver ReqListTools p)
      /\ list_tools env self st1 = (Returns tools, requested pid ReqListTools st1)
      /\ nth_error (procs (requested pid ReqListTools st1)) pid
         = Some (deliver ReqListTools (deliver ReqListTools p)).
Proof.
  intros RT env self st st1 tools H.
  destruct (list_tools_inv env self st st1 tools H) as (s & pid & p & Hs & Hsess & Hp & Hrun).
  rewrite (list_tools_spec env self st s pid p Hs Hsess Hp Hrun) in H.
  injection H as Htools Hst. subst tools st1.
  assert (Hp1 : nth_error (procs (requested pid ReqListTools st)) pid
                = Some (deliver ReqListTools p)).
  { simpl. rewrite nth_error_update_nth, Hp. reflexivity. }
  exists pid, p. repeat split; try assumption.
  - apply (list_tools_spec env self (requested pid ReqListTools st) s pid
             (deliver ReqListTools p) Hs Hsess Hp1 Hrun).
  - simpl. rewrite nth_error_update_nth.
    simpl in Hp1. rewrite Hp1. reflexivity.
Qed.

(** From here on the programs run on the reference runtime. *)
#[local] Existing Instance Reference.runtime.

(** The theorem at the deployment with a worker that does not answer. *)
Lemma cleanup_terminates_the_worker_witness :
  nth_error (procs (snd (initialize silent 0 boot))) 0
  = Some (mkProcess (mkParams "python" ["mcp_server/server.py"]) true [ReqInitialize])
  /\ fst (cleanup 0 (snd (initialize silent 0 boot)))
     = Returns tt
  /\ nth_error (procs (snd (cleanup 0 (snd (initialize (RT := Reference.runtime)
                                               silent 0 boot))))) 0
     = Some (mkProcess (mkParams "python" ["mcp_server/server.py"]) false [ReqInitialize]).
Proof.
  apply (cleanup_terminates_the_worker Reference.runtime silent 0 boot calculator
           (VStr "python") (mkParams "python" ["mcp_server/server.py"]));
    reflexivity.
Defined.

(** The theorem at the deployment of the repository. *)
Lemma initialize_then_list_tools_witness :
  (exists st', (initialize (RT := Reference.runtime) conforming 0 ;;
                list_tools conforming 0) boot
               = (Returns Worker.list_tools, st'))
  /\ map name Worker.list_tools
     = ["add"; "subtract"; "multiply"; "divide"; "evaluate_expression"].
Proof.
  apply (initialize_then_list_tools Reference.runtime conforming 0 boot calculator
           (VStr "python") (mkParams "python" ["mcp_server/server.py"]));
    reflexivity.
Defined.

(** The theorem at the deployment, once initialized. *)
Lemma list_tools_twice_witness :
  exists pid p,
    nth_error (procs (snd (initialize (RT := Reference.runtime) conforming 0 boot))) pid
    = Some p
    /\ requested 0 ReqListTools (snd (initialize conforming 0 boot))
       = requested pid ReqListTools (snd (initialize conforming 0 boot))
    /\ nth_error (procs (requested 0 ReqListTools (snd (initialize conforming 0 boot)))) pid
       = Some (deliver ReqListTools p)
    /\ list_tools conforming 0 (requested 0 ReqListTools (snd (initialize conforming 0 boot)))
       = (Returns Worker.list_tools,
          requested pid ReqListTools
            (requested 0 ReqListTools (snd (initialize conforming 0 boot))))
    /\ nth_error (procs (requested pid ReqListTools
                           (requested 0 ReqListTools (snd (initialize conforming 0 boot)))))
         pid
       = Some (deliver ReqListTools (deliver ReqListTools p)).
Proof.
  apply (list_tools_twice Reference.runtime conforming 0
           (snd (initialize conforming 0 boot))
           (requested 0 ReqListTools (snd (initialize conforming 0 boot)))
           Worker.list_tools).
  reflexivity.
Defined.

(** C5 as stated fails on the deployment: after [initialize()] the worker has
    received the handshake only; the first [list_tools()] adds one request and
    the second, with no refresh in between, adds another. *)
Lemma second_list_tools_is_a_round_trip :
  traffic (snd (initialize (RT := Reference.runtime) conforming 0 boot))
  = [[ReqInitialize]]
  /\ traffic (snd ((initialize conforming 0 ;; list_tools conforming 0) boot))
     = [[ReqInitialize; ReqListTools]]
  /\ traffic (snd ((initialize conforming 0 ;; list_tools conforming 0 ;;
                    list_tools conforming 0) boot))
     = [[ReqInitialize; ReqListTools; ReqListTools]].
Proof. repeat split; vm_compute; reflexivity. Qed.

End ClientClaims.

(** ** The planning and dispatching nodes *)

Module FlowFacts.
Import PyStr Py Mcp Json Client Deployment ClientFacts.
Local Open Scope py_scope.

Section Nodes.
Context {RT : Runtime}.

Lemma print_spec (line : string) (st : Store) :
  print line st = (Returns tt, printed line st).
Proof. reflexivity. Qed.

(** A text that is not well formed makes the [try] block raise. *)
Lemma decode_malformed (text : string) (state : Flow.FlowState) :
  Flow.well_formed text = false ->
  exists e, Flow.decode_tool_call (Flow.ContentStr text) state = Raises e.
Proof.
  unfold Flow.well_formed, Flow.decode_tool_call. simpl Flow.joined.
  destruct (json_loads (strip (Flow.remove_code_fences text))) as [v|e]; simpl.
  - destruct v; simpl; try (intros _; eexists; reflexivity).
    destruct (dict_get "tool_name" entries); simpl.
    + destruct (dict_get "arguments" entries); simpl.
      * discriminate.
      * intros _. eexists. reflexivity.
    + intros _. eexists. reflexivity.
  - intros _. eexists. reflexivity.
Qed.

(** A well-formed text makes it return the two fields of the object. *)
Lemma decode_well_formed (text : string) (state : Flow.FlowState) :
  Flow.well_formed text = true ->
  exists d name args,
    json_loads (strip (Flow.remove_code_fences text)) = Returns (VDict d)
    /\ dict_get "tool_name" d = Some name
    /\ dict_get "arguments" d = Some args
    /\ Flow.decode_tool_call (Flow.ContentStr text) state
       = Returns (Flow.mkFlowState (Flow.input state) name args (Flow.output state)).
Proof.
  unfold Flow.well_formed, Flow.decode_tool_call. simpl Flow.joined.
  destruct (json_loads (strip (Flow.remove_code_fences text))) as [v|e]; simpl;
    [|discriminate].
  destruct v; try discriminate.
  destruct (dict_get "tool_name" entries) as [name|] eqn:Hn; [|discriminate].
  destruct (dict_get "arguments" entries) as [args|] eqn:Ha; [|discriminate].
  intros _. exists entries, name, args. simpl. rewrite Hn, Ha. simpl. auto.
Qed.

(** Dispatching a name that [list_tools] does not return: the two
    announcements, the listing, and the answer; [execute_tool] is not run. *)
Lemma call_mcp_tool_unknown (executor : Flow.Executor) (state : Flow.FlowState)
      (st st1 : Store) (tools : list Tool) :
  Flow.ex_list_tools executor
    (printed ("📦 Arguments: " ++ py_str (Flow.arguments state))
       (printed ("🔍 Calling tool: " ++ py_str (Flow.tool_name state)) st))
  = (Returns tools, st1) ->
  Flow.available (Flow.tool_name state) (map name tools) = None ->
  Flow.call_mcp_tool executor state st
  = (Returns (Flow.with_output state
                ("❌ Unknown tool selected: '" ++ py_str (Flow.tool_name state)
                   ++ "'. Available tools: " ++ repr_strings (map name tools))),
     st1).
Proof.
  intros Hlist Hunknown. unfold Flow.call_mcp_tool.
  rewrite (bind_returns _ _ _ _ _ (print_spec _ st)).
  rewrite (bind_returns _ _ _ _ _ (print_spec _ _)).
  rewrite (bind_returns _ _ _ _ _ Hlist).
  rewrite Hunknown. reflexivity.
Qed.
End Nodes.

End FlowFacts.

Module FlowClaims.
Import PyStr Py Mcp Json Client Deployment ClientFacts FlowFacts.
Local Open Scope py_scope.

(** C2: the directive with [tool_name] [add] and the numbers [2, 3], bare or
    inside a fenced [json] block, parses to the request for [add] with the
    arguments [{"numbers": [2, 3]}]; a text that is not well formed makes the
    [try] block raise, and the result has the request fields as they were and
    the failure output, which is the message of the exception followed by the
    original text verbatim; the truncated directive is such a text, with the
    message of the decoder; a well-formed text gives a request. *)
Theorem directive_round_trip :
  forall (RT : Runtime) (state : Flow.FlowState),
    let directive := dq "{'tool_name': 'add', 'arguments': {'numbers': [2, 3]}}" in
    let truncated := dq "{'tool_name': 'add', 'arguments': {'numbers': [2, 3]" in
    let request :=
      Flow.mkFlowState (Flow.input state) (VStr "add")
        (VDict [("numbers", VList [VInt 2; VInt 3])]) (Flow.output state) in
    Flow.parse_tool_call (Flow.ContentStr directive) state = request
    /\ Flow.parse_tool_call
         (Flow.ContentStr ("```json" ++ nl ++ directive ++ nl ++ "```")) state
       = request
    /\ (forall text,
          Flow.well_formed text = false ->
          exists e,
            Flow.decode_tool_call (Flow.ContentStr text) state = Raises e
            /\ Flow.parse_tool_call (Flow.ContentStr text) state
               = Flow.mkFlowState (Flow.input state) (Flow.tool_name state)
                   (Flow.arguments state)
                   ("❌ Failed to parse tool call: " ++ exc_str e ++ nl
                      ++ "Raw response: " ++ text))
    /\ Flow.well_formed truncated = false
    /\ Flow.parse_tool_call (Flow.ContentStr truncated) state
       = Flow.mkFlowState (Flow.input state) (Flow.tool_name state)
           (Flow.arguments state)
           ("❌ Failed to parse tool call: "
              ++ "Expecting ',' delimiter: line 1 column 53 (char 52)" ++ nl
              ++ "Raw response: " ++ truncated)
    /\ (forall text,
          Flow.well_formed text = true ->
          exists name args,
            Flow.parse_tool_call (Flow.ContentStr text) state
            = Flow.mkFlowState (Flow.input state) name args (Flow.output state)).
Proof.
  intros RT state. cbv zeta.
  refine (conj _ (conj _ (conj _ (conj _ (conj _ _))))).
  - vm_compute. reflexivity.
  - vm_compute. reflexivity.
  - intros text Hbad.
    destruct (decode_malformed text state Hbad) as [e He].
    exists e. split; [exact He|].
    unfold Flow.parse_tool_call. rewrite He. reflexivity.
  - vm_compute. reflexivity.
  - vm_compute. reflexivity.
  - intros text Hgood.
    destruct (decode_well_formed text state Hgood) as (d & name & args & _ & _ & _ & H).
    exists name, args. unfold Flow.parse_tool_call. rewrite H. reflexivity.
Qed.

(** C1: when the requested name is not among the names of the registry
    snapshot, the dispatch returns the unknown-tool output, which carries the
    attempted name and the list of the available names, and nothing is sent
    to any worker: the dispatch prints its two announcements and leaves the
    processes, what they have received, the objects and the log as they
    were. The check is the same over any executor: once its listing has
    returned the snapshot, the tool is not called, and the store is the one
    that the listing left. *)
Theorem unknown_tool_is_not_forwarded :
  forall (RT : Runtime) (env : Env) (self : nat) (snapshot : list Tool)
         (state : Flow.FlowState) (st : Store),
    Flow.available (Flow.tool_name state) (map name snapshot) = None ->
    let unknown :=
      Flow.mkFlowState (Flow.input state) (Flow.tool_name state)
        (Flow.arguments state)
        ("❌ Unknown tool selected: '" ++ py_str (Flow.tool_name state)
           ++ "'. Available tools: " ++ repr_strings (map name snapshot)) in
    let announced :=
      printed ("📦 Arguments: " ++ py_str (Flow.arguments state))
        (printed ("🔍 Calling tool: " ++ py_str (Flow.tool_name state)) st) in
    let dispatch :=
      Flow.call_mcp_tool (Flow.registry_executor env self snapshot) state st in
    fst dispatch = Returns unknown
    /\ procs (snd dispatch) = procs st
    /\ traffic (snd dispatch) = traffic st
    /\ servers (snd dispatch) = servers st
    /\ log (snd dispatch) = log st
    /\ stdout (snd dispatch)
       = app (stdout st)
           ["🔍 Calling tool: " ++ py_str (Flow.tool_name state);
            "📦 Arguments: " ++ py_str (Flow.arguments state)]
    /\ (forall (executor : Flow.Executor) (st1 : Store),
          Flow.ex_list_tools executor announced = (Returns snapshot, st1) ->
          Flow.call_mcp_tool executor state st = (Returns unknown, st1)).
Proof.
  intros RT env self snapshot state st Hunknown unknown announced dispatch.
  assert (Hgeneric : forall (executor : Flow.Executor) (st1 : Store),
             Flow.ex_list_tools executor announced = (Returns snapshot, st1) ->
             Flow.call_mcp_tool executor state st = (Returns unknown, st1)).
  { intros executor st1 Hlist.
    apply (call_mcp_tool_unknown executor state st st1 snapshot Hlist Hunknown). }
  assert (Hdispatch : dispatch = (Returns unknown, announced)).
  { apply Hgeneric. reflexivity. }
  rewrite Hdispatch. simpl.
  refine (conj _ (conj _ (conj _ (conj _ (conj _ (conj _ _)))))); try reflexivity.
  - rewrite <- app_assoc. reflexivity.
  - exact Hgeneric.
Qed.

(** C3: the call of [divide] with the numbers [10, 0] is answered by the
    calculator worker with the single text block [❌ Division by zero];
    dispatched through [call_mcp_tool] it returns, with that text as output,
    and [ChatSession] prints it; nothing is raised. The [divide] node of the
    graph worker reports the division by zero for its input [10 0] as well. *)
Theorem divide_by_zero_is_reported :
  forall (RT : Runtime),
    let arguments := [("numbers", VList [VInt 10; VInt 0])] in
    let state := Flow.mkFlowState "divide 10 by 0" (VStr "divide") (VDict arguments) "" in
    let ready := snd (initialize conforming 0 boot) in
    Worker.call_tool "divide" arguments = Answers (text_block "❌ Division by zero")
    /\ fst (Flow.call_mcp_tool (Flow.mcp_executor conforming 0) state ready)
       = Returns (Flow.with_output state "❌ Division by zero")
    /\ fst (Chat.handle_response conforming [0]
              (dq "{'tool': 'divide', 'arguments': {'numbers': [10, 0]}}") ready)
       = Returns tt
    /\ last (stdout (snd (Chat.handle_response conforming [0]
                            (dq "{'tool': 'divide', 'arguments': {'numbers': [10, 0]}}")
                            ready))) ""
       = "❌ Division by zero"
    /\ GraphWorker.divide_node (RT := Reference.runtime)
         (GraphWorker.mkFlowState (VStr "10 0") "")
       = "Division by zero in [10.0, 0.0]".
Proof.
  intros RT. cbv zeta.
  refine (conj _ (conj _ (conj _ (conj _ _)))); vm_compute; reflexivity.
Qed.

(** X1: a round of the chat loop returns whatever the model answered: what the
    [try] block raises, a failure of a server included, ends as a printed
    line. *)
Theorem chat_round_returns :
  forall (RT : Runtime) (env : Env) (servers : list nat) (llm_response : string)
         (st : Store),
  exists st', Chat.handle_response env servers llm_response st = (Returns tt, st').
Proof.
  intros RT env servers llm_response st. unfold Chat.handle_response.
  rewrite (bind_returns _ _ _ _ _ (print_spec _ st)).
  destruct (startswith llm_response "{").
  - unfold try_except.
    match goal with |- context [match ?m ?s with _ => _ end] =>
      destruct (m s) as [[[]|e] st'] end.
    + eexists. reflexivity.
    + eexists. apply print_spec.
  - eexists. apply print_spec.
Qed.

(** X2: once the tools are listed, [call_mcp_tool] returns a state with an
    output, whether the tool is unknown, answers, or fails. *)
Theorem dispatch_returns :
  forall (RT : Runtime) (executor : Flow.Executor) (state : Flow.FlowState)
         (st st1 : Store) (tools : list Tool),
    Flow.ex_list_tools executor
      (printed ("📦 Arguments: " ++ py_str (Flow.arguments state))
         (printed ("🔍 Calling tool: " ++ py_str (Flow.tool_name state)) st))
    = (Returns tools, st1) ->
    exists out st2,
      Flow.call_mcp_tool executor state st = (Returns (Flow.with_output state out), st2).
Proof.
  intros RT executor state st st1 tools Hlist. unfold Flow.call_mcp_tool.
  rewrite (bind_returns _ _ _ _ _ (print_spec _ st)).
  rewrite (bind_returns _ _ _ _ _ (print_spec _ _)).
  rewrite (bind_returns _ _ _ _ _ Hlist).
  destruct (Flow.available (Flow.tool_name state) (map name tools)) as [tool|].
  - unfold try_except, bind.
    destruct (Flow.ex_execute_tool executor tool (Flow.arguments state) st1)
      as [[result|e] st2]; do 2 eexists; reflexivity.
  - do 2 eexists. reflexivity.
Qed.

(** C4 at a worker that starts and does not answer the handshake:
    [initialize()] logs and raises with the worker still running, the contexts
    it entered staying on the exit stack; [ChatSession.start] and the [main] of
    the flow let the exception through without any teardown. Only a later
    [cleanup()] terminates the worker. *)
Theorem failed_handshake_leaves_worker_running :
  forall (RT : Runtime) (llm : list (string * string) -> string)
         (prompt_format : string -> string) (llm_ainvoke : string -> Outcome Flow.Content)
         (build_flow : Outcome unit) (inputs : list string),
    let worker :=
      mkProcess (mkParams "python" ["mcp_server/server.py"]) true [ReqInitialize] in
    let failed := snd (initialize silent 0 boot) in
    fst (initialize silent 0 boot) = Raises connection_closed
    /\ orphans failed = [worker]
    /\ option_map exit_stack (nth_error (servers failed) 0)
       = Some (Some [Session 0; StdioClient 0])
    /\ Chat.start silent [0] llm inputs boot = (Raises connection_closed, failed)
    /\ Flow.main (Flow.mcp_executor silent 0) prompt_format llm_ainvoke build_flow
         inputs boot
       = (Raises connection_closed, failed)
    /\ orphans (snd (cleanup 0 failed)) = [].
Proof.
  intros RT llm prompt_format llm_ainvoke build_flow inputs. cbv zeta.
  refine (conj _ (conj _ (conj _ (conj _ (conj _ _))))); vm_compute; reflexivity.
Qed.


(** From here on the programs run on the reference runtime. *)
#[local] Existing Instance Reference.runtime.

(** The theorem at the request for [divide] on the deployment. *)
Lemma dispatch_returns_witness :
  exists out st2,
    Flow.call_mcp_tool (Flow.mcp_executor conforming 0)
      (Flow.mkFlowState "" (VStr "divide") (VDict [("numbers", VList [VInt 10; VInt 0])]) "")
      (snd (initialize conforming 0 boot))
    = (Returns (Flow.with_output
                  (Flow.mkFlowState "" (VStr "divide")
                     (VDict [("numbers", VList [VInt 10; VInt 0])]) "") out), st2).
Proof.
  eapply (dispatch_returns Reference.runtime). vm_compute. reflexivity.
Defined.

(** The theorem at the request for [power] on the deployment, once
    initialized, with the tools of the calculator in the registry. *)
Lemma unknown_tool_is_not_forwarded_witness :
  let state := Flow.mkFlowState "" (VStr "power") (VDict []) "" in
  let ready := snd (initialize conforming 0 boot) in
  let dispatch :=
    Flow.call_mcp_tool (Flow.registry_executor conforming 0 Worker.list_tools)
      state ready in
  fst dispatch
  = Returns (Flow.mkFlowState "" (VStr "power") (VDict [])
               "❌ Unknown tool selected: 'power'. Available tools: ['add', 'subtract', 'multiply', 'divide', 'evaluate_expression']")
  /\ traffic ready = [[ReqInitialize]]
  /\ traffic (snd dispatch) = [[ReqInitialize]]
  /\ stdout (snd dispatch) = ["🔍 Calling tool: power"; "📦 Arguments: {}"].
Proof.
  pose proof (unknown_tool_is_not_forwarded Reference.runtime conforming 0
                Worker.list_tools
                (Flow.mkFlowState "" (VStr "power") (VDict []) "")
                (snd (initialize conforming 0 boot)) eq_refl) as H.
  cbv zeta in *. destruct H as (Hout & _ & Htraffic & _ & _ & Hstdout & _).
  refine (conj _ (conj _ (conj _ _))).
  - rewrite Hout. vm_compute. reflexivity.
  - vm_compute. reflexivity.
  - rewrite Htraffic. vm_compute. reflexivity.
  - rewrite Hstdout. vm_compute. reflexivity.
Defined.

End FlowClaims.

(** ** The programs at work

    Runs of the embedded programs on the reference runtime, as the Python
    programs answer the same inputs. *)

Module Runs.
Import PyStr Py Mcp Json Client Deployment.
Local Open Scope py_scope.
#[local] Existing Instance Reference.runtime.

Example add_two_numbers :
  Worker.call_tool_traced "add" [("numbers", VList [VInt 2; VInt 3])]
  = Answers (text_block "✅ add: [2.0, 3.0] -> 5.0", [Worker.Add 0 2; Worker.Add 2 3]).
Proof. vm_compute. reflexivity. Qed.

Example divide_three_numbers :
  Worker.call_tool_traced "divide" [("numbers", VList [VInt 100; VInt 5; VFloat 2.5])]
  = Answers (text_block "✅ divide: [100.0, 5.0, 2.5] -> 8.0",
             [Worker.Div 100 5; Worker.Div 20 2.5]).
Proof. vm_compute. reflexivity. Qed.

Example divide_stops_at_the_first_zero :
  Worker.call_tool_traced "divide" [("numbers", VList [VInt 8; VInt 2; VInt 0; VInt 4])]
  = Answers (text_block "❌ Division by zero", [Worker.Div 8 2]).
Proof. vm_compute. reflexivity. Qed.

Example numbers_are_required :
  Worker.call_tool "subtract" [("nums", VList [VInt 2; VInt 1])]
  = Answers (text_block "❌ Error: 1 validation error for CalcInput").
Proof. vm_compute. reflexivity. Qed.

Example expression_with_math_names :
  Worker.call_tool "evaluate_expression" [("expression", VStr "sqrt(16) + 2 * pi")]
  = Answers (text_block "✅ Expression: sqrt(16) + 2 * pi -> 10.283185307179586").
Proof. vm_compute. reflexivity. Qed.

Example expression_with_a_builtin :
  Worker.call_tool "evaluate_expression" [("expression", VStr "open")]
  = Answers (text_block "❌ Error: 'NoneType' object is not subscriptable").
Proof. vm_compute. reflexivity. Qed.

Example graph_worker_divides :
  GraphWorker.call_tool "divide" [("input", VStr "100 5 2")]
  = Answers (text_block "divide: [100.0, 5.0, 2.0] -> 10.0").
Proof. vm_compute. reflexivity. Qed.

Example graph_worker_rejects_a_word :
  GraphWorker.call_tool "add" [("input", VStr "3 5 x")]
  = Answers (text_block "Error in add: could not convert string to float: 'x'").
Proof. vm_compute. reflexivity. Qed.

Example fence_without_label :
  Flow.remove_code_fences ("Here it is:" ++ nl ++ "```" ++ nl ++ "{}" ++ nl ++ "```")
  = "Here it is:" ++ nl ++ "{}" ++ nl.
Proof. vm_compute. reflexivity. Qed.

Example repeated_key_keeps_the_last_value :
  json_loads (dq "{'a': [1, true, null, 'x'], 'b': 2.5, 'a': {}}")
  = Returns (VDict [("a", VDict []); ("b", VFloat 2.5)]).
Proof. vm_compute. reflexivity. Qed.

Example float_text :
  map PyFloat.repr [10; 0.5; 1e16; 0x1.4f8b588e368f1p-17; infinity]%float
  = ["10.0"; "0.5"; "1e+16"; "1e-05"; "inf"]
  /\ map PyFloat.of_string ["10"; " 2.5e1 "; "ten"]
     = [Some 10%float; Some 25%float; None].
Proof. split; vm_compute; reflexivity. Qed.

Example expressions_over_objects :
  Worker.call_tool "evaluate_expression"
    [("expression",
      VStr "[c for c in ().__class__.__base__.__subclasses__() if c.__name__ == 'Quitter'][0](0, 0)")]
  = Answers (text_block
               "✅ Expression: [c for c in ().__class__.__base__.__subclasses__() if c.__name__ == 'Quitter'][0](0, 0) -> Use 0() or 0 to exit")
  /\ GraphWorker.call_tool "evaluate_expression"
       [("input", VStr "[c for c in (1, 2.5) if c == 1][0] + [pi for c in ()][0]")]
     = Answers (text_block "Error in expression: list index out of range").
Proof. split; vm_compute; reflexivity. Qed.

Example white_space_beyond_ascii :
  let nbsp := String (ascii_of_nat 194) (String (ascii_of_nat 160) "") in
  strip (nbsp ++ " 1 " ++ nbsp) = "1"
  /\ GraphWorker.split ("1" ++ nbsp ++ "2 x") = ["1"; "2"; "x"]
  /\ repr_str ("a" ++ nbsp ++ "b") = "'a\xa0b'".
Proof. cbv zeta. refine (conj _ (conj _ _)); vm_compute; reflexivity. Qed.

Example nesting_beyond_the_limit :
  json_loads (PyStr.join "" (repeat "[" 996))
  = Raises (mkExc "RecursionError"
              "maximum recursion depth exceeded while decoding a JSON array from a unicode string")
  /\ json_loads (dq "{'a': '\q'}")
     = Raises (mkExc "JSONDecodeError" "Invalid \escape: line 1 column 8 (char 7)").
Proof. split; vm_compute; reflexivity. Qed.

(** A whole session of the flow over the executor of the specification,
    where the graph library builds the graph: start, one question, [exit]. *)
Example flow_session :
  let llm (_ : string) :=
    Returns (Flow.ContentStr
               ("```json" ++ nl
                  ++ dq "{'tool_name': 'multiply', 'arguments': {'numbers': [6, 7]}}"
                  ++ nl ++ "```")) in
  let run := Flow.main (Flow.registry_executor conforming 0 Worker.list_tools)
               (fun s => s) llm (Returns tt) ["six times seven"; "exit"] boot in
  fst run = Returns tt
  /\ last (stdout (snd run)) "" = "🧾 Result: ✅ multiply: [6.0, 7.0] -> 42.0"
  /\ traffic (snd run)
     = [[ReqInitialize;
         ReqCallTool "multiply" [("numbers", VList [VInt 6; VInt 7])]]]
  /\ orphans (snd run) = [].
Proof. cbv zeta. refine (conj _ (conj _ (conj _ _))); vm_compute; reflexivity. Qed.

(** Where the graph library refuses the node named [input], [main] ends
    before the first question, and nothing stops the worker. *)
Example flow_without_a_graph :
  let refused := mkExc "ValueError" "'input' is already being used as a state key" in
  let run := Flow.main (Flow.registry_executor conforming 0 Worker.list_tools)
               (fun s => s) (fun _ => Raises (mkExc "RuntimeError" ""))
               (Raises refused) ["six times seven"; "exit"] boot in
  fst run = Raises refused
  /\ stdout (snd run)
     = ["🔧 Available tools: ['add', 'subtract', 'multiply', 'divide', 'evaluate_expression']"]
  /\ map running (procs (snd run)) = [true].
Proof. cbv zeta. refine (conj _ (conj _ _)); vm_compute; reflexivity. Qed.

End Runs.

(** ** More on the two workers *)

Module WorkerExtras.
Import PyStr Py PyEval Mcp WorkerFacts.

Section Loops.
Context {RT : Runtime}.

Lemma sum_from_fold (nums : list float) (result : float) :
  fst (Worker.sum_from result nums) = fold_left PrimFloat.add nums result
  /\ List.length (snd (Worker.sum_from result nums)) = List.length nums.
Proof.
  revert result. induction nums as [|n rest IH]; intros result; simpl; [auto|].
  destruct (Worker.sum_from (result + n) rest) as [r ops] eqn:E.
  specialize (IH (result + n)%float). rewrite E in IH. simpl in *.
  destruct IH as [-> ->]. auto.
Qed.

Lemma subtract_loop_fold (rest : list float) (result : float) :
  fst (Worker.subtract_loop result rest) = fold_left PrimFloat.sub rest result
  /\ List.length (snd (Worker.subtract_loop result rest)) = List.length rest.
Proof.
  revert result. induction rest as [|n rest IH]; intros result; simpl; [auto|].
  destruct (Worker.subtract_loop (result - n) rest) as [r ops] eqn:E.
  specialize (IH (result - n)%float). rewrite E in IH. simpl in *.
  destruct IH as [-> ->]. auto.
Qed.

Lemma multiply_loop_fold (nums : list float) (result : float) :
  fst (Worker.multiply_loop result nums) = fold_left PrimFloat.mul nums result
  /\ List.length (snd (Worker.multiply_loop result nums)) = List.length nums.
Proof.
  revert result. induction nums as [|n rest IH]; intros result; simpl; [auto|].
  destruct (Worker.multiply_loop (result * n) rest) as [r ops] eqn:E.
  specialize (IH (result * n)%float). rewrite E in IH. simpl in *.
  destruct IH as [-> ->]. auto.
Qed.

(** The loop of [divide] stops at the first divisor equal to zero; without
    one it divides by every number in turn. *)
Lemma divide_loop_fold (rest : list float) (result : float) :
  fst (Worker.divide_loop result rest)
  = (if existsb (fun n => PrimFloat.eqb n 0%float) rest then None
     else Some (fold_left PrimFloat.div rest result))
  /\ (existsb (fun n => PrimFloat.eqb n 0%float) rest = false ->
      List.length (snd (Worker.divide_loop result rest)) = List.length rest).
Proof.
  revert result. induction rest as [|n rest IH]; intros result; simpl; [auto|].
  destruct (PrimFloat.eqb n 0%float); simpl; [split; [reflexivity|discriminate]|].
  destruct (Worker.divide_loop (result / n) rest) as [r ops] eqn:E.
  specialize (IH (result / n)%float). rewrite E in IH. simpl in *.
  destruct IH as [-> Hlen]. split; [reflexivity|].
  intros Hz. rewrite (Hlen Hz). reflexivity.
Qed.

(** With at least two validated numbers the call reaches the arithmetic. *)
Lemma reaches_calculate (name : string) (arguments : PyDict) (nums : list float) :
  In name ["add"; "subtract"; "multiply"; "divide"] ->
  Worker.CalcInput arguments = Returns nums ->
  2 <= List.length nums ->
  Worker.call_tool_traced name arguments
  = Answers (Worker.calculate name nums (hd 0%float nums)).
Proof.
  intros Hname Hvalid Hlen.
  rewrite (arithmetic_call name arguments Hname).
  unfold Worker.arithmetic. rewrite Hvalid. simpl.
  assert (Hge : (List.length nums <? 2)%nat = false) by (apply Nat.ltb_ge; exact Hlen).
  rewrite Hge. destruct nums as [|first rest]; [simpl in Hlen; lia|]. reflexivity.
Qed.
End Loops.

(** X4: with at least two validated numbers, [subtract] answers with the
    first number minus the others in order and [multiply] with the product of
    all of them from one, each in its success block; [subtract] performs one
    float operation less than there are numbers, [multiply] one per number. *)
Theorem subtract_and_multiply_are_left_folds :
  forall (RT : Runtime) (arguments : PyDict) (nums : list float),
    Worker.CalcInput arguments = Returns nums ->
    2 <= List.length nums ->
    Worker.call_tool "subtract" arguments
    = Answers (Worker.success "subtract" nums
                 (fold_left PrimFloat.sub (tl nums) (hd 0%float nums)))
    /\ Worker.call_tool "multiply" arguments
       = Answers (Worker.success "multiply" nums (fold_left PrimFloat.mul nums 1%float))
    /\ (exists ops,
          Worker.call_tool_traced "subtract" arguments
          = Answers (Worker.success "subtract" nums
                       (fold_left PrimFloat.sub (tl nums) (hd 0%float nums)), ops)
          /\ List.length ops = List.length nums - 1)
    /\ (exists ops,
          Worker.call_tool_traced "multiply" arguments
          = Answers (Worker.success "multiply" nums
                       (fold_left PrimFloat.mul nums 1%float), ops)
          /\ List.length ops = List.length nums).
Proof.
  intros RT arguments nums Hvalid Hlen.
  unfold Worker.call_tool.
  rewrite (reaches_calculate "subtract" arguments nums) by (simpl; auto).
  rewrite (reaches_calculate "multiply" arguments nums) by (simpl; auto).
  unfold Worker.calculate. simpl String.eqb. cbv iota.
  pose proof (subtract_loop_fold (tl nums) (hd 0%float nums)) as [Hs Ls].
  pose proof (multiply_loop_fold nums 1%float) as [Hm Lm].
  destruct (Worker.subtract_loop (hd 0%float nums) (tl nums)) as [rs os].
  destruct (Worker.multiply_loop 1 nums) as [rm om].
  simpl in *. subst rs rm.
  refine (conj eq_refl (conj eq_refl (conj _ _))).
  - exists os. split; [reflexivity|]. rewrite Ls. destruct nums; simpl; lia.
  - exists om. split; [reflexivity|exact Lm].
Qed.

(** The theorem at the numbers [7, 2, 1]. *)
Lemma subtract_and_multiply_are_left_folds_witness :
  let arguments := [("numbers", VList [VInt 7; VInt 2; VInt 1])] in
  let nums := [7; 2; 1]%float in
  Worker.call_tool (RT := Reference.runtime) "subtract" arguments
  = Answers (Worker.success (RT := Reference.runtime) "subtract" nums
               (fold_left PrimFloat.sub (tl nums) (hd 0%float nums)))
  /\ Worker.call_tool (RT := Reference.runtime) "multiply" arguments
     = Answers (Worker.success (RT := Reference.runtime) "multiply" nums
                  (fold_left PrimFloat.mul nums 1%float))
  /\ (exists ops,
        Worker.call_tool_traced (RT := Reference.runtime) "subtract" arguments
        = Answers (Worker.success (RT := Reference.runtime) "subtract" nums
                     (fold_left PrimFloat.sub (tl nums) (hd 0%float nums)), ops)
        /\ List.length ops = List.length nums - 1)
  /\ (exists ops,
        Worker.call_tool_traced (RT := Reference.runtime) "multiply" arguments
        = Answers (Worker.success (RT := Reference.runtime) "multiply" nums
                     (fold_left PrimFloat.mul nums 1%float), ops)
        /\ List.length ops = List.length nums).
Proof.
  apply (subtract_and_multiply_are_left_folds Reference.runtime
           [("numbers", VList [VInt 7; VInt 2; VInt 1])] [7; 2; 1]%float).
  - vm_compute. reflexivity.
  - simpl. lia.
Defined.

(** X5: with at least two validated numbers, [divide] answers
    [❌ Division by zero] exactly when one of the numbers after the first
    equals zero, whatever the first number is; otherwise it answers with the
    first number divided by the others in order, after one division per
    divisor. *)
Theorem divide_reports_a_zero_divisor :
  forall (RT : Runtime) (arguments : PyDict) (nums : list float),
    Worker.CalcInput arguments = Returns nums ->
    2 <= List.length nums ->
    (existsb (fun n => PrimFloat.eqb n 0%float) (tl nums) = true ->
     Worker.call_tool "divide" arguments = Answers (text_block "❌ Division by zero"))
    /\ (existsb (fun n => PrimFloat.eqb n 0%float) (tl nums) = false ->
        Worker.call_tool "divide" arguments
        = Answers (Worker.success "divide" nums
                     (fold_left PrimFloat.div (tl nums) (hd 0%float nums)))
        /\ exists ops,
             Worker.call_tool_traced "divide" arguments
             = Answers (Worker.success "divide" nums
                          (fold_left PrimFloat.div (tl nums) (hd 0%float nums)), ops)
             /\ List.length ops = List.length nums - 1).
Proof.
  intros RT arguments nums Hvalid Hlen.
  unfold Worker.call_tool.
  rewrite (reaches_calculate "divide" arguments nums) by (simpl; auto).
  unfold Worker.calculate. simpl String.eqb. cbv iota.
  pose proof (divide_loop_fold (tl nums) (hd 0%float nums)) as [Hd Ld].
  destruct (Worker.divide_loop (hd 0%float nums) (tl nums)) as [r ops].
  simpl in Hd, Ld. split; intros Hz; rewrite Hz in Hd; subst r; simpl.
  - reflexivity.
  - split; [reflexivity|]. exists ops. split; [reflexivity|].
    rewrite (Ld Hz). destruct nums; simpl; lia.
Qed.

(** The theorem at the numbers [0, 4, 0]. *)
Lemma divide_reports_a_zero_divisor_witness :
  let arguments := [("numbers", VList [VInt 0; VInt 4; VFloat 0])] in
  let nums := [0; 4; 0]%float in
  (existsb (fun n => PrimFloat.eqb n 0%float) (tl nums) = true ->
   Worker.call_tool (RT := Reference.runtime) "divide" arguments
   = Answers (text_block "❌ Division by zero"))
  /\ (existsb (fun n => PrimFloat.eqb n 0%float) (tl nums) = false ->
      Worker.call_tool (RT := Reference.runtime) "divide" arguments
      = Answers (Worker.success (RT := Reference.runtime) "divide" nums
                   (fold_left PrimFloat.div (tl nums) (hd 0%float nums)))
      /\ exists ops,
           Worker.call_tool_traced (RT := Reference.runtime) "divide" arguments
           = Answers (Worker.success (RT := Reference.runtime) "divide" nums
                        (fold_left PrimFloat.div (tl nums) (hd 0%float nums)), ops)
           /\ List.length ops = List.length nums - 1).
Proof.
  apply (divide_reports_a_zero_divisor Reference.runtime
           [("numbers", VList [VInt 0; VInt 4; VFloat 0])] [0; 4; 0]%float).
  - vm_compute. reflexivity.
  - simpl. lia.
Defined.

End WorkerExtras.

Module GraphWorkerExtras.
Import PyStr Py PyEval Mcp WorkerFacts.

Section Nodes.
Context {RT : Runtime}.

(** Splitting a text of whitespace only gives no word. *)
Lemma split_blank (s : string) :
  PyFloat.all_space s = true -> GraphWorker.split s = [].
Proof.
  unfold GraphWorker.split. induction s as [|c r IH]; simpl; [reflexivity|].
  intros H. apply andb_true_iff in H. destruct H as [Hc Hr].
  rewrite Hc. simpl. apply IH, Hr.
Qed.

(** Conversion stops at the first word that is no float. *)
Lemma map_float_bad (pre post : list string) (w : string) :
  (forall p, In p pre -> float_of_string p <> None) ->
  float_of_string w = None ->
  GraphWorker.map_float (pre ++ w :: post)%list
  = Raises (mkExc "ValueError" ("could not convert string to float: " ++ repr_str w)).
Proof.
  intros Hpre Hw. induction pre as [|p pre IH]; simpl.
  - unfold GraphWorker.float_of_str. rewrite Hw. reflexivity.
  - unfold GraphWorker.float_of_str at 1.
    destruct (float_of_string p) eqn:E.
    + simpl. rewrite IH; [reflexivity|]. intros q Hq. apply Hpre. right. exact Hq.
    + exfalso. apply (Hpre p); [left; reflexivity|exact E].
Qed.

Lemma graph_divide_loop_fold (rest : list float) (result : float) :
  GraphWorker.divide_loop result rest
  = if existsb (fun n => PrimFloat.eqb n 0%float) rest then None
    else Some (fold_left PrimFloat.div rest result).
Proof.
  revert result. induction rest as [|n rest IH]; intros result; simpl; [reflexivity|].
  destruct (PrimFloat.eqb n 0%float); simpl; [reflexivity|apply IH].
Qed.

(** A call of one of the four arithmetic tools with an [input] runs the
    node of that name on it. *)
Lemma call_tool_runs_the_node (name : string) (arguments : PyDict) (v : PyVal) :
  dict_get "input" arguments = Some v ->
  (name = "add" ->
   GraphWorker.call_tool name arguments
   = Answers (text_block (GraphWorker.add_node (GraphWorker.mkFlowState v ""))))
  /\ (name = "subtract" ->
      GraphWorker.call_tool name arguments
      = Answers (text_block (GraphWorker.subtract_node (GraphWorker.mkFlowState v ""))))
  /\ (name = "multiply" ->
      GraphWorker.call_tool name arguments
      = Answers (text_block (GraphWorker.multiply_node (GraphWorker.mkFlowState v ""))))
  /\ (name = "divide" ->
      GraphWorker.call_tool name arguments
      = Answers (text_block (GraphWorker.divide_node (GraphWorker.mkFlowState v ""))))
  /\ (name = "evaluate_expression" ->
      GraphWorker.call_tool name arguments
      = hmap text_block
          (GraphWorker.evaluate_expression_node (GraphWorker.mkFlowState v ""))).
Proof.
  intros Hv.
  refine (conj _ (conj _ (conj _ (conj _ _)))); intros ->;
    unfold GraphWorker.call_tool, GraphWorker.create_math_flow,
      GraphWorker.arguments_input; simpl; rewrite Hv; try reflexivity.
  simpl.
  destruct (GraphWorker.evaluate_expression_node (GraphWorker.mkFlowState v ""));
    reflexivity.
Qed.
End Nodes.

(** X6: an [input] of whitespace only holds no number. [add] and [multiply]
    answer with the empty sum and the empty product, the integers [0] and
    [1]; [subtract] and [divide] read the first number and answer with the
    text of the [IndexError]. *)
Theorem blank_input_has_no_numbers :
  forall (RT : Runtime) (s : string),
    PyFloat.all_space s = true ->
    GraphWorker.call_tool "add" [("input", VStr s)]
    = Answers (text_block "add: [] -> 0")
    /\ GraphWorker.call_tool "multiply" [("input", VStr s)]
       = Answers (text_block "multiply: [] -> 1")
    /\ GraphWorker.call_tool "subtract" [("input", VStr s)]
       = Answers (text_block "Error in subtract: list index out of range")
    /\ GraphWorker.call_tool "divide" [("input", VStr s)]
       = Answers (text_block "Error in divide: list index out of range").
Proof.
  intros RT s Hs.
  destruct (call_tool_runs_the_node "add" [("input", VStr s)] (VStr s) eq_refl)
    as [Ha _].
  destruct (call_tool_runs_the_node "multiply" [("input", VStr s)] (VStr s) eq_refl)
    as [_ [_ [Hm _]]].
  destruct (call_tool_runs_the_node "subtract" [("input", VStr s)] (VStr s) eq_refl)
    as [_ [Hsub _]].
  destruct (call_tool_runs_the_node "divide" [("input", VStr s)] (VStr s) eq_refl)
    as [_ [_ [_ [Hd _]]]].
  rewrite (Ha eq_refl), (Hm eq_refl), (Hsub eq_refl), (Hd eq_refl).
  unfold GraphWorker.add_node, GraphWorker.multiply_node, GraphWorker.subtract_node,
    GraphWorker.divide_node, GraphWorker.nums_of, GraphWorker.input_split.
  simpl. rewrite (split_blank s Hs). simpl.
  refine (conj _ (conj _ (conj _ _))); reflexivity.
Qed.

(** The theorem at a space, a tab and a newline. *)
Lemma blank_input_has_no_numbers_witness :
  GraphWorker.call_tool (RT := Reference.runtime) "add"
    [("input", VStr (String " " (String "009" (String "010" ""))))]
  = Answers (text_block "add: [] -> 0")
  /\ GraphWorker.call_tool (RT := Reference.runtime) "multiply"
       [("input", VStr (String " " (String "009" (String "010" ""))))]
     = Answers (text_block "multiply: [] -> 1")
  /\ GraphWorker.call_tool (RT := Reference.runtime) "subtract"
       [("input", VStr (String " " (String "009" (String "010" ""))))]
     = Answers (text_block "Error in subtract: list index out of range")
  /\ GraphWorker.call_tool (RT := Reference.runtime) "divide"
       [("input", VStr (String " " (String "009" (String "010" ""))))]
     = Answers (text_block "Error in divide: list index out of range").
Proof.
  apply (blank_input_has_no_numbers Reference.runtime
           (String " " (String "009" (String "010" "")))).
  vm_compute. reflexivity.
Defined.

(** X7: the four arithmetic tools need a string under [input]. Without the
    key the answer is the text of the [KeyError], raised before any node
    runs; with a value that is no string the node answers that the value has
    no [split]. *)
Theorem input_must_be_a_string :
  forall (RT : Runtime) (name : string) (arguments : PyDict),
    In name ["add"; "subtract"; "multiply"; "divide"] ->
    (dict_get "input" arguments = None ->
     GraphWorker.call_tool name arguments = Answers (text_block "Error: 'input'"))
    /\ (forall v, dict_get "input" arguments = Some v ->
                  (forall s, v <> VStr s) ->
                  GraphWorker.call_tool name arguments
                  = Answers (text_block ("Error in " ++ name ++ ": '" ++ type_name v
                                           ++ "' object has no attribute 'split'"))).
Proof.
  intros RT name arguments Hname. split.
  - intros Hnone. simpl in Hname.
    destruct Hname as [<-|[<-|[<-|[<-|[]]]]];
      unfold GraphWorker.call_tool, GraphWorker.create_math_flow,
        GraphWorker.arguments_input; simpl; rewrite Hnone; reflexivity.
  - intros v Hv Hstr.
    destruct (call_tool_runs_the_node name arguments v Hv)
      as [Ha [Hsub [Hm [Hd _]]]].
    assert (Hsplit : GraphWorker.input_split v
                     = Raises (mkExc "AttributeError"
                                 ("'" ++ type_name v
                                      ++ "' object has no attribute 'split'"))).
    { destruct v; try reflexivity. exfalso. apply (Hstr s). reflexivity. }
    simpl in Hname.
    destruct Hname as [<-|[<-|[<-|[<-|[]]]]].
    + rewrite (Ha eq_refl). unfold GraphWorker.add_node, GraphWorker.nums_of.
      simpl. rewrite Hsplit. reflexivity.
    + rewrite (Hsub eq_refl). unfold GraphWorker.subtract_node, GraphWorker.nums_of.
      simpl. rewrite Hsplit. reflexivity.
    + rewrite (Hm eq_refl). unfold GraphWorker.multiply_node, GraphWorker.nums_of.
      simpl. rewrite Hsplit. reflexivity.
    + rewrite (Hd eq_refl). unfold GraphWorker.divide_node, GraphWorker.nums_of.
      simpl. rewrite Hsplit. reflexivity.
Qed.

(** The theorem at [multiply] called with a list of numbers. *)
Lemma input_must_be_a_string_witness :
  (dict_get "input" [("input", VList [VInt 2; VInt 3])] = None ->
   GraphWorker.call_tool (RT := Reference.runtime) "multiply"
     [("input", VList [VInt 2; VInt 3])]
   = Answers (text_block "Error: 'input'"))
  /\ (forall v, dict_get "input" [("input", VList [VInt 2; VInt 3])] = Some v ->
                (forall s, v <> VStr s) ->
                GraphWorker.call_tool (RT := Reference.runtime) "multiply"
                  [("input", VList [VInt 2; VInt 3])]
                = Answers (text_block ("Error in " ++ "multiply" ++ ": '" ++ type_name v
                                         ++ "' object has no attribute 'split'"))).
Proof.
  apply (input_must_be_a_string Reference.runtime "multiply"
           [("input", VList [VInt 2; VInt 3])]).
  simpl. auto.
Defined.

(** X8: when a word of the input is no float, the four arithmetic tools
    answer with the [ValueError] of the first such word, after converting the
    words before it. The words are the runs between white space, that beyond
    ASCII included, and the message shows the word as [repr] writes it. *)
Theorem first_bad_word_is_reported :
  forall (RT : Runtime) (name s : string) (pre post : list string) (w : string),
    In name ["add"; "subtract"; "multiply"; "divide"] ->
    GraphWorker.split s = (pre ++ w :: post)%list ->
    (forall p, In p pre -> float_of_string p <> None) ->
    float_of_string w = None ->
    GraphWorker.call_tool name [("input", VStr s)]
    = Answers [mkTextContent "text"
                 ("Error in " ++ name ++ ": could not convert string to float: "
                    ++ repr_str w)].
Proof.
  intros RT name s pre post w Hname Hsplit Hpre Hw.
  destruct (call_tool_runs_the_node name [("input", VStr s)] (VStr s) eq_refl)
    as [Ha [Hsub [Hm [Hd _]]]].
  pose proof (map_float_bad pre post w Hpre Hw) as Hbad.
  simpl in Hname.
  destruct Hname as [<-|[<-|[<-|[<-|[]]]]].
  - rewrite (Ha eq_refl).
    unfold GraphWorker.add_node, GraphWorker.nums_of, GraphWorker.input_split.
    simpl. rewrite Hsplit, Hbad. reflexivity.
  - rewrite (Hsub eq_refl).
    unfold GraphWorker.subtract_node, GraphWorker.nums_of, GraphWorker.input_split.
    simpl. rewrite Hsplit, Hbad. reflexivity.
  - rewrite (Hm eq_refl).
    unfold GraphWorker.multiply_node, GraphWorker.nums_of, GraphWorker.input_split.
    simpl. rewrite Hsplit, Hbad. reflexivity.
  - rewrite (Hd eq_refl).
    unfold GraphWorker.divide_node, GraphWorker.nums_of, GraphWorker.input_split.
    simpl. rewrite Hsplit, Hbad. reflexivity.
Qed.

(** The theorem at the input [10 4, 1 x], whose second word keeps its comma. *)
Lemma first_bad_word_is_reported_witness :
  GraphWorker.call_tool (RT := Reference.runtime) "subtract"
    [("input", VStr "10 4, 1 x")]
  = Answers [mkTextContent "text"
               ("Error in " ++ "subtract" ++ ": could not convert string to float: "
                  ++ repr_str (RT := Reference.runtime) "4,")].
Proof.
  apply (first_bad_word_is_reported Reference.runtime "subtract" "10 4, 1 x"
           ["10"] ["1"; "x"] "4,").
  - simpl. auto.
  - vm_compute. reflexivity.
  - intros p [<-|[]]. vm_compute. discriminate.
  - vm_compute. reflexivity.
Defined.

(** The words of [1], a no-break space, [2 x]: the no-break space separates,
    and the word that is reported is [x]. *)
Example no_break_space_separates_words :
  let nbsp := String (ascii_of_nat 194) (String (ascii_of_nat 160) "") in
  GraphWorker.call_tool (RT := Reference.runtime) "add"
    [("input", VStr ("1" ++ nbsp ++ "2 x"))]
  = Answers [mkTextContent "text"
               "Error in add: could not convert string to float: 'x'"].
Proof. vm_compute. reflexivity. Qed.

(** X9: the two workers compute the same. When the calculator's [numbers]
    and the words of the graph worker's [input] are the same floats, at
    least two of them, and no divisor of a division is zero, the calculator's
    block is the graph worker's with a check mark in front. *)
Theorem workers_agree_on_the_arithmetic :
  forall (RT : Runtime) (name : string) (arguments : PyDict) (s : string)
         (nums : list float),
    In name ["add"; "subtract"; "multiply"; "divide"] ->
    Worker.CalcInput arguments = Returns nums ->
    GraphWorker.nums_of (GraphWorker.mkFlowState (VStr s) "") = Returns nums ->
    2 <= List.length nums ->
    (name = "divide" -> existsb (fun n => PrimFloat.eqb n 0%float) (tl nums) = false) ->
    Worker.call_tool name arguments
    = hmap (map (fun block => mkTextContent (type block) ("✅ " ++ text block)))
           (GraphWorker.call_tool name [("input", VStr s)]).
Proof.
  intros RT name arguments s nums Hname Hcalc Hgraph Hlen Hdiv.
  destruct (call_tool_runs_the_node name [("input", VStr s)] (VStr s) eq_refl)
    as [Ha [Hsub [Hm [Hd _]]]].
  unfold Worker.call_tool.
  rewrite (WorkerExtras.reaches_calculate name arguments nums Hname Hcalc Hlen).
  destruct nums as [|first rest]; [simpl in Hlen; lia|].
  destruct rest as [|second rest]; [simpl in Hlen; lia|].
  simpl in Hname.
  destruct Hname as [<-|[<-|[<-|[<-|[]]]]].
  - rewrite (Ha eq_refl). unfold GraphWorker.add_node. rewrite Hgraph.
    unfold Worker.calculate. simpl String.eqb. cbv iota.
    pose proof (WorkerExtras.sum_from_fold (first :: second :: rest) 0%float) as [Hf _].
    destruct (Worker.sum_from 0 (first :: second :: rest)) as [r ops].
    simpl in Hf. subst r. reflexivity.
  - rewrite (Hsub eq_refl). unfold GraphWorker.subtract_node. rewrite Hgraph.
    unfold Worker.calculate. simpl String.eqb. cbv iota.
    pose proof (WorkerExtras.subtract_loop_fold (second :: rest) first) as [Hf _].
    simpl tl. simpl hd.
    destruct (Worker.subtract_loop first (second :: rest)) as [r ops].
    simpl in Hf. subst r. reflexivity.
  - rewrite (Hm eq_refl). unfold GraphWorker.multiply_node. rewrite Hgraph.
    unfold Worker.calculate. simpl String.eqb. cbv iota.
    pose proof (WorkerExtras.multiply_loop_fold (first :: second :: rest) 1%float)
      as [Hf _].
    destruct (Worker.multiply_loop 1 (first :: second :: rest)) as [r ops].
    simpl in Hf. subst r. reflexivity.
  - rewrite (Hd eq_refl). unfold GraphWorker.divide_node. rewrite Hgraph.
    unfold Worker.calculate. simpl String.eqb. cbv iota.
    pose proof (WorkerExtras.divide_loop_fold (second :: rest) first) as [Hf _].
    specialize (Hdiv eq_refl). simpl tl in *. simpl hd.
    rewrite Hdiv in Hf.
    destruct (Worker.divide_loop first (second :: rest)) as [r ops].
    simpl in Hf. subst r.
    unfold GraphWorker.nums_0, obind. simpl tl.
    rewrite graph_divide_loop_fold, Hdiv. reflexivity.
Qed.

(** The theorem at eight divided by two, as a list and as a text. *)
Lemma workers_agree_on_the_arithmetic_witness :
  Worker.call_tool (RT := Reference.runtime) "divide"
    [("numbers", VList [VInt 8; VFloat 2])]
  = hmap (map (fun block => mkTextContent (type block) ("✅ " ++ text block)))
         (GraphWorker.call_tool (RT := Reference.runtime) "divide"
            [("input", VStr "8 2.0")]).
Proof.
  apply (workers_agree_on_the_arithmetic Reference.runtime "divide"
           [("numbers", VList [VInt 8; VFloat 2])] "8 2.0" [8; 2]%float).
  - simpl. auto.
  - vm_compute. reflexivity.
  - vm_compute. reflexivity.
  - simpl. lia.
  - intros _. vm_compute. reflexivity.
Defined.

(** X10: the graph worker evaluates an expression with no local names at
    all. An expression of literals, names, operators, [and], [or],
    conditional expressions and calls, whose evaluation needs any name other
    than [__builtins__], the functions and constants of [math] included, is
    not evaluated to a result: the call is answered with an error text,
    unless the evaluation of an operand before the name does not return to
    the node. *)
Theorem graph_expression_has_no_names :
  forall (RT : Runtime) (source : string) (e : expr) (id : string),
    compile_eval source = Returns e ->
    plain e = true ->
    needs id e = true ->
    id <> "__builtins__" ->
    let call :=
      GraphWorker.call_tool "evaluate_expression" [("input", VStr source)] in
    (exists msg,
       call = Answers [mkTextContent "text" ("Error in expression: " ++ msg)])
    \/ (exists x, call = Passes x)
    \/ call = NoAnswer.
Proof.
  intros RT source e id Hcompile _ Hneeds Hne call.
  assert (Hload : load_name [("__builtins__", VNone)] [] id = Raises not_subscriptable).
  { unfold load_name. simpl. destruct (String.eqb id "__builtins__") eqn:E.
    - apply String.eqb_eq in E. contradiction.
    - reflexivity. }
  pose proof (EvalClaims.needs_stops _ _ id _ Hload e Hneeds) as Hstops.
  unfold call.
  rewrite (graph_evaluate_call [("input", VStr source)] source eq_refl).
  unfold py_eval. rewrite Hcompile. simpl.
  destruct (eval_expr [("__builtins__", VNone)] [] e) as [v|x|x|].
  - exfalso. exact (Hstops v eq_refl).
  - left. exists (exc_str x). reflexivity.
  - right. left. exists x. reflexivity.
  - right. right. reflexivity.
Qed.

(** The theorem at the expression [sqrt(16)], where the answer is the error
    text of the failed lookup. *)
Lemma graph_expression_has_no_names_witness :
  let call := GraphWorker.call_tool (RT := Reference.runtime) "evaluate_expression"
                [("input", VStr "sqrt(16)")] in
  ((exists msg,
      call = Answers [mkTextContent "text" ("Error in expression: " ++ msg)])
   \/ (exists x, call = Passes x)
   \/ call = NoAnswer)
  /\ call = Answers [mkTextContent "text"
                       "Error in expression: 'NoneType' object is not subscriptable"].
Proof.
  split.
  - apply (graph_expression_has_no_names Reference.runtime "sqrt(16)"
             (ECall (EName "sqrt") [EConst (VInt 16)]) "sqrt").
    + vm_compute. reflexivity.
    + reflexivity.
    + reflexivity.
    + discriminate.
  - vm_compute. reflexivity.
Defined.

End GraphWorkerExtras.

Module EvalExtras.
Import PyStr Py PyEval Mcp WorkerFacts.

(** Dropping entries by their key alone keeps what every other key finds. *)
Lemma dict_get_filter (keep : string -> bool) (id : string) (d : PyDict) :
  dict_get id (filter (fun kv => keep (fst kv)) d)
  = if keep id then dict_get id d else None.
Proof.
  induction d as [|[k x] d IH]; simpl.
  - destruct (keep id); reflexivity.
  - destruct (String.eqb id k) eqn:E.
    + apply String.eqb_eq in E. subst k.
      destruct (keep id) eqn:K; simpl.
      * rewrite String.eqb_refl. reflexivity.
      * exact IH.
    + destruct (keep k); simpl; [rewrite E|]; exact IH.
Qed.

(** X11: the locals of [evaluate_expression] are [math.__dict__] without
    the names that start with two underscores: such a name is never found,
    every other name finds what [math] holds for it. An expression that is one
    public name of [math] is answered with that value. *)
Theorem public_math_names_are_visible :
  forall (RT : Runtime) (id : string),
    dict_get id Worker.allowed_names
    = (if startswith id "__" then None else dict_get id math_dict)
    /\ forall (source : string) (v : PyVal),
         compile_eval source = Returns (EName id) ->
         startswith id "__" = false ->
         dict_get id math_dict = Some v ->
         Worker.call_tool "evaluate_expression" [("expression", VStr source)]
         = Answers (text_block ("✅ Expression: " ++ source ++ " -> " ++ py_str v)).
Proof.
  intros RT id.
  assert (Hget : dict_get id Worker.allowed_names
                 = if startswith id "__" then None else dict_get id math_dict).
  { unfold Worker.allowed_names.
    rewrite (dict_get_filter (fun k => negb (startswith k "__")) id math_dict).
    destruct (startswith id "__"); reflexivity. }
  split; [exact Hget|].
  intros source v Hcompile Hpublic Hmath.
  rewrite Hpublic, Hmath in Hget.
  unfold Worker.call_tool, Worker.call_tool_traced, Worker.call_tool_body.
  simpl. unfold py_eval. rewrite Hcompile. simpl.
  unfold load_name. rewrite Hget. reflexivity.
Qed.

End EvalExtras.

(** ** More on [MCPServer] *)

Module ClientExtras.
Import PyStr Py Mcp Client Deployment ClientFacts.
Local Open Scope py_scope.

Section Methods.
Context {RT : Runtime}.
Variable env : Env.

(** With a session to a running worker and a [dict] of arguments,
    [execute_tool] sends one request and returns what the handler answers. *)
Lemma execute_tool_spec (self : nat) (st : Store) (s : MCPServer) (pid : nat)
      (p : Process) (tool : string) (d : PyDict) :
  nth_error (servers st) self = Some s ->
  session s = Some pid ->
  nth_error (procs st) pid = Some p ->
  running p = true ->
  execute_tool env self tool (VDict d) st
  = (Returns (mkCallToolResult (handler_of env (params p) tool d)),
     requested pid (ReqCallTool tool d) st).
Proof.
  intros Hs Hsess Hp Hrun.
  unfold execute_tool, bind. rewrite (get_self_found _ _ _ Hs).
  unfold assert_session. rewrite Hsess. unfold ret at 1.
  unfold session_call_tool, bind, send, bind, get_process, bind, get. simpl.
  rewrite Hp. unfold ret at 1. rewrite Hrun.
  unfold set_process, modify, ret. simpl. reflexivity.
Qed.

Lemma update_nth_ext {A} (f g : A -> A) (l : list A) (n : nat) :
  (forall x, f x = g x) -> update_nth n f l = update_nth n g l.
Proof.
  intros H. revert n. induction l as [|x l IH]; intros [|n]; simpl; auto.
  - rewrite H. reflexivity.
  - f_equal. apply IH.
Qed.

Lemma nth_error_update_nth_other {A} (f : A -> A) (l : list A) (n other : nat) :
  other <> n -> nth_error (update_nth n f l) other = nth_error l other.
Proof.
  revert n other. induction l as [|x l IH]; intros [|n] [|other] H; simpl; auto.
  contradiction.
Qed.

(** Closing an exit stack changes processes only, and always returns. *)
Lemma aclose_spec (stack : list Context) (st : Store) :
  exists ps, aclose stack st = (Returns tt, mkStore ps (servers st) (stdout st) (log st)).
Proof.
  revert st. induction stack as [|c stack IH]; intros st.
  - exists (procs st). destruct st. reflexivity.
  - destruct c as [pid|pid]; simpl.
    + unfold bind, terminate, set_process, modify.
      destruct (IH (mkStore (update_nth pid
                               (fun p => mkProcess (params p) false (received p))
                               (procs st))
                      (servers st) (stdout st) (log st))) as [ps Hps].
      exists ps. rewrite Hps. reflexivity.
    + apply IH.
Qed.

(** [cleanup()] on an object whose exit stack holds the two contexts of one
    worker: the worker is terminated and the stack is empty. *)
Lemma cleanup_spec (self : nat) (st : Store) (s : MCPServer) (pid : nat) :
  nth_error (servers st) self = Some s ->
  exit_stack s = Some [Session pid; StdioClient pid] ->
  cleanup self st
  = (Returns tt,
     mkStore (update_nth pid (fun p => mkProcess (params p) false (received p))
                (procs st))
       (update_nth self
          (fun _ => mkMCPServer (server_name s) (config s) (session s) (Some []))
          (servers st))
       (stdout st) (log st)).
Proof.
  intros Hs Hstack. unfold cleanup, bind. rewrite (get_self_found _ _ _ Hs).
  rewrite Hstack. simpl.
  unfold bind, terminate, set_process, modify, ret, set_self, modify. simpl.
  rewrite (update_nth_at _ _ _ _ Hs). reflexivity.
Qed.
End Methods.

(** X12: before [initialize()] has succeeded the object has no session, and
    [list_tools()] and [execute_tool()] raise the [AssertionError] of their
    first line; nothing is sent and nothing changes. *)
Theorem methods_need_a_session :
  forall (RT : Runtime) (env : Env) (self : nat) (st : Store) (s : MCPServer),
    nth_error (servers st) self = Some s ->
    session s = None ->
    list_tools env self st
    = (Raises (mkExc "AssertionError" "MCP server session not initialized"), st)
    /\ forall tool arguments,
         execute_tool env self tool arguments st
         = (Raises (mkExc "AssertionError" "MCP server session not initialized"), st).
Proof.
  intros RT env self st s Hs Hsess. split; [|intros tool arguments];
    unfold list_tools, execute_tool, bind; rewrite (get_self_found _ _ _ Hs);
    unfold assert_session; rewrite Hsess; reflexivity.
Qed.

(** X13: a configuration without [command], or one whose [command] and
    [args] do not make server parameters, makes [initialize()] raise before
    the [try] block: no worker is started and nothing is logged; the object is
    left with an empty exit stack. *)
Theorem configuration_errors_precede_the_spawn :
  forall (RT : Runtime) (env : Env) (self : nat) (st : Store) (s : MCPServer)
         (e : PyExc),
    nth_error (servers st) self = Some s ->
    obind (config_command (config s))
          (fun command => make_params command (config_args (config s)))
    = Raises e ->
    initialize env self st
    = (Raises e,
       mkStore (procs st)
         (update_nth self
            (fun _ => mkMCPServer (server_name s) (config s) (session s) (Some []))
            (servers st))
         (stdout st) (log st)).
Proof.
  intros RT env self st s e Hs Hcfg.
  unfold initialize, bind, set_self, modify, get_self, bind, get, ret, lift.
  simpl. rewrite nth_error_update_nth, Hs. simpl.
  rewrite (update_nth_at _ _ _ _ Hs).
  destruct (config_command (config s)) as [command|e1]; simpl in Hcfg.
  - rewrite Hcfg. reflexivity.
  - injection Hcfg as ->. reflexivity.
Qed.

(** X14: when the executable of a valid configuration does not start,
    [initialize()] logs the failure and raises it again: no process exists,
    the exit stack is empty and the object has no session. *)
Theorem failed_spawn_is_logged :
  forall (RT : Runtime) (env : Env) (self : nat) (st : Store) (s : MCPServer)
         (command : PyVal) (server_params : StdioServerParameters) (e : PyExc),
    nth_error (servers st) self = Some s ->
    config_command (config s) = Returns command ->
    make_params command (config_args (config s)) = Returns server_params ->
    spawn env server_params st = (Raises e, st) ->
    initialize env self st
    = (Raises e,
       mkStore (procs st)
         (update_nth self
            (fun _ => mkMCPServer (server_name s) (config s) (session s) (Some []))
            (servers st))
         (stdout st)
         (app (log st) ["ERROR - Failed to initialize server '" ++ server_name s
                          ++ "': " ++ exc_str e])).
Proof.
  intros RT env self st s command server_params e Hs Hcmd Hparams Hspawn.
  unfold initialize, bind, set_self, modify, get_self, bind, get, ret, lift, try_except.
  simpl. rewrite nth_error_update_nth, Hs. simpl. rewrite Hcmd, Hparams.
  unfold enter_stdio_client, bind.
  unfold spawn in *. destruct (spawns env server_params).
  - unfold bind, get, modify, ret in Hspawn. simpl in Hspawn. discriminate.
  - unfold raise in *. injection Hspawn as He. subst e.
    unfold bind, logging_error, modify. simpl.
    rewrite (update_nth_at _ _ _ _ Hs). reflexivity.
Qed.

(** X16: with a session to a running worker, [execute_tool()] with a [dict]
    of arguments returns the blocks that the worker's handler answers for
    that tool and those arguments, and the worker has received that one
    request more. *)
Theorem execute_tool_is_one_request :
  forall (RT : Runtime) (env : Env) (self : nat) (st : Store) (s : MCPServer)
         (pid : nat) (p : Process) (tool : string) (d : PyDict),
    nth_error (servers st) self = Some s ->
    session s = Some pid ->
    nth_error (procs st) pid = Some p ->
    running p = true ->
    let call := execute_tool env self tool (VDict d) st in
    fst call = Returns (mkCallToolResult (handler_of env (params p) tool d))
    /\ nth_error (procs (snd call)) pid
       = Some (mkProcess (params p) true (app (received p) [ReqCallTool tool d]))
    /\ (forall other, other <> pid ->
                      nth_error (procs (snd call)) other = nth_error (procs st) other)
    /\ servers (snd call) = servers st
    /\ stdout (snd call) = stdout st.
Proof.
  intros RT env self st s pid p tool d Hs Hsess Hp Hrun call. subst call.
  rewrite (execute_tool_spec env self st s pid p tool d Hs Hsess Hp Hrun). simpl.
  refine (conj eq_refl (conj _ (conj _ (conj eq_refl eq_refl)))).
  - rewrite nth_error_update_nth, Hp. simpl. unfold deliver. rewrite Hrun. reflexivity.
  - intros other Hother. apply nth_error_update_nth_other, Hother.
Qed.

(** X17: [cleanup()] can be repeated. A second call right after the first
    changes nothing and has the same outcome; on an object that was never
    initialized the first call changes nothing either. *)
Theorem cleanup_is_idempotent :
  forall (self : nat) (st : Store),
    cleanup self (snd (cleanup self st))
    = (fst (cleanup self st), snd (cleanup self st))
    /\ (option_map exit_stack (nth_error (servers st) self) = Some None ->
        cleanup self st = (Returns tt, st)).
Proof.
  intros self st. split.
  - destruct (nth_error (servers st) self) as [s|] eqn:Hs.
    + destruct (exit_stack s) as [stack|] eqn:Hstack.
      * assert (Hc : exists ps,
                   cleanup self st
                   = (Returns tt,
                      mkStore ps
                        (update_nth self
                           (fun s => mkMCPServer (server_name s) (config s)
                                       (session s) (Some []))
                           (servers st))
                        (stdout st) (log st))).
        { destruct (aclose_spec stack st) as [ps Hps]. exists ps.
          unfold cleanup, bind. rewrite (get_self_found _ _ _ Hs), Hstack, Hps.
          reflexivity. }
        destruct Hc as [ps Hc]. rewrite Hc. cbn [fst snd].
        unfold cleanup, bind, get_self, bind, get. cbn [servers].
        rewrite nth_error_update_nth, Hs. simpl.
        unfold ret, set_self, modify. cbn [procs servers stdout log].
        rewrite update_nth_twice. reflexivity.
      * assert (Hc : cleanup self st = (Returns tt, st)).
        { unfold cleanup, bind. rewrite (get_self_found _ _ _ Hs), Hstack.
          reflexivity. }
        rewrite Hc. cbn [fst snd]. exact Hc.
    + assert (Hc : cleanup self st
                   = (Raises (mkExc "ReferenceError" "no such object"), st)).
      { unfold cleanup, bind, get_self, bind, get. rewrite Hs. reflexivity. }
      rewrite Hc. cbn [fst snd]. exact Hc.
  - intros Hnone. unfold cleanup, bind, get_self, bind, get.
    destruct (nth_error (servers st) self) as [s|]; simpl in *; [|discriminate].
    injection Hnone as ->. reflexivity.
Qed.

(** From here on the programs run on the reference runtime. *)
#[local] Existing Instance Reference.runtime.

(** The theorem at the deployment before it is initialized. *)
Lemma methods_need_a_session_witness :
  list_tools conforming 0 boot
  = (Raises (mkExc "AssertionError" "MCP server session not initialized"), boot)
  /\ forall tool arguments,
       execute_tool conforming 0 tool arguments boot
       = (Raises (mkExc "AssertionError" "MCP server session not initialized"), boot).
Proof.
  apply (methods_need_a_session Reference.runtime conforming 0 boot calculator);
    reflexivity.
Defined.

(** The theorem at a configuration that has [args] only. *)
Lemma configuration_errors_precede_the_spawn_witness :
  initialize conforming 0
    (mkStore [] [mkMCPServer "calculator"
                   [("args", VList [VStr "mcp_server/server.py"])] None None] [] [])
  = (Raises (mkExc "KeyError" "'command'"),
     mkStore []
       (update_nth 0
          (fun _ => mkMCPServer "calculator"
                      [("args", VList [VStr "mcp_server/server.py"])] None (Some []))
          [mkMCPServer "calculator"
             [("args", VList [VStr "mcp_server/server.py"])] None None])
       [] []).
Proof.
  apply (configuration_errors_precede_the_spawn Reference.runtime conforming 0
           (mkStore [] [mkMCPServer "calculator"
                          [("args", VList [VStr "mcp_server/server.py"])] None None]
              [] [])
           (mkMCPServer "calculator"
              [("args", VList [VStr "mcp_server/server.py"])] None None)
           (mkExc "KeyError" "'command'")); reflexivity.
Defined.

(** The theorem at the deployment whose executable is missing. *)
Lemma failed_spawn_is_logged_witness :
  initialize missing 0 boot
  = (Raises (mkExc "FileNotFoundError"
               "[Errno 2] No such file or directory: 'python'"),
     mkStore []
       (update_nth 0
          (fun _ => mkMCPServer "calculator" calculator_config None (Some []))
          [calculator])
       []
       (app [] ["ERROR - Failed to initialize server '" ++ "calculator" ++ "': "
                  ++ "[Errno 2] No such file or directory: 'python'"])).
Proof.
  apply (failed_spawn_is_logged Reference.runtime missing 0 boot calculator
           (VStr "python") (mkParams "python" ["mcp_server/server.py"])
           (mkExc "FileNotFoundError"
              "[Errno 2] No such file or directory: 'python'")); reflexivity.
Defined.

(** The theorem at a call of [add] on the deployment, once initialized. *)
Lemma execute_tool_is_one_request_witness :
  let ready := snd (initialize conforming 0 boot) in
  let worker := mkProcess (mkParams "python" ["mcp_server/server.py"]) true
                  [ReqInitialize] in
  let d := [("numbers", VList [VInt 2; VInt 3])] in
  let call := execute_tool conforming 0 "add" (VDict d) ready in
  fst call = Returns (mkCallToolResult (handler_of conforming (params worker) "add" d))
  /\ nth_error (procs (snd call)) 0
     = Some (mkProcess (params worker) true
               (app (received worker) [ReqCallTool "add" d]))
  /\ (forall other, other <> 0 ->
                    nth_error (procs (snd call)) other = nth_error (procs ready) other)
  /\ servers (snd call) = servers ready
  /\ stdout (snd call) = stdout ready.
Proof.
  cbv zeta.
  apply (execute_tool_is_one_request Reference.runtime conforming 0
           (snd (initialize conforming 0 boot))
           (mkMCPServer "calculator" calculator_config (Some 0)
              (Some [Session 0; StdioClient 0]))
           0 (mkProcess (mkParams "python" ["mcp_server/server.py"]) true
                [ReqInitialize])
           "add" [("numbers", VList [VInt 2; VInt 3])]); reflexivity.
Defined.

End ClientExtras.

(** ** What the programs do to the workers *)

Module LifecycleFacts.
Import PyStr Py Mcp Json Client Deployment Lifecycle ClientFacts.
Local Open Scope py_scope.

Section Preorder.
Variable R : Store -> Store -> Prop.
Hypothesis R_refl : forall st, R st st.
Hypothesis R_trans : forall a b c, R a b -> R b c -> R a c.

Lemma keeps_ret {A} (a : A) : keeps R (ret a).
Proof. intros st. apply R_refl. Qed.

Lemma keeps_raise {A} (e : PyExc) : keeps R (@raise A e).
Proof. intros st. apply R_refl. Qed.

Lemma keeps_lift {A} (o : Outcome A) : keeps R (lift o).
Proof. intros st. apply R_refl. Qed.

Lemma keeps_get : keeps R get.
Proof. intros st. apply R_refl. Qed.

Lemma keeps_bind {A B} (m : M A) (k : A -> M B) :
  keeps R m -> (forall a, keeps R (k a)) -> keeps R (bind m k).
Proof.
  intros Hm Hk st. unfold bind. specialize (Hm st).
  destruct (m st) as [[a|e] st']; simpl in Hm.
  - eapply R_trans; [exact Hm|apply Hk].
  - exact Hm.
Qed.

Lemma keeps_try_except {A} (m : M A) (h : PyExc -> M A) :
  keeps R m -> (forall e, keeps R (h e)) -> keeps R (try_except m h).
Proof.
  intros Hm Hh st. unfold try_except. specialize (Hm st).
  destruct (m st) as [[a|e] st']; simpl in Hm.
  - exact Hm.
  - eapply R_trans; [exact Hm|apply Hh].
Qed.
End Preorder.

Lemma keeps_weaken (R R' : Store -> Store -> Prop) {A} (m : M A) :
  (forall a b, R a b -> R' a b) -> keeps R m -> keeps R' m.
Proof. intros H Hm st. apply H, Hm. Qed.

Lemma settled_refl (st : Store) : settled st st.
Proof. split; reflexivity. Qed.

Lemma settled_trans (a b c : Store) : settled a b -> settled b c -> settled a c.
Proof. intros [H1 H2] [H3 H4]. split; congruence. Qed.

Lemma unstopped_refl (st : Store) : unstopped st st.
Proof. intros H. exact H. Qed.

Lemma unstopped_trans (a b c : Store) :
  unstopped a b -> unstopped b c -> unstopped a c.
Proof. intros H1 H2 H. apply H2, H1, H. Qed.

Lemma all_running_lifecycle (st : Store) :
  all_running st = forallb snd (lifecycle st).
Proof.
  unfold all_running, lifecycle. induction (procs st) as [|p l IH]; simpl; congruence.
Qed.

Lemma settled_unstopped (st st' : Store) : settled st st' -> unstopped st st'.
Proof.
  intros [H _] Hrun. rewrite all_running_lifecycle in *. rewrite H. exact Hrun.
Qed.

Lemma map_update_nth {A B} (g : A -> B) (f : A -> A) (l : list A) (n : nat) :
  (forall x, g (f x) = g x) -> map g (update_nth n f l) = map g l.
Proof.
  intros H. revert n. induction l as [|x l IH]; intros [|n]; simpl; auto.
  - rewrite H. reflexivity.
  - f_equal. apply IH.
Qed.

Create HintDb settled.

Lemma settled_ret {A} (a : A) : keeps settled (ret a).
Proof. apply keeps_ret, settled_refl. Qed.

Lemma settled_raise {A} (e : PyExc) : keeps settled (@raise A e).
Proof. apply keeps_raise, settled_refl. Qed.

Lemma settled_lift {A} (o : Outcome A) : keeps settled (lift o).
Proof. apply keeps_lift, settled_refl. Qed.

Lemma settled_bind {A B} (m : M A) (k : A -> M B) :
  keeps settled m -> (forall a, keeps settled (k a)) -> keeps settled (bind m k).
Proof. apply keeps_bind, settled_trans. Qed.

Lemma settled_try_except {A} (m : M A) (h : PyExc -> M A) :
  keeps settled m -> (forall e, keeps settled (h e)) ->
  keeps settled (try_except m h).
Proof. apply keeps_try_except, settled_trans. Qed.

Lemma settled_print (line : string) : keeps settled (print line).
Proof. intros st. split; reflexivity. Qed.

Lemma settled_logging_error (msg : string) : keeps settled (logging_error msg).
Proof. intros st. split; reflexivity. Qed.

Lemma settled_get_self (self : nat) : keeps settled (get_self self).
Proof.
  intros st. unfold get_self, bind, get.
  destruct (nth_error (servers st) self); apply settled_refl.
Qed.

(** A request changes what the worker has received and nothing else. *)
Lemma settled_send (pid : nat) (req : Request) : keeps settled (send pid req).
Proof.
  intros st. unfold send, bind, get_process, bind, get.
  destruct (nth_error (procs st) pid) as [p|]; [|apply settled_refl].
  unfold ret at 1. destruct (running p); [|apply settled_refl].
  unfold set_process, modify, ret. simpl. split; [|reflexivity].
  unfold lifecycle. simpl. apply map_update_nth. reflexivity.
Qed.

#[export] Hint Resolve settled_ret settled_raise settled_lift settled_bind
  settled_try_except settled_print settled_logging_error settled_get_self
  settled_send : settled.

Section Programs.
Context {RT : Runtime}.
Variable env : Env.

Lemma settled_list_tools (self : nat) : keeps settled (list_tools env self).
Proof.
  unfold list_tools. apply settled_bind; [auto with settled|]. intros s.
  apply settled_bind.
  - unfold assert_session. destruct (session s); auto with settled.
  - intros pid. unfold session_list_tools. auto 10 with settled.
Qed.

Lemma settled_execute_tool (self : nat) (tool : string) (arguments : PyVal) :
  keeps settled (execute_tool env self tool arguments).
Proof.
  unfold execute_tool. apply settled_bind; [auto with settled|]. intros s.
  apply settled_bind.
  - unfold assert_session. destruct (session s); auto with settled.
  - intros pid. unfold session_call_tool.
    destruct arguments; auto 10 with settled.
Qed.

Lemma settled_print_contents (contents : list TextContent) :
  keeps settled (Chat.print_contents contents).
Proof.
  induction contents as [|c rest IH]; simpl; [auto with settled|].
  apply settled_bind; [|intros _; exact IH].
  destruct (String.eqb (type c) "text"); auto with settled.
Qed.

Lemma settled_dispatch (remaining : list nat) (tool_name arguments : PyVal) :
  keeps settled (Chat.dispatch env remaining tool_name arguments).
Proof.
  induction remaining as [|server rest IH]; simpl; [auto with settled|].
  apply settled_bind; [apply settled_list_tools|]. intros tools.
  destruct (Chat.matching_tool tools tool_name) as [tool|]; [|exact IH].
  apply settled_bind; [auto with settled|]. intros _.
  apply settled_bind; [apply settled_execute_tool|]. intros result.
  apply settled_bind; [auto with settled|]. intros _.
  apply settled_print_contents.
Qed.

Lemma settled_handle_response (servers : list nat) (llm_response : string) :
  keeps settled (Chat.handle_response env servers llm_response).
Proof.
  unfold Chat.handle_response. apply settled_bind; [auto with settled|]. intros _.
  destruct (startswith llm_response "{"); [|auto with settled].
  apply settled_try_except; [|auto with settled].
  apply settled_bind; [auto with settled|]. intros parsed.
  apply settled_bind; [auto with settled|]. intros tool_name.
  apply settled_bind; [auto with settled|]. intros arguments.
  apply settled_dispatch.
Qed.

Lemma settled_list_all (l : list nat) (all_tools : list Tool) :
  keeps settled (Chat.list_all env l all_tools).
Proof.
  revert all_tools. induction l as [|server rest IH]; intros all_tools; simpl;
    [auto with settled|].
  apply settled_bind; [apply settled_list_tools|]. intros tools. apply IH.
Qed.

Lemma settled_print_tools (tools : list Tool) : keeps settled (Chat.print_tools tools).
Proof.
  induction tools as [|tool rest IH]; simpl; [auto with settled|].
  apply settled_bind; [auto with settled|]. intros _. exact IH.
Qed.

Lemma settled_get_response (world : Chatbot.World) (llm : Chatbot.LLMClient)
      (messages : list (string * string)) :
  keeps settled (Chatbot.get_response world llm messages).
Proof. unfold Chatbot.get_response. auto 10 with settled. Qed.

Lemma settled_answer (servers : list nat) (llm_response : PyVal) :
  keeps settled (Chatbot.answer env servers llm_response).
Proof.
  unfold Chatbot.answer.
  destruct llm_response; auto 10 with settled; apply settled_handle_response.
Qed.

Lemma settled_chat_loop (world : Chatbot.World) (servers : list nat)
      (llm : Chatbot.LLMClient) (inputs : list string)
      (messages : list (string * string)) :
  keeps settled (Chatbot.loop env world servers llm inputs messages).
Proof.
  revert messages. induction inputs as [|line rest IH]; intros messages; simpl;
    [auto with settled|].
  match goal with |- context [if ?c then _ else _] => destruct c end;
    [auto with settled|].
  apply settled_bind; [apply settled_get_response|]. intros llm_response.
  apply settled_bind; [apply settled_answer|]. intros _. apply IH.
Qed.

(** The nodes of the flow, for an executor whose listing and calls leave
    the workers as they are. *)
Section Flow.
Variable executor : Flow.Executor.
Variable prompt_format : string -> string.
Variable llm_ainvoke : string -> Outcome Flow.Content.
Hypothesis settled_ex_list_tools : keeps settled (Flow.ex_list_tools executor).
Hypothesis settled_ex_execute_tool :
  forall tool arguments, keeps settled (Flow.ex_execute_tool executor tool arguments).

Lemma settled_plan_tool_call (state : Flow.FlowState) :
  keeps settled (Flow.plan_tool_call prompt_format llm_ainvoke state).
Proof. unfold Flow.plan_tool_call. auto 10 with settled. Qed.

Lemma settled_call_mcp_tool (state : Flow.FlowState) :
  keeps settled (Flow.call_mcp_tool executor state).
Proof.
  unfold Flow.call_mcp_tool.
  apply settled_bind; [auto with settled|]. intros _.
  apply settled_bind; [auto with settled|]. intros _.
  apply settled_bind; [exact settled_ex_list_tools|]. intros tools.
  destruct (Flow.available (Flow.tool_name state) (map name tools)) as [tool|];
    [|auto with settled].
  apply settled_try_except; [|auto with settled].
  apply settled_bind; [apply settled_ex_execute_tool|]. auto with settled.
Qed.

Lemma settled_flow_loop (inputs : list string) :
  keeps settled (Flow.loop executor prompt_format llm_ainvoke inputs).
Proof.
  induction inputs as [|user_input rest IH]; simpl; [auto with settled|].
  match goal with |- context [if ?c then _ else _] => destruct c end;
    [auto with settled|].
  apply settled_bind.
  - unfold Flow.flow_ainvoke, Flow.input_node.
    apply settled_bind; [apply settled_plan_tool_call|]. intros state.
    apply settled_call_mcp_tool.
  - intros result. apply settled_bind; [auto with settled|]. intros _. exact IH.
Qed.
End Flow.

(** [initialize] starts a worker at most; it stops none. *)
Lemma unstopped_initialize (self : nat) : keeps unstopped (initialize env self).
Proof.
  assert (Hset : forall f, keeps unstopped (set_self self f)).
  { intros f st H. exact H. }
  assert (Hsettled : forall A (m : M A), keeps settled m -> keeps unstopped m).
  { intros A m. apply keeps_weaken, settled_unstopped. }
  unfold initialize.
  apply (keeps_bind _ unstopped_trans); [apply Hset|]. intros _.
  apply (keeps_bind _ unstopped_trans); [apply Hsettled; auto with settled|]. intros s.
  apply (keeps_bind _ unstopped_trans); [apply Hsettled; auto with settled|].
  intros command.
  apply (keeps_bind _ unstopped_trans); [apply Hsettled; auto with settled|].
  intros server_params.
  apply (keeps_try_except _ unstopped_trans).
  - apply (keeps_bind _ unstopped_trans).
    + unfold enter_stdio_client.
      apply (keeps_bind _ unstopped_trans).
      * intros st. unfold spawn. destruct (spawns env server_params).
        -- unfold bind, get, modify, ret. simpl. intros H.
           unfold all_running in *. simpl. rewrite forallb_app, H. reflexivity.
        -- apply unstopped_refl.
      * intros pid. apply (keeps_bind _ unstopped_trans); [apply Hset|].
        intros _. apply keeps_ret, unstopped_refl.
    + intros pid. apply (keeps_bind _ unstopped_trans).
      * unfold enter_client_session.
        apply (keeps_bind _ unstopped_trans); [apply Hset|].
        intros _. apply keeps_ret, unstopped_refl.
      * intros session. apply (keeps_bind _ unstopped_trans).
        -- apply Hsettled. unfold session_initialize.
           apply settled_bind; [auto with settled|]. intros p.
           destruct (handshakes env (params p)); auto with settled.
        -- intros _. apply (keeps_bind _ unstopped_trans); [apply Hset|].
           intros _. intros st H. exact H.
  - intros e. apply Hsettled. auto with settled.
Qed.
End Programs.

End LifecycleFacts.

(** ** The sessions: the chat bot and the flow *)

Module SessionExtras.
Import PyStr Py Mcp Json Client Deployment Lifecycle ClientFacts FlowFacts
  LifecycleFacts.
Local Open Scope py_scope.

Section Chatbot.
Context {RT : Runtime}.
Variable env : Env.
Variable world : Chatbot.World.

(** [get_response] always returns: the content of the completion, or the
    fixed text after logging what was raised. *)
Lemma get_response_spec (llm : Chatbot.LLMClient) (messages : list (string * string))
      (st : Store) :
  Chatbot.get_response world llm messages st
  = match obind (Chatbot.post_json world (Chatbot.client_api_key llm) messages)
                Chatbot.completion_content with
    | Returns v => (Returns v, st)
    | Raises e =>
        (Returns (VStr Chatbot.failure_text),
         mkStore (procs st) (servers st) (stdout st)
           (app (log st) ["ERROR - Error from OpenAI: " ++ exc_str e]))
    end.
Proof.
  unfold Chatbot.get_response, try_except, bind, lift.
  destruct (Chatbot.post_json world (Chatbot.client_api_key llm) messages) as [data|e];
    simpl; [|reflexivity].
  destruct (Chatbot.completion_content data); reflexivity.
Qed.

(** Constructing the objects returns and changes the objects only. *)
Lemma construct_all_spec (entries : list (string * PyVal)) (st : Store) :
  exists objects created,
    Chatbot.construct_all entries st
    = (Returns objects, mkStore (procs st) created (stdout st) (log st)).
Proof.
  revert st. induction entries as [|[name conf] rest IH]; intros st; simpl.
  - exists [], (servers st). destruct st. reflexivity.
  - unfold bind at 1.
    assert (Hc : exists object created,
               Chatbot.construct name conf st
               = (Returns object, mkStore (procs st) created (stdout st) (log st))).
    { unfold Chatbot.construct.
      destruct conf;
        try solve [eexists; exists (servers st); destruct st; reflexivity].
      eexists. eexists. reflexivity. }
    destruct Hc as (object & created & Hc). rewrite Hc.
    destruct (IH (mkStore (procs st) created (stdout st) (log st)))
      as (objects & created' & Hrest).
    unfold bind. rewrite Hrest. simpl. eexists. eexists. reflexivity.
Qed.

Lemma unstopped_construct_all (entries : list (string * PyVal)) :
  keeps unstopped (Chatbot.construct_all entries).
Proof.
  intros st. destruct (construct_all_spec entries st) as (objects & created & H).
  rewrite H. intros Hrun. exact Hrun.
Qed.

Lemma unstopped_of_settled {A} (m : M A) : keeps settled m -> keeps unstopped m.
Proof. apply keeps_weaken, settled_unstopped. Qed.

Lemma unstopped_initialize_all (l : list (nat + string * PyVal)) :
  keeps unstopped (Chatbot.initialize_all env l).
Proof.
  induction l as [|[server|[name conf]] rest IH]; simpl.
  - apply keeps_ret, unstopped_refl.
  - apply (keeps_bind _ unstopped_trans); [apply unstopped_initialize|]. intros _.
    apply (keeps_bind _ unstopped_trans); [exact IH|]. intros servers.
    apply keeps_ret, unstopped_refl.
  - apply (keeps_bind _ unstopped_trans); [|intros _; exact IH].
    apply keeps_lift, unstopped_refl.
Qed.

Lemma unstopped_main (inputs : list string) :
  keeps unstopped (Chatbot.main env world inputs).
Proof.
  unfold Chatbot.main.
  apply (keeps_bind _ unstopped_trans); [apply keeps_lift, unstopped_refl|].
  intros servers_config.
  apply (keeps_bind _ unstopped_trans); [apply keeps_lift, unstopped_refl|].
  intros entries.
  apply (keeps_bind _ unstopped_trans); [apply unstopped_construct_all|].
  intros objects.
  apply (keeps_bind _ unstopped_trans); [apply keeps_lift, unstopped_refl|].
  intros key. unfold Chatbot.start.
  apply (keeps_bind _ unstopped_trans); [apply unstopped_initialize_all|].
  intros servers. apply unstopped_of_settled.
  apply settled_bind; [apply settled_list_all|]. intros all_tools.
  apply settled_bind; [auto with settled|]. intros lines.
  apply settled_bind; [auto with settled|]. intros _.
  apply settled_bind; [apply settled_print_tools|]. intros _.
  apply settled_chat_loop.
Qed.
End Chatbot.

(** X18: the loop of [ChatSession.start] leaves the workers and the server
    objects as they are, whatever the user types and the model answers: a
    round starts no worker, stops none and initializes nothing, and no path
    out of the loop does. *)
Theorem chat_loop_leaves_the_workers_alone :
  forall (RT : Runtime) (env : Env) (world : Chatbot.World) (servers : list nat)
         (llm : Chatbot.LLMClient) (inputs : list string)
         (messages : list (string * string)) (st : Store),
    let st' := snd (Chatbot.loop env world servers llm inputs messages st) in
    lifecycle st' = lifecycle st /\ Client.servers st' = Client.servers st.
Proof.
  intros RT env world servers llm inputs messages st.
  apply (settled_chat_loop env world servers llm inputs messages st).
Qed.

(** X19: the [main] of the chat bot stops no worker. When every worker
    that exists runs before [main], every worker that exists when [main] ends,
    by [exit] or by an exception, runs: the program has no call of
    [cleanup]. *)
Theorem chatbot_stops_no_worker :
  forall (RT : Runtime) (env : Env) (world : Chatbot.World) (inputs : list string)
         (st : Store),
    all_running st = true ->
    all_running (snd (Chatbot.main env world inputs st)) = true.
Proof.
  intros RT env world inputs st. apply (unstopped_main env world inputs st).
Qed.

(** X20: without an API key, unset or empty, [main] raises before
    [ChatSession.start]: no worker is started, nothing is printed or logged.
    When the configuration file gives the servers, what it raises is the
    [ValueError] of [openai_api_key]. *)
Theorem missing_key_stops_before_any_worker :
  forall (RT : Runtime) (env : Env) (world : Chatbot.World) (inputs : list string)
         (st : Store),
    Chatbot.getenv_api_key world = None \/ Chatbot.getenv_api_key world = Some "" ->
    let run := Chatbot.main env world inputs st in
    procs (snd run) = procs st
    /\ stdout (snd run) = stdout st
    /\ log (snd run) = log st
    /\ (exists e, fst run = Raises e)
    /\ (forall servers_config entries,
          Chatbot.load_config world "mcp_simple_chatbot/servers_config.json"
          = Returns servers_config ->
          Chatbot.server_entries servers_config = Returns entries ->
          fst run
          = Raises (mkExc "ValueError" "OPENAI_API_KEY not found in .env file")).
Proof.
  intros RT env world inputs st Hkey run. subst run.
  assert (Hprop : Chatbot.openai_api_key
                    (Chatbot.mkConfiguration (Chatbot.getenv_api_key world))
                  = Raises (mkExc "ValueError" "OPENAI_API_KEY not found in .env file")).
  { unfold Chatbot.openai_api_key. destruct Hkey as [-> | ->]; reflexivity. }
  assert (Hmain : exists e created,
             Chatbot.main env world inputs st
             = (Raises e, mkStore (procs st) created (stdout st) (log st))
             /\ (forall servers_config entries,
                   Chatbot.load_config world "mcp_simple_chatbot/servers_config.json"
                   = Returns servers_config ->
                   Chatbot.server_entries servers_config = Returns entries ->
                   e = mkExc "ValueError" "OPENAI_API_KEY not found in .env file")).
  { unfold Chatbot.main. cbv zeta. unfold bind at 1. unfold lift at 1.
    destruct (Chatbot.load_config world "mcp_simple_chatbot/servers_config.json")
      as [servers_config|e0] eqn:Hload.
    - unfold bind at 1. unfold lift at 1.
      destruct (Chatbot.server_entries servers_config) as [entries|e1] eqn:Hentries.
      + unfold bind at 1.
        destruct (construct_all_spec entries st) as (objects & created & Hc).
        rewrite Hc. unfold bind, lift. rewrite Hprop.
        eexists. exists created. split; [reflexivity|]. intros. reflexivity.
      + exists e1, (servers st). split; [destruct st; reflexivity|].
        intros cfg entries [= <-] Hcfg. rewrite Hentries in Hcfg. discriminate.
    - exists e0, (servers st). split; [destruct st; reflexivity|]. discriminate. }
  destruct Hmain as (e & created & Hmain & Hvalue). rewrite Hmain. cbn [fst snd].
  refine (conj eq_refl (conj eq_refl (conj eq_refl (conj _ _)))).
  - exists e. reflexivity.
  - intros servers_config entries Hload Hentries.
    rewrite (Hvalue servers_config entries Hload Hentries). reflexivity.
Qed.

(** X21: when the request to the model fails, or its body has no
    [choices[0].message.content], [get_response] logs the exception and
    returns its fixed text, and the round shows that text as the answer of the
    model: two lines are printed, no server is contacted, and the loop goes
    on. *)
Theorem failed_exchange_is_shown_as_an_answer :
  forall (RT : Runtime) (env : Env) (world : Chatbot.World) (servers : list nat)
         (llm : Chatbot.LLMClient) (messages : list (string * string))
         (st : Store) (e : PyExc),
    obind (Chatbot.post_json world (Chatbot.client_api_key llm) messages)
          Chatbot.completion_content
    = Raises e ->
    (llm_response <- Chatbot.get_response world llm messages ;;
     Chatbot.answer env servers llm_response) st
    = (Returns tt,
       mkStore (procs st) (Client.servers st)
         (app (stdout st)
            [ nl ++ "LLM Response:" ++ nl
                 ++ " Error: Failed to get response from OpenAI.";
              "OpenAI: Error: Failed to get response from OpenAI." ])
         (app (log st) ["ERROR - Error from OpenAI: " ++ exc_str e])).
Proof.
  intros RT env world servers llm messages st e Hfail.
  unfold bind at 1. rewrite get_response_spec, Hfail.
  unfold Chatbot.answer, Chat.handle_response, Chatbot.failure_text.
  unfold bind, print, modify. simpl. rewrite <- app_assoc. reflexivity.
Qed.

(** X22: a completion whose content is no text, [null] for one, ends the
    chat. The line with the answer is printed, then [startswith] raises an
    [AttributeError] outside any [try], and the loop is left with it. *)
Theorem content_that_is_no_text_ends_the_chat :
  forall (RT : Runtime) (env : Env) (world : Chatbot.World) (servers : list nat)
         (llm : Chatbot.LLMClient) (line : string) (rest : list string)
         (messages : list (string * string)) (st : Store) (v : PyVal),
    in_strings (lower (strip line)) ["exit"; "quit"] = false ->
    obind (Chatbot.post_json world (Chatbot.client_api_key llm)
             (app messages [("user", strip line)]))
          Chatbot.completion_content
    = Returns v ->
    (forall s, v <> VStr s) ->
    Chatbot.loop env world servers llm (line :: rest) messages st
    = (Raises (mkExc "AttributeError"
                 ("'" ++ type_name v ++ "' object has no attribute 'startswith'")),
       printed (nl ++ "LLM Response:" ++ nl ++ " " ++ py_str v) st).
Proof.
  intros RT env world servers llm line rest messages st v Hgo Hcontent Hv.
  cbn [Chatbot.loop]. cbv zeta. rewrite Hgo.
  unfold bind at 1. rewrite get_response_spec, Hcontent.
  unfold Chatbot.answer.
  destruct v; try reflexivity. exfalso. apply (Hv s). reflexivity.
Qed.

(** X24: a request for a tool that the executor lists makes [call_mcp_tool]
    call [execute_tool] once, with the name and the arguments of the state,
    on the store that the listing left. The output is the text blocks of the
    result joined by line feeds, and the message of the failure when the
    call raises; in both cases the node returns the store that the call
    left. *)
Theorem known_tool_is_called_once :
  forall (RT : Runtime) (executor : Flow.Executor) (state : Flow.FlowState)
         (st st1 : Store) (tools : list Tool) (tool : string),
    Flow.ex_list_tools executor
      (printed ("📦 Arguments: " ++ py_str (Flow.arguments state))
         (printed ("🔍 Calling tool: " ++ py_str (Flow.tool_name state)) st))
    = (Returns tools, st1) ->
    Flow.tool_name state = VStr tool ->
    in_strings tool (map name tools) = true ->
    Flow.call_mcp_tool executor state st
    = match Flow.ex_execute_tool executor tool (Flow.arguments state) st1 with
      | (Returns result, st2) =>
          (Returns (Flow.mkFlowState (Flow.input state) (VStr tool)
                      (Flow.arguments state)
                      (join nl (Flow.texts (content result)))),
           st2)
      | (Raises e, st2) =>
          (Returns (Flow.mkFlowState (Flow.input state) (VStr tool)
                      (Flow.arguments state)
                      ("❌ MCP call failed: " ++ exc_str e)),
           st2)
      end.
Proof.
  intros RT executor state st st1 tools tool Hlist Htool Hin.
  unfold Flow.call_mcp_tool.
  rewrite (bind_returns _ _ _ _ _ (print_spec _ st)).
  rewrite (bind_returns _ _ _ _ _ (print_spec _ _)).
  rewrite (bind_returns _ _ _ _ _ Hlist).
  unfold Flow.available, Flow.with_output. rewrite Htool, Hin.
  unfold try_except, bind.
  destruct (Flow.ex_execute_tool executor tool (Flow.arguments state) st1)
    as [[result|e] st2]; reflexivity.
Qed.

(** From here on the programs run on the reference runtime. *)
#[local] Existing Instance Reference.runtime.

(** A world with a key, the configuration of the calculator and a model
    that asks for [add]. *)
Example chatbot_session :
  let world :=
    Chatbot.mkWorld (Some "sk-test")
      (fun _ => Returns (dq "{'mcpServers': {'calculator': {'command': 'python', 'args': ['mcp_server/server.py']}}}"))
      (fun _ _ =>
         Returns (VDict [("choices",
                          VList [VDict [("message",
                                         VDict [("role", VStr "assistant");
                                                ("content",
                                                 VStr (dq "{'tool': 'add', 'arguments': {'numbers': [2, 3]}}"))])]])])) in
  let run := Chatbot.main conforming world ["add 2 and 3"; "quit"] (mkStore [] [] [] []) in
  fst run = Returns tt
  /\ last (stdout (snd run)) "" = "✅ add: [2.0, 3.0] -> 5.0"
  /\ traffic (snd run)
     = [[ReqInitialize; ReqListTools; ReqListTools;
         ReqCallTool "add" [("numbers", VList [VInt 2; VInt 3])]]]
  /\ map running (procs (snd run)) = [true].
Proof. cbv zeta. refine (conj _ (conj _ (conj _ _))); vm_compute; reflexivity. Qed.

(** The theorem at a session of one question. *)
Lemma chatbot_stops_no_worker_witness :
  all_running
    (snd (Chatbot.main conforming
            (Chatbot.mkWorld (Some "sk-test")
               (fun _ => Returns (dq "{'mcpServers': {'calculator': {'command': 'python', 'args': ['mcp_server/server.py']}}}"))
               (fun _ _ => Raises (mkExc "ConnectError" "All connection attempts failed")))
            ["add 2 and 3"; "quit"] (mkStore [] [] [] [])))
  = true.
Proof.
  apply (chatbot_stops_no_worker Reference.runtime conforming
           (Chatbot.mkWorld (Some "sk-test")
              (fun _ => Returns (dq "{'mcpServers': {'calculator': {'command': 'python', 'args': ['mcp_server/server.py']}}}"))
              (fun _ _ => Raises (mkExc "ConnectError" "All connection attempts failed")))
           ["add 2 and 3"; "quit"] (mkStore [] [] [] [])).
  reflexivity.
Defined.

(** The theorem at a world without the variable. *)
Lemma missing_key_stops_before_any_worker_witness :
  let world :=
    Chatbot.mkWorld None
      (fun _ => Returns (dq "{'mcpServers': {'calculator': {'command': 'python', 'args': ['mcp_server/server.py']}}}"))
      (fun _ _ => Raises (mkExc "ConnectError" "All connection attempts failed")) in
  let run := Chatbot.main conforming world ["add 2 and 3"; "quit"] (mkStore [] [] [] []) in
  procs (snd run) = []
  /\ stdout (snd run) = []
  /\ log (snd run) = []
  /\ (exists e, fst run = Raises e)
  /\ (forall servers_config entries,
        Chatbot.load_config world "mcp_simple_chatbot/servers_config.json"
        = Returns servers_config ->
        Chatbot.server_entries servers_config = Returns entries ->
        fst run
        = Raises (mkExc "ValueError" "OPENAI_API_KEY not found in .env file")).
Proof.
  cbv zeta.
  apply (missing_key_stops_before_any_worker Reference.runtime conforming
           (Chatbot.mkWorld None
              (fun _ => Returns (dq "{'mcpServers': {'calculator': {'command': 'python', 'args': ['mcp_server/server.py']}}}"))
              (fun _ _ => Raises (mkExc "ConnectError" "All connection attempts failed")))
           ["add 2 and 3"; "quit"] (mkStore [] [] [] [])).
  left. reflexivity.
Defined.

(** The theorem at a body without [choices]. *)
Lemma failed_exchange_is_shown_as_an_answer_witness :
  let world :=
    Chatbot.mkWorld (Some "sk-test") (fun _ => Returns "{}")
      (fun _ _ => Returns (VDict [("error", VStr "rate limit")])) in
  let ready := snd (initialize conforming 0 boot) in
  (llm_response <- Chatbot.get_response world (Chatbot.mkLLMClient "sk-test")
                     [("user", "hello")] ;;
   Chatbot.answer conforming [0] llm_response) ready
  = (Returns tt,
     mkStore (procs ready) (Client.servers ready)
       (app (stdout ready)
          [ nl ++ "LLM Response:" ++ nl
               ++ " Error: Failed to get response from OpenAI.";
            "OpenAI: Error: Failed to get response from OpenAI." ])
       (app (log ready)
          ["ERROR - Error from OpenAI: " ++ exc_str (mkExc "KeyError" "'choices'")])).
Proof.
  cbv zeta.
  apply (failed_exchange_is_shown_as_an_answer Reference.runtime conforming
           (Chatbot.mkWorld (Some "sk-test") (fun _ => Returns "{}")
              (fun _ _ => Returns (VDict [("error", VStr "rate limit")])))
           [0] (Chatbot.mkLLMClient "sk-test") [("user", "hello")]
           (snd (initialize conforming 0 boot)) (mkExc "KeyError" "'choices'")).
  reflexivity.
Defined.

(** The theorem at a completion whose content is [null]. *)
Lemma content_that_is_no_text_ends_the_chat_witness :
  let world :=
    Chatbot.mkWorld (Some "sk-test") (fun _ => Returns "{}")
      (fun _ _ =>
         Returns (VDict [("choices",
                          VList [VDict [("message",
                                         VDict [("role", VStr "assistant");
                                                ("content", VNone)])]])])) in
  let ready := snd (initialize conforming 0 boot) in
  Chatbot.loop conforming world [0] (Chatbot.mkLLMClient "sk-test")
    ["add 2 and 3"; "quit"] [] ready
  = (Raises (mkExc "AttributeError"
               ("'" ++ type_name VNone ++ "' object has no attribute 'startswith'")),
     printed (nl ++ "LLM Response:" ++ nl ++ " " ++ py_str VNone) ready).
Proof.
  cbv zeta.
  apply (content_that_is_no_text_ends_the_chat Reference.runtime conforming
           (Chatbot.mkWorld (Some "sk-test") (fun _ => Returns "{}")
              (fun _ _ =>
                 Returns (VDict [("choices",
                                  VList [VDict [("message",
                                                 VDict [("role", VStr "assistant");
                                                        ("content", VNone)])]])])))
           [0] (Chatbot.mkLLMClient "sk-test") "add 2 and 3" ["quit"] []
           (snd (initialize conforming 0 boot)) VNone).
  - reflexivity.
  - reflexivity.
  - discriminate.
Defined.

(** The theorem at a request for [multiply] on the deployment, once
    initialized, over the executor of the specification: the worker
    receives the one call. *)
Lemma known_tool_is_called_once_witness :
  let state :=
    Flow.mkFlowState "" (VStr "multiply") (VDict [("numbers", VList [VInt 6; VInt 7])])
      "" in
  let ready := snd (initialize conforming 0 boot) in
  let run := Flow.call_mcp_tool (Flow.registry_executor conforming 0 Worker.list_tools)
               state ready in
  fst run
  = Returns (Flow.mkFlowState "" (VStr "multiply")
               (VDict [("numbers", VList [VInt 6; VInt 7])])
               "✅ multiply: [6.0, 7.0] -> 42.0")
  /\ traffic (snd run)
     = [[ReqInitialize; ReqCallTool "multiply" [("numbers", VList [VInt 6; VInt 7])]]].
Proof.
  cbv zeta.
  rewrite (known_tool_is_called_once Reference.runtime
             (Flow.registry_executor conforming 0 Worker.list_tools)
             (Flow.mkFlowState "" (VStr "multiply")
                (VDict [("numbers", VList [VInt 6; VInt 7])]) "")
             (snd (initialize conforming 0 boot))
             (printed "📦 Arguments: {'numbers': [6, 7]}"
                (printed "🔍 Calling tool: multiply"
                   (snd (initialize conforming 0 boot))))
             Worker.list_tools "multiply" eq_refl eq_refl eq_refl).
  split; vm_compute; reflexivity.
Defined.

End SessionExtras.

(** ** The fences around a directive *)

Module FenceExtras.
Import PyStr Py Mcp Json Client.

Lemma prefix_backquote (p r : string) (c : ascii) :
  Ascii.eqb "`" c = false -> String.prefix (String "`" p) (String c r) = false.
Proof.
  intros H.
  change (String.prefix (String "`" p) (String c r))
    with (if ascii_dec "`" c then String.prefix p r else false).
  destruct (ascii_dec "`" c) as [E|E]; [|reflexivity].
  subst c. discriminate.
Qed.

Lemma prefix_append (p x : string) : String.prefix p (p ++ x) = true.
Proof.
  induction p as [|a p IH].
  - destruct x; reflexivity.
  - change (String.prefix (String a p) (String a p ++ x))
      with (if ascii_dec a a then String.prefix p (p ++ x) else false).
    destruct (ascii_dec a a) as [_|E]; [exact IH|]. exfalso. apply E. reflexivity.
Qed.

Lemma open_fence_plain (c : ascii) (r : string) :
  Ascii.eqb "`" c = false -> Flow.open_fence (String c r) = None.
Proof.
  intros H. unfold Flow.open_fence, startswith. cbn [append].
  rewrite !(prefix_backquote _ r c H). reflexivity.
Qed.

(** A text without a backquote has no fence to remove. *)
Lemma sub_fences_plain (fuel : nat) (s : string) :
  mem_char "`" s = false -> Flow.sub_fences fuel s = s.
Proof.
  revert s. induction fuel as [|fuel IH]; intros s H; [reflexivity|].
  destruct s as [|c r]; [reflexivity|].
  simpl in H. apply orb_false_iff in H. destruct H as [Hc Hr].
  cbn [Flow.sub_fences]. rewrite (open_fence_plain c r Hc), (IH r Hr). reflexivity.
Qed.

(** The first three backquotes after a text without any are those that
    follow it. *)
Lemma cut_plain (body post : string) :
  mem_char "`" body = false ->
  cut Flow.fence (body ++ "```" ++ post) = Some (body, post).
Proof.
  induction body as [|c b IH]; intros H.
  - destruct post; reflexivity.
  - simpl in H. apply orb_false_iff in H. destruct H as [Hc Hb].
    change ((String c b ++ "```" ++ post)%string)
      with (String c (b ++ "```" ++ post)).
    cbn [cut]. unfold Flow.fence at 1.
    rewrite (prefix_backquote _ _ c Hc). rewrite (IH Hb). reflexivity.
Qed.

Lemma sub_fences_fenced (opening pre body post : string) (fuel : nat) :
  opening = "```json" ++ nl \/ opening = "```" ++ nl ->
  mem_char "`" pre = false ->
  mem_char "`" body = false ->
  mem_char "`" post = false ->
  String.length pre < fuel ->
  Flow.sub_fences fuel (pre ++ opening ++ body ++ "```" ++ post)
  = (pre ++ body ++ post)%string.
Proof.
  intros Hopen Hpre Hbody Hpost. revert fuel.
  induction pre as [|c pre IH]; intros fuel Hfuel.
  - destruct fuel as [|fuel]; [simpl in Hfuel; lia|].
    assert (Hfence : Flow.open_fence (opening ++ body ++ "```" ++ post)
                     = Some (body ++ "```" ++ post)%string).
    { unfold Flow.open_fence, startswith. destruct Hopen as [-> | ->].
      - rewrite prefix_append. reflexivity.
      - assert (Hno : String.prefix ("```json" ++ nl)
                        (("```" ++ nl) ++ body ++ "```" ++ post) = false)
          by (vm_compute; reflexivity).
        rewrite Hno, prefix_append. reflexivity. }
    assert (Hhead : exists c r, (opening ++ body ++ "```" ++ post)%string = String c r).
    { destruct Hopen as [-> | ->]; eexists; eexists; reflexivity. }
    destruct Hhead as (c & r & Hhead).
    change (("" ++ opening ++ body ++ "```" ++ post)%string)
      with ((opening ++ body ++ "```" ++ post)%string).
    rewrite Hhead. cbn [Flow.sub_fences]. rewrite <- Hhead, Hfence.
    rewrite (cut_plain body post Hbody), (sub_fences_plain fuel post Hpost).
    reflexivity.
  - simpl in Hpre. apply orb_false_iff in Hpre. destruct Hpre as [Hc Hpre].
    destruct fuel as [|fuel]; [simpl in Hfuel; lia|].
    change ((String c pre ++ opening ++ body ++ "```" ++ post)%string)
      with (String c (pre ++ opening ++ body ++ "```" ++ post)).
    cbn [Flow.sub_fences]. rewrite (open_fence_plain c _ Hc).
    rewrite (IH Hpre fuel); [reflexivity|]. simpl in Hfuel. lia.
Qed.

Lemma length_before (pre rest : string) (c : ascii) :
  String.length pre < String.length (pre ++ String c rest).
Proof. induction pre as [|d pre IH]; simpl; lia. Qed.

Lemma append_empty (s : string) : (s ++ "")%string = s.
Proof. induction s as [|c s IH]; simpl; congruence. Qed.

(** X25: what [plan_tool_call] removes. A text without a backquote is left
    as it is. Around a block without a backquote, the opening line, labelled
    [json] or not, and the closing backquotes are taken out and the text
    before, inside and after is kept. A directive alone in such a block is
    therefore decoded exactly as the bare directive is. *)
Theorem fences_are_removed_around_plain_text :
  forall (RT : Runtime) (pre body post : string),
    mem_char "`" pre = false ->
    mem_char "`" body = false ->
    mem_char "`" post = false ->
    Flow.remove_code_fences pre = pre
    /\ Flow.remove_code_fences (pre ++ ("```json" ++ nl) ++ body ++ "```" ++ post)
       = (pre ++ body ++ post)%string
    /\ Flow.remove_code_fences (pre ++ ("```" ++ nl) ++ body ++ "```" ++ post)
       = (pre ++ body ++ post)%string
    /\ forall state,
         Flow.decode_tool_call (Flow.ContentStr (("```json" ++ nl) ++ body ++ "```")) state
         = Flow.decode_tool_call (Flow.ContentStr body) state.
Proof.
  intros RT pre body post Hpre Hbody Hpost.
  assert (Hjson : forall pre post,
             mem_char "`" pre = false -> mem_char "`" post = false ->
             Flow.remove_code_fences (pre ++ ("```json" ++ nl) ++ body ++ "```" ++ post)
             = (pre ++ body ++ post)%string).
  { intros pre' post' Hpre' Hpost'. unfold Flow.remove_code_fences.
    apply sub_fences_fenced; auto. apply length_before. }
  refine (conj _ (conj _ (conj _ _))).
  - apply sub_fences_plain, Hpre.
  - apply Hjson; assumption.
  - unfold Flow.remove_code_fences.
    apply sub_fences_fenced; auto. apply length_before.
  - intros state. unfold Flow.decode_tool_call. cbn [Flow.joined].
    pose proof (Hjson "" "" eq_refl eq_refl) as H.
    change (("" ++ ("```json" ++ nl) ++ body ++ "```" ++ "")%string)
      with ((("```json" ++ nl) ++ body ++ "```")%string) in H.
    rewrite H. change (("" ++ body ++ "")%string) with ((body ++ "")%string).
    rewrite append_empty.
    unfold Flow.remove_code_fences at 1. rewrite (sub_fences_plain _ body Hbody).
    reflexivity.
Qed.

(** The theorem at a directive for [add] with a sentence before it. *)
Lemma fences_are_removed_around_plain_text_witness :
  Flow.remove_code_fences "Here is the call: " = "Here is the call: "
  /\ Flow.remove_code_fences
       ("Here is the call: " ++ ("```json" ++ nl)
          ++ dq "{'tool_name': 'add', 'arguments': {'numbers': [2, 3]}}" ++ "```" ++ nl)
     = ("Here is the call: "
          ++ dq "{'tool_name': 'add', 'arguments': {'numbers': [2, 3]}}" ++ nl)%string
  /\ Flow.remove_code_fences
       ("Here is the call: " ++ ("```" ++ nl)
          ++ dq "{'tool_name': 'add', 'arguments': {'numbers': [2, 3]}}" ++ "```" ++ nl)
     = ("Here is the call: "
          ++ dq "{'tool_name': 'add', 'arguments': {'numbers': [2, 3]}}" ++ nl)%string
  /\ forall state,
       Flow.decode_tool_call (RT := Reference.runtime)
         (Flow.ContentStr
            (("```json" ++ nl)
               ++ dq "{'tool_name': 'add', 'arguments': {'numbers': [2, 3]}}" ++ "```"))
         state
       = Flow.decode_tool_call (RT := Reference.runtime)
           (Flow.ContentStr (dq "{'tool_name': 'add', 'arguments': {'numbers': [2, 3]}}"))
           state.
Proof.
  apply (fences_are_removed_around_plain_text Reference.runtime "Here is the call: "
           (dq "{'tool_name': 'add', 'arguments': {'numbers': [2, 3]}}") nl);
    reflexivity.
Defined.

End FenceExtras.

(** ** The tools that are listed and the tools that are handled *)

Module DispatchExtras.
Import PyStr Py PyEval Mcp Json Client Deployment ClientFacts FlowFacts.
Local Open Scope py_scope.

Section Dispatch.
Context {RT : Runtime}.

(** Printing the blocks of a result adds the texts of its text blocks to
    the console, in order. *)
Lemma print_contents_spec (contents : list TextContent) (st : Store) :
  Chat.print_contents contents st
  = (Returns tt,
     mkStore (procs st) (servers st) (app (stdout st) (Flow.texts contents)) (log st)).
Proof.
  revert st. induction contents as [|c rest IH]; intros st.
  - simpl. rewrite app_nil_r. destruct st. reflexivity.
  - cbn [Chat.print_contents Flow.texts]. unfold bind at 1.
    destruct (String.eqb (type c) "text").
    + rewrite print_spec, IH. unfold printed. cbn [procs servers stdout log].
      rewrite <- app_assoc. reflexivity.
    + unfold ret at 1. apply IH.
Qed.
End Dispatch.

Ltac other_text :=
  let H := fresh in
  intros H; cbn [fst] in H; unfold Worker.success, text_block in H;
  simpl in H; congruence.

(** X26: every tool that a worker lists is handled by it. For each of the
    five names, whatever the arguments, neither the calculator nor the graph
    worker answers with its unknown-tool block. *)
Theorem advertised_tools_are_handled :
  forall (RT : Runtime) (name : string) (arguments : PyDict),
    In name (map Mcp.name Worker.list_tools) ->
    In name (map Mcp.name GraphWorker.list_tools)
    /\ Worker.call_tool name arguments
       <> Answers (text_block ("❌ Unknown tool: " ++ name))
    /\ GraphWorker.call_tool name arguments
       <> Answers (text_block ("Unknown tool: " ++ name)).
Proof.
  intros RT name arguments Hname. split; [exact Hname|]. split.
  - unfold Worker.call_tool, Worker.call_tool_traced, Worker.call_tool_body.
    simpl in Hname.
    destruct Hname as [<-|[<-|[<-|[<-|[<-|[]]]]]]; simpl;
      try (unfold Worker.arithmetic;
           destruct (Worker.CalcInput arguments) as [nums|e]; simpl;
           [destruct (List.length nums <? 2)%nat; simpl;
            [other_text|
             destruct (Worker.first_item nums) as [result|e]; simpl;
             [unfold Worker.calculate; simpl|other_text]]
           |other_text]).
    + destruct (Worker.sum_from 0 nums). other_text.
    + destruct (Worker.subtract_loop result (tl nums)). other_text.
    + destruct (Worker.multiply_loop 1 nums). other_text.
    + destruct (Worker.divide_loop result (tl nums)) as [[r|] ops]; other_text.
    + destruct (Worker.ExpressionInput arguments) as [source|e]; simpl;
        [|other_text].
      destruct (py_eval source Worker.eval_globals Worker.allowed_names); other_text.
  - unfold GraphWorker.call_tool, GraphWorker.create_math_flow,
      GraphWorker.arguments_input.
    simpl in Hname.
    destruct Hname as [<-|[<-|[<-|[<-|[<-|[]]]]]]; simpl;
      (destruct (dict_get "input" arguments) as [v|]; simpl; [|other_text]).
    + unfold GraphWorker.add_node.
      destruct (GraphWorker.nums_of _); other_text.
    + unfold GraphWorker.subtract_node.
      destruct (GraphWorker.nums_of _) as [nums|e]; simpl; [|other_text].
      destruct (GraphWorker.nums_0 nums); other_text.
    + unfold GraphWorker.multiply_node.
      destruct (GraphWorker.nums_of _); other_text.
    + unfold GraphWorker.divide_node.
      destruct (GraphWorker.nums_of _) as [nums|e]; simpl; [|other_text].
      destruct (GraphWorker.nums_0 nums) as [result|e]; simpl; [|other_text].
      destruct (GraphWorker.divide_loop result (tl nums)); other_text.
    + unfold GraphWorker.evaluate_expression_node. simpl.
      destruct v; simpl; try other_text.
      destruct (py_eval s _ _); other_text.
Qed.

(** The theorem at [divide] called without arguments. *)
Lemma advertised_tools_are_handled_witness :
  In "divide" (map Mcp.name GraphWorker.list_tools)
  /\ Worker.call_tool (RT := Reference.runtime) "divide" []
     <> Answers (text_block ("❌ Unknown tool: " ++ "divide"))
  /\ GraphWorker.call_tool (RT := Reference.runtime) "divide" []
     <> Answers (text_block ("Unknown tool: " ++ "divide")).
Proof.
  apply (advertised_tools_are_handled Reference.runtime "divide" []).
  simpl. auto.
Defined.

(** X27: the chat loop gives a tool call to the first server that lists
    the tool. That server's worker receives the listing and the call, the
    console gets the announcement, the heading and the texts of the answer,
    and no other worker is contacted, whichever servers come after it. *)
Theorem first_server_with_the_tool_runs_it :
  forall (RT : Runtime) (env : Env) (server : nat) (rest : list nat) (st : Store)
         (s : MCPServer) (pid : nat) (p : Process) (tool : string) (d : PyDict),
    nth_error (servers st) server = Some s ->
    session s = Some pid ->
    nth_error (procs st) pid = Some p ->
    running p = true ->
    existsb (fun t => String.eqb (name t) tool) (tools_of env (params p)) = true ->
    let run := Chat.dispatch env (server :: rest) (VStr tool) (VDict d) st in
    fst run = Returns tt
    /\ stdout (snd run)
       = app (stdout st)
           (app [ nl ++ "Executing " ++ tool ++ " with args: " ++ py_str (VDict d);
                  "Tool Output:" ]
                (Flow.texts (handler_of env (params p) tool d)))
    /\ option_map received (nth_error (procs (snd run)) pid)
       = Some (app (received p) [ReqListTools; ReqCallTool tool d])
    /\ (forall other, other <> pid ->
                      nth_error (procs (snd run)) other = nth_error (procs st) other).
Proof.
  intros RT env server rest st s pid p tool d Hs Hsess Hp Hrun Hlisted run.
  subst run. cbn [Chat.dispatch].
  rewrite (bind_returns _ _ _ _ _ (list_tools_spec env server st s pid p Hs Hsess Hp Hrun)).
  unfold Chat.matching_tool. rewrite Hlisted.
  rewrite (bind_returns _ _ _ _ _ (print_spec _ _)).
  set (st1 := printed _ (requested pid ReqListTools st)).
  assert (Hp1 : nth_error (procs st1) pid = Some (deliver ReqListTools p)).
  { subst st1. cbn [printed requested procs]. rewrite nth_error_update_nth, Hp.
    reflexivity. }
  rewrite (bind_returns _ _ _ _ _
             (ClientExtras.execute_tool_spec env server st1 s pid
                (deliver ReqListTools p) tool d Hs Hsess Hp1 Hrun)).
  rewrite (bind_returns _ _ _ _ _ (print_spec _ _)).
  rewrite print_contents_spec. cbn [fst snd content].
  refine (conj eq_refl (conj _ (conj _ _))).
  - subst st1. cbn [printed requested stdout]. rewrite <- !app_assoc. reflexivity.
  - cbn [printed requested procs]. rewrite nth_error_update_nth, Hp1.
    simpl. rewrite <- app_assoc. reflexivity.
  - intros other Hother. cbn [printed requested procs].
    rewrite (ClientExtras.nth_error_update_nth_other _ _ _ _ Hother).
    subst st1. cbn [printed requested procs].
    apply (ClientExtras.nth_error_update_nth_other _ _ _ _ Hother).
Qed.

(** From here on the programs run on the reference runtime. *)
#[local] Existing Instance Reference.runtime.

(** The theorem at a call of [add] on the deployment, once initialized, with
    a second server after the first. *)
Lemma first_server_with_the_tool_runs_it_witness :
  let ready := snd (initialize (RT := Reference.runtime) conforming 0 boot) in
  let worker := mkProcess (mkParams "python" ["mcp_server/server.py"]) true
                  [ReqInitialize] in
  let d := [("numbers", VList [VInt 2; VInt 3])] in
  let run := Chat.dispatch (RT := Reference.runtime) conforming [0; 1] (VStr "add")
               (VDict d) ready in
  fst run = Returns tt
  /\ stdout (snd run)
     = app (stdout ready)
         (app [ nl ++ "Executing " ++ "add" ++ " with args: "
                   ++ py_str (RT := Reference.runtime) (VDict d);
                "Tool Output:" ]
              (Flow.texts (handler_of (conforming (RT := Reference.runtime))
                             (params worker) "add" d)))
  /\ option_map received (nth_error (procs (snd run)) 0)
     = Some (app (received worker) [ReqListTools; ReqCallTool "add" d])
  /\ (forall other, other <> 0 ->
                    nth_error (procs (snd run)) other = nth_error (procs ready) other).
Proof.
  cbv zeta.
  apply (first_server_with_the_tool_runs_it Reference.runtime conforming 0 [1]
           (snd (initialize (RT := Reference.runtime) conforming 0 boot))
           (mkMCPServer "calculator" calculator_config (Some 0)
              (Some [Session 0; StdioClient 0]))
           0 (mkProcess (mkParams "python" ["mcp_server/server.py"]) true
                [ReqInitialize])
           "add" [("numbers", VList [VInt 2; VInt 3])]); reflexivity.
Defined.

End DispatchExtras.

(** ** The system prompt of the chat bot *)

Module PromptExtras.
Import PyStr Py Mcp Client.

Lemma dict_get_set_other (k k' : string) (v : PyVal) (d : PyDict) :
  String.eqb k k' = false -> dict_get k (dict_set k' v d) = dict_get k d.
Proof.
  intros Hne. induction d as [|[key x] d IH]; simpl.
  - rewrite Hne. reflexivity.
  - destruct (String.eqb k' key) eqn:E; simpl.
    + apply String.eqb_eq in E. subst key. rewrite Hne. reflexivity.
    + destruct (String.eqb k key); [reflexivity|exact IH].
Qed.

(** X28: the line of a tool in the system prompt. What it lists after
    [Required args:] is every key of the [properties] of the tool's schema, in
    the schema's order; the [required] entry of the schema is not consulted,
    so the line is the same whatever that entry holds. *)
Theorem required_args_are_the_schema_properties :
  forall (tool : Tool) (d : PyDict) (required : PyVal),
    dict_get "properties" (inputSchema tool) = Some (VDict d) ->
    Chat.describe [tool]
    = Returns [ "- " ++ name tool ++ ": " ++ Chat.description_str tool ++ nl
                  ++ "  Required args: " ++ join ", " (dict_keys d) ]
    /\ Chat.describe
         [mkTool (name tool) (description tool)
            (dict_set "required" required (inputSchema tool))]
       = Chat.describe [tool].
Proof.
  intros tool d required Hprops.
  assert (Hone : forall schema,
             dict_get "properties" schema = Some (VDict d) ->
             Chat.describe [mkTool (name tool) (description tool) schema]
             = Returns [ "- " ++ name tool ++ ": " ++ Chat.description_str tool ++ nl
                           ++ "  Required args: " ++ join ", " (dict_keys d) ]).
  { intros schema H. cbn [Chat.describe]. unfold Chat.schema_properties.
    cbn [inputSchema]. rewrite H. reflexivity. }
  assert (Htool : Chat.describe [tool]
                  = Returns [ "- " ++ name tool ++ ": " ++ Chat.description_str tool
                                ++ nl ++ "  Required args: " ++ join ", " (dict_keys d) ]).
  { destruct tool as [n descr schema]. apply (Hone schema Hprops). }
  split; [exact Htool|].
  rewrite Htool. apply Hone.
  rewrite dict_get_set_other by reflexivity. exact Hprops.
Qed.

(** The theorem at the [add] tool of the calculator, its [required] entry
    emptied. *)
Lemma required_args_are_the_schema_properties_witness :
  Chat.describe [mkTool "add" (Some "Add numbers") Worker.CalcInput_schema]
  = Returns [ "- " ++ "add" ++ ": " ++ "Add numbers" ++ nl
                ++ "  Required args: " ++ "numbers" ]
  /\ Chat.describe
       [mkTool "add" (Some "Add numbers")
          (dict_set "required" (VList []) Worker.CalcInput_schema)]
     = Chat.describe [mkTool "add" (Some "Add numbers") Worker.CalcInput_schema].
Proof.
  apply (required_args_are_the_schema_properties
           (mkTool "add" (Some "Add numbers") Worker.CalcInput_schema)
           [ ("numbers",
               VDict [ ("items", VDict [("type", VStr "number")]);
                       ("title", VStr "Numbers");
                       ("type", VStr "array") ]) ]
           (VList [])).
  reflexivity.
Defined.

End PromptExtras.
